(** * Open WebUI bulk ingestion and query tools: a shallow embedding

    This development embeds the two programs of the repository,
    [ingest.py] (bulk upload of a folder into a knowledge collection) and
    [openwebui_mcp.py] (the collection listing and question answering
    tools), and proves properties of their control flow.

    The programs talk to an HTTP backend, read a clock, sleep, read files
    and print.  All of that is made explicit: a [world] carries the clock
    and a chronological trace of the effects performed so far, and an
    [environment] answers every request as a function of the requests that
    preceded it.  Python exceptions are values of type [exn] threaded
    through a small state-and-error monad. *)

From Stdlib Require Import QArith Lqa ZArith String Ascii List DecimalString.
From Stdlib Require Import Sorted Permutation.
From stdpp Require Import base decidable list strings gmap.

Local Open Scope string_scope.
Local Open Scope list_scope.

(** ** Python values

    Strings are sequences of 8-bit characters (the UTF-8 encoding of the
    Python text).  The case and printability tables below are the ASCII
    ones; bytes from 128 up are left as they are. *)

(** What [response.json()] can return.  Numbers are the integers. *)
#[local] Set Warnings "-register-all".
Inductive json : Type :=
| JNull
| JBool (b : bool)
| JNum (n : Z)
| JStr (s : string)
| JArr (l : list json)
| JObj (m : list (string * json)).

Inductive exit_arg : Type :=
| ExitMsg (msg : string)
| ExitCode (code : Z).

(** The exceptions the two programs can meet.  [HTTPError] is raised by
    [raise_for_status] and carries the status code and text of the
    response; [RequestException] stands for a transport failure (refused
    connection, timeout). *)
Inductive exn : Type :=
| HTTPError (status : Z) (text : string)
| RequestException
| JSONDecodeError
| AttributeError
| KeyError (key : string)
| IndexError
| TypeError
| OSError
| ValueError
| SystemExit (arg : exit_arg).

(** [except Exception] catches everything but [SystemExit]. *)
Definition is_Exception (e : exn) : bool :=
  match e with
  | SystemExit _ => false
  | _ => true
  end.

Module Py.

(** Lookup in a dict, first binding of the key. *)
Fixpoint assoc (k : string) (m : list (string * json)) : option json :=
  match m with
  | [] => None
  | (k', v) :: m' => if String.eqb k k' then Some v else assoc k m'
  end.

(** [v.get(k, default)]: only a dict has the method. *)
Definition get (v : json) (k : string) (default : json) : exn + json :=
  match v with
  | JObj m => inr (match assoc k m with Some x => x | None => default end)
  | _ => inl AttributeError
  end.

(** [v[k]] with a string key. *)
Definition getitem (v : json) (k : string) : exn + json :=
  match v with
  | JObj m => match assoc k m with Some x => inr x | None => inl (KeyError k) end
  | _ => inl TypeError
  end.

(** [v[0]]: the first element of a list, the first character of a
    string; a dict parsed from JSON has no integer key. *)
Definition getitem0 (v : json) : exn + json :=
  match v with
  | JArr (x :: _) => inr x
  | JArr [] => inl IndexError
  | JStr (String c _) => inr (JStr (String c EmptyString))
  | JStr EmptyString => inl IndexError
  | JObj _ => inl (KeyError "0")
  | _ => inl TypeError
  end.

Fixpoint chars (s : string) : list json :=
  match s with
  | EmptyString => []
  | String c s' => JStr (String c EmptyString) :: chars s'
  end.

(** [for x in v]: the elements of a list, the keys of a dict, the
    characters of a string. *)
Definition iter (v : json) : exn + list json :=
  match v with
  | JArr l => inr l
  | JObj m => inr (map (fun kv => JStr (fst kv)) m)
  | JStr s => inr (chars s)
  | _ => inl TypeError
  end.

(** [v == s] for a string [s]. *)
Definition eq_str (v : json) (s : string) : bool :=
  match v with
  | JStr t => String.eqb t s
  | _ => false
  end.

(** [v is None] *)
Definition is_None (v : json) : bool :=
  match v with
  | JNull => true
  | _ => false
  end.

Definition isinstance_dict (v : json) : bool :=
  match v with
  | JObj _ => true
  | _ => false
  end.

(** [bool(s)] for a string. *)
Definition truthy (s : string) : bool :=
  match s with
  | EmptyString => false
  | _ => true
  end.

(** [a or b] on optional strings ([None] and [""] are falsy). *)
Definition or_else (a : option string) (b : string) : string :=
  match a with
  | Some s => if truthy s then s else b
  | None => b
  end.

Definition lower_ascii (c : ascii) : ascii :=
  let n := nat_of_ascii c in
  if (65 <=? n)%nat && (n <=? 90)%nat then ascii_of_nat (n + 32) else c.

(** [s.lower()] *)
Fixpoint lower (s : string) : string :=
  match s with
  | EmptyString => EmptyString
  | String c s' => String (lower_ascii c) (lower s')
  end.

(** [s.startswith(".")] *)
Definition startswith_dot (s : string) : bool :=
  match s with
  | String c _ => Ascii.eqb c "."
  | EmptyString => false
  end.

(** [s.split(",")]: never empty, [""] gives [[""]]. *)
Fixpoint split_comma (s : string) : list string :=
  match s with
  | EmptyString => [EmptyString]
  | String c s' =>
      if Ascii.eqb c ","
      then EmptyString :: split_comma s'
      else match split_comma s' with
           | h :: t => String c h :: t
           | [] => [String c EmptyString]
           end
  end.

(** [s.rstrip("/")] *)
Fixpoint rstrip_slash (s : string) : string :=
  match s with
  | EmptyString => EmptyString
  | String c s' =>
      match rstrip_slash s' with
      | EmptyString => if Ascii.eqb c "/" then EmptyString else String c EmptyString
      | r => String c r
      end
  end.

(** [s[:n]] *)
Fixpoint take (n : nat) (s : string) : string :=
  match n, s with
  | S n', String c s' => String c (take n' s')
  | _, _ => EmptyString
  end.

Fixpoint join (sep : string) (l : list string) : string :=
  match l with
  | [] => EmptyString
  | [x] => x
  | x :: l' => x +:+ sep +:+ join sep l'
  end.

(** [str(n)] for integers. *)
Definition str_Z (n : Z) : string :=
  match n with
  | Z0 => "0"
  | Zpos p => NilEmpty.string_of_uint (Pos.to_uint p)
  | Zneg p => "-" +:+ NilEmpty.string_of_uint (Pos.to_uint p)
  end.

Definition str_nat (n : nat) : string := str_Z (Z.of_nat n).

Fixpoint contains (c : ascii) (s : string) : bool :=
  match s with
  | EmptyString => false
  | String d s' => Ascii.eqb c d || contains c s'
  end.

Definition hex_digit (n : nat) : ascii :=
  if (n <? 10)%nat then ascii_of_nat (48 + n) else ascii_of_nat (87 + n).

Definition backslash : ascii := ascii_of_nat 92.
Definition dquote : ascii := ascii_of_nat 34.
Definition squote : ascii := ascii_of_nat 39.

Definition escape (c : ascii) : string := String backslash (String c EmptyString).

(** One character of [repr(s)] inside the quote character [q]. *)
Definition repr_char (q c : ascii) : string :=
  let n := nat_of_ascii c in
  if Ascii.eqb c q || Ascii.eqb c backslash then escape c
  else if (n =? 9)%nat then escape "t"
  else if (n =? 10)%nat then escape "n"
  else if (n =? 13)%nat then escape "r"
  else if (n <? 32)%nat || (n =? 127)%nat
       then String backslash (String "x" (String (hex_digit (n / 16))
              (String (hex_digit (n mod 16)) EmptyString)))
  else String c EmptyString.

Fixpoint repr_chars (q : ascii) (s : string) : string :=
  match s with
  | EmptyString => EmptyString
  | String c s' => repr_char q c +:+ repr_chars q s'
  end.

(** [repr(s)]: single quotes, unless the string has a single quote and
    no double quote. *)
Definition repr_str (s : string) : string :=
  let q := if contains squote s && negb (contains dquote s)
           then dquote else squote in
  String q (repr_chars q s +:+ String q EmptyString).

(** [repr(v)] *)
Fixpoint repr (v : json) : string :=
  match v with
  | JNull => "None"
  | JBool true => "True"
  | JBool false => "False"
  | JNum n => str_Z n
  | JStr s => repr_str s
  | JArr l => "[" +:+ join ", " (map repr l) +:+ "]"
  | JObj m =>
      "{" +:+ join ", " (map (fun kv => repr_str (fst kv) +:+ ": " +:+ repr (snd kv)) m)
          +:+ "}"
  end.

(** [str(v)], what an f-string interpolates. *)
Definition str (v : json) : string :=
  match v with
  | JStr s => s
  | _ => repr v
  end.

End Py.

(** ** The outside world *)

Inductive method : Type := GET | POST.

(** What a request carries besides its URL: nothing, a JSON document
    ([json=...]) or one multipart file ([files={"file": (name, fh, mime)}]). *)
Inductive payload : Type :=
| NoBody
| JsonBody (j : json)
| FileBody (field filename content mime : string).

Record request : Type := mkRequest {
  meth : method;
  url : string;
  headers : list (string * string);
  body : payload;
  timeout : Z
}.

Record response : Type := mkResponse {
  status_code : Z;
  text : string;
  json_body : option json  (* [None]: the body is not a JSON document *)
}.

(** The answer to one request: how long it took and, unless the transport
    failed, the response. *)
Record reply : Type := mkReply {
  elapsed : Q;
  answer : option response
}.

Definition path : Type := list string.

Inductive event : Type :=
| Sent (r : request)
| Slept (seconds : Q)
| Wrote (s : string).

Record world : Type := mkWorld {
  now : Q;
  trace : list event
}.

(** The requests of a trace, oldest first. *)
Fixpoint requests (t : list event) : list request :=
  match t with
  | [] => []
  | Sent r :: t' => r :: requests t'
  | _ :: t' => requests t'
  end.

(** What was printed. *)
Fixpoint stdout (t : list event) : list string :=
  match t with
  | [] => []
  | Wrote s :: t' => s :: stdout t'
  | _ :: t' => stdout t'
  end.

(** The backend is any function from the requests made so far and the
    current one to a reply.  [oversleep] is how much longer than asked a
    sleep lasts.  The file system is read-only: [resolve] is
    [Path(s).expanduser().resolve()], [rglob] lists the paths below a folder
    relative to it, in the order the directory walk finds them, and
    [read_file] is [None] where [open] fails.  [guess_type] is the table of
    [mimetypes], [environ] the process environment, [exc_str] the text of
    [str(e)]. *)
Record environment : Type := mkEnv {
  serve : list request -> request -> reply;
  oversleep : list request -> Q;
  resolve : string -> path;
  is_dir : path -> bool;
  is_file : path -> bool;
  rglob : path -> list path;
  read_file : path -> option string;
  guess_type : string -> option string;
  environ : string -> option string;
  exc_str : exn -> string
}.

(** ** Computations: state, exceptions, and running out of fuel *)

Inductive result (A : Type) : Type :=
| Ret (a : A)
| Raise (e : exn)
| Diverge.
Arguments Ret {A} a.
Arguments Raise {A} e.
Arguments Diverge {A}.

Definition M (A : Type) : Type := world -> result A * world.

Definition ret {A} (a : A) : M A := fun w => (Ret a, w).

Definition raise {A} (e : exn) : M A := fun w => (Raise e, w).

Definition diverge {A} : M A := fun w => (Diverge, w).

Definition bind {A B} (c : M A) (k : A -> M B) : M B :=
  fun w =>
    match c w with
    | (Ret a, w') => k a w'
    | (Raise e, w') => (Raise e, w')
    | (Diverge, w') => (Diverge, w')
    end.

Notation "'let*' x ':=' c 'in' k" := (bind c (fun x => k))
  (at level 10, x pattern, c at level 100, k at level 200).
Notation "c ';;' k" := (bind c (fun _ => k))
  (at level 100, k at level 200, right associativity).

Definition lift {A} (r : exn + A) : M A :=
  match r with
  | inl e => raise e
  | inr a => ret a
  end.

(** [try: body / except requests.HTTPError as e: ... / except Exception as e: ...]
    The handler gets every [Exception]; [SystemExit] passes through. *)
Definition try_except {A} (body : M A) (handler : exn -> M A) : M A :=
  fun w =>
    match body w with
    | (Raise e, w') => if is_Exception e then handler e w' else (Raise e, w')
    | other => other
    end.

Definition write (s : string) : M unit :=
  fun w => (Ret tt, mkWorld (now w) (trace w ++ [Wrote s])).

Definition newline : string := String (ascii_of_nat 10) EmptyString.

(** [print(s)] *)
Definition print (s : string) : M unit := write (s +:+ newline).

(** [time.time()] *)
Definition time_time : M Q := fun w => (Ret (now w), w).

Section Transport.

Variable env : environment.

(** [time.sleep(d)] *)
Definition time_sleep (d : Q) : M unit :=
  fun w => (Ret tt, mkWorld (now w + d + oversleep env (requests (trace w)))
                            (trace w ++ [Slept d])).

(** One HTTP exchange. *)
Definition send (rq : request) : M response :=
  fun w =>
    let rp := serve env (requests (trace w)) rq in
    let w' := mkWorld (now w + elapsed rp) (trace w ++ [Sent rq]) in
    match answer rp with
    | Some r => (Ret r, w')
    | None => (Raise RequestException, w')
    end.

(** [requests.Session]: the headers sent with every request. *)
Record session : Type := mkSession { session_headers : list (string * string) }.

Definition session_get (s : session) (u : string) (t : Z) : M response :=
  send (mkRequest GET u (session_headers s) NoBody t).

Definition session_post_json (s : session) (u : string) (j : json) (t : Z) : M response :=
  send (mkRequest POST u (session_headers s) (JsonBody j) t).

Definition session_post_file (s : session) (u : string)
    (filename content mime : string) (t : Z) : M response :=
  send (mkRequest POST u (session_headers s) (FileBody "file" filename content mime) t).

(** [r.raise_for_status()]: the client and server error classes raise. *)
Definition is_error (code : Z) : bool := (400 <=? code)%Z && (code <? 600)%Z.

Definition raise_for_status (r : response) : M unit :=
  if is_error (status_code r) then raise (HTTPError (status_code r) (text r)) else ret tt.

(** [r.json()] *)
Definition response_json (r : response) : M json :=
  match json_body r with
  | Some j => ret j
  | None => raise JSONDecodeError
  end.

End Transport.

(** ** Paths ([pathlib]) *)

Module PathLib.

(** [p.name] *)
Definition name (p : path) : string := List.last p EmptyString.

(** [str(p)] for an absolute path, [str(p.relative_to(q))] for a relative one. *)
Definition str_abs (p : path) : string := "/" +:+ Py.join "/" p.
Definition str_rel (p : path) : string :=
  match p with
  | [] => "."
  | _ => Py.join "/" p
  end.

(** Position of the last dot of a name, [name.rfind('.')]. *)
Fixpoint rfind_dot (s : string) : option nat :=
  match s with
  | EmptyString => None
  | String c s' =>
      match rfind_dot s' with
      | Some i => Some (S i)
      | None => if Ascii.eqb c "." then Some 0%nat else None
      end
  end.

(** [p.suffix]: from the last dot of the name on, when that dot is
    neither the first nor the last character. *)
Definition suffix (p : path) : string :=
  let n := name p in
  match rfind_dot n with
  | Some i =>
      if (0 <? i)%nat && (i <? String.length n - 1)%nat
      then String.substring i (String.length n - i) n
      else EmptyString
  | None => EmptyString
  end.

(** [p.relative_to(folder)] *)
Fixpoint relative_to (p folder : path) : option path :=
  match folder, p with
  | [], _ => Some p
  | f :: folder', c :: p' => if String.eqb f c then relative_to p' folder' else None
  | _ :: _, [] => None
  end.

(** The order of paths: component by component, each by character code. *)
Fixpoint leb (p q : path) : bool :=
  match p, q with
  | [], _ => true
  | _ :: _, [] => false
  | a :: p', b :: q' =>
      match String.compare a b with
      | Lt => true
      | Gt => false
      | Eq => leb p' q'
      end
  end.

Fixpoint insert_sorted (p : path) (l : list path) : list path :=
  match l with
  | [] => [p]
  | q :: l' => if leb p q then p :: l else q :: insert_sorted p l'
  end.

(** [sorted(l)] *)
Definition sorted (l : list path) : list path := fold_right insert_sorted [] l.

End PathLib.


(** ** ingest.py *)

Module Ingest.

(** File types Open WebUI can extract text from *)
Definition DEFAULT_EXTENSIONS : gset string :=
  {[ ".pdf"; ".txt"; ".md"; ".rst"; ".csv";
     ".docx"; ".doc"; ".xlsx"; ".xls"; ".pptx";
     ".html"; ".htm"; ".xml"; ".json" ]}.

(** seconds between status checks *)
Definition POLL_INTERVAL : Q := 2.
(** seconds before giving up on a single file *)
Definition POLL_TIMEOUT : Q := 120.

Definition build_session (api_key : string) : session :=
  mkSession [("Authorization", "Bearer " +:+ api_key)].

(** The parsed command line: the namespace [parser.parse_args()] returns. *)
Record arguments : Type := mkArgs {
  arg_folder : string;
  arg_url : string;
  arg_collection : option string;
  arg_api_key : option string;
  arg_ext : option string;
  arg_dry_run : bool
}.

(** [{e if e.startswith(".") else f".{e}" for e in ext.split(",")}] *)
Definition dotted (e : string) : string :=
  if Py.startswith_dot e then e else "." +:+ e.

Definition extra_extensions (ext : string) : gset string :=
  list_to_set (map dotted (Py.split_comma ext)).

(** The extension set [main] builds from [--ext]. *)
Definition effective_extensions (ext : option string) : gset string :=
  match ext with
  | Some e => if Py.truthy e then DEFAULT_EXTENSIONS ∪ extra_extensions e
              else DEFAULT_EXTENSIONS
  | None => DEFAULT_EXTENSIONS
  end.

Section WithEnvironment.

Variable env : environment.

(** The body of the [for kb in r.json()] loop of
    [get_or_create_knowledge]; [Some id] is the early return. *)
Fixpoint find_knowledge (name : string) (kbs : list json) : M (option json) :=
  match kbs with
  | [] => ret None
  | kb :: rest =>
      let* n := lift (Py.get kb "name" JNull) in
      if Py.eq_str n name then
        let* id := lift (Py.getitem kb "id") in
        print ("[kb] Using existing knowledge base '" +:+ name +:+ "' ("
                 +:+ Py.str id +:+ ")");;
        ret (Some id)
      else find_knowledge name rest
  end.

(** Return the ID of an existing knowledge base by name, or create one. *)
Definition get_or_create_knowledge (s : session) (base_url name : string) : M json :=
  let* r := session_get env s (base_url +:+ "/api/v1/knowledge/") 10 in
  raise_for_status r;;
  let* data := response_json r in
  let* kbs := lift (Py.iter data) in
  let* found := find_knowledge name kbs in
  match found with
  | Some id => ret id
  | None =>
      let* r := session_post_json env s (base_url +:+ "/api/v1/knowledge/create")
                  (JObj [("name", JStr name);
                         ("description", JStr ("Ingested from local folder: " +:+ name))])
                  10 in
      raise_for_status r;;
      let* data := response_json r in
      let* kb_id := lift (Py.getitem data "id") in
      print ("[kb] Created knowledge base '" +:+ name +:+ "' (" +:+ Py.str kb_id +:+ ")");;
      ret kb_id
  end.

(** Upload a file and return its ID. *)
Definition upload_file (s : session) (base_url : string) (p : path) : M json :=
  let mime := Py.or_else (guess_type env (PathLib.str_abs p)) "application/octet-stream" in
  let* content := (match read_file env p with
                   | Some c => ret c
                   | None => raise OSError
                   end) in
  let* r := session_post_file env s (base_url +:+ "/api/v1/files/")
              (PathLib.name p) content mime 60 in
  raise_for_status r;;
  let* data := response_json r in
  lift (Py.getitem data "id").

Definition status_url (base_url : string) (file_id : json) : string :=
  base_url +:+ "/api/v1/files/" +:+ Py.str file_id +:+ "/process/status".

(** [time.time() < deadline] *)
Definition Qltb (x y : Q) : bool := negb (Qle_bool y x).

(** The [while time.time() < deadline] loop of [wait_for_processing];
    [fuel] bounds the number of times the test is made. *)
Fixpoint poll_loop (fuel : nat) (s : session) (base_url : string) (file_id : json)
    (deadline : Q) : M bool :=
  match fuel with
  | O => diverge
  | S fuel' =>
      let* t := time_time in
      if Qltb t deadline then
        let* r := session_get env s (status_url base_url file_id) 10 in
        if (status_code r =? 404)%Z then
          (* Endpoint may not exist on older builds: assume ready *)
          ret true
        else
          raise_for_status r;;
          let* data := response_json r in
          let* status := lift (Py.get data "status" (JStr "")) in
          if Py.eq_str status "completed" then ret true
          else if Py.eq_str status "failed" then ret false
          else
            time_sleep env POLL_INTERVAL;;
            poll_loop fuel' s base_url file_id deadline
      else ret false
  end.

(** Poll until the file is processed. Returns True on success. *)
Definition wait_for_processing (fuel : nat) (s : session) (base_url : string)
    (file_id : json) : M bool :=
  let* t := time_time in
  let deadline := (t + POLL_TIMEOUT)%Q in
  poll_loop fuel s base_url file_id deadline.

Definition add_url (base_url : string) (kb_id : json) : string :=
  base_url +:+ "/api/v1/knowledge/" +:+ Py.str kb_id +:+ "/file/add".

Definition add_to_knowledge (s : session) (base_url : string) (kb_id file_id : json)
    : M unit :=
  let* r := session_post_json env s (add_url base_url kb_id)
              (JObj [("file_id", file_id)]) 30 in
  raise_for_status r.

(** [p.is_file() and p.suffix.lower() in extensions] *)
Definition selected (extensions : gset string) (p : path) : bool :=
  is_file env p && bool_decide (Py.lower (PathLib.suffix p) ∈ extensions).

Definition collect_files (folder : path) (extensions : gset string) : list path :=
  PathLib.sorted
    (filter (fun p => selected extensions p = true)
            (map (fun rel => folder ++ rel) (rglob env folder))).

(** The [try] block of the batch loop and its two handlers, for one
    file; [true] is [succeeded += 1], [false] is [failed += 1]. *)
Definition ingest_entry (fuel : nat) (s : session) (base_url : string) (kb_id : json)
    (p : path) : M bool :=
  try_except
    (let* file_id := upload_file s base_url p in
     print ("  uploaded  → " +:+ Py.str file_id);;
     write "  processing...";;
     let* ok := wait_for_processing fuel s base_url file_id in
     print (if ok : bool then " done" else " timed-out (proceeding anyway)");;
     add_to_knowledge s base_url kb_id file_id;;
     print "  added to knowledge base ✓";;
     ret true)
    (fun e =>
       match e with
       | HTTPError status body =>
           print ("  ERROR " +:+ Py.str_Z status +:+ ": " +:+ Py.take 200 body);;
           ret false
       | _ =>
           print ("  ERROR: " +:+ exc_str env e);;
           ret false
       end).

(** [for i, path in enumerate(files, 1)] with the two counters. *)
Fixpoint batch_loop (fuel : nat) (s : session) (base_url : string) (kb_id : json)
    (folder : path) (total i : nat) (files : list path) (succeeded failed : nat)
    : M (nat * nat) :=
  match files with
  | [] => ret (succeeded, failed)
  | p :: rest =>
      let* label := (match PathLib.relative_to p folder with
                     | Some rel => ret rel
                     | None => raise ValueError
                     end) in
      print (newline +:+ "[" +:+ Py.str_nat i +:+ "/" +:+ Py.str_nat total +:+ "] "
               +:+ PathLib.str_rel label);;
      let* ok := ingest_entry fuel s base_url kb_id p in
      if ok : bool
      then batch_loop fuel s base_url kb_id folder total (S i) rest (S succeeded) failed
      else batch_loop fuel s base_url kb_id folder total (S i) rest succeeded (S failed)
  end.

(** [for f in files: print(f"  {f.relative_to(folder)}")] *)
Fixpoint print_listing (folder : path) (files : list path) : M unit :=
  match files with
  | [] => ret tt
  | f :: rest =>
      let* label := (match PathLib.relative_to f folder with
                     | Some rel => ret rel
                     | None => raise ValueError
                     end) in
      print ("  " +:+ PathLib.str_rel label);;
      print_listing folder rest
  end.

(** [sys.exit(arg)] *)
Definition sys_exit {A} (arg : exit_arg) : M A := raise (SystemExit arg).

(** [main] from the line after [args = parser.parse_args()]: [args] is
    the namespace that call has returned (argparse itself ends the
    process on a usage error or on [--help], before any of this runs), and
    [resolve] is [Path(...).expanduser().resolve()]. *)
Definition main (fuel : nat) (args : arguments) : M unit :=
  (* Resolve inputs *)
  let folder := resolve env (arg_folder args) in
  if negb (is_dir env folder) then
    sys_exit (ExitMsg ("Not a directory: " +:+ PathLib.str_abs folder))
  else
  let api_key := Py.or_else (arg_api_key args)
                   (default EmptyString (environ env "OPENWEBUI_API_KEY")) in
  if negb (Py.truthy api_key) && negb (arg_dry_run args) then
    sys_exit (ExitMsg "API key required. Set OPENWEBUI_API_KEY or pass --api-key.")
  else
  let collection_name := Py.or_else (arg_collection args) (PathLib.name folder) in
  let extensions := effective_extensions (arg_ext args) in
  (* Collect files *)
  let files := collect_files folder extensions in
  match files with
  | [] => sys_exit (ExitMsg ("No supported files found in " +:+ PathLib.str_abs folder))
  | _ :: _ =>
      print ("Found " +:+ Py.str_nat (length files) +:+ " file(s) to ingest into '"
               +:+ collection_name +:+ "':");;
      print_listing folder files;;
      if arg_dry_run args then ret tt
      else
        print EmptyString;;
        let s := build_session api_key in
        let base_url := Py.rstrip_slash (arg_url args) in
        (* Ensure knowledge base exists *)
        let* kb_id := get_or_create_knowledge s base_url collection_name in
        (* Upload each file *)
        let* counts := batch_loop fuel s base_url kb_id folder (length files) 1
                         files 0 0 in
        (* Summary *)
        print (newline +:+ "── Summary ──────────────────────────────");;
        print ("  Succeeded : " +:+ Py.str_nat (fst counts));;
        print ("  Failed    : " +:+ Py.str_nat (snd counts));;
        print ("  Collection: '" +:+ collection_name +:+ "' (" +:+ Py.str kb_id +:+ ")");;
        print ("  View at   : " +:+ base_url);;
        if (0 <? snd counts)%nat then sys_exit (ExitCode 1) else ret tt
  end.

End WithEnvironment.

End Ingest.

(** The exit status of the process that ran a program to [r]: 0 on a normal
    return, the argument of [sys.exit] when it is a number, 1 when it is a
    message or when another exception escapes. *)
Definition exit_status {A} (r : result A) : option Z :=
  match r with
  | Ret _ => Some 0%Z
  | Raise (SystemExit (ExitCode c)) => Some c
  | Raise _ => Some 1%Z
  | Diverge => None
  end.

(** ** openwebui_mcp.py *)

Module Mcp.

Section WithEnvironment.

Variable env : environment.

Definition OPENWEBUI_URL : string :=
  Py.rstrip_slash (default EmptyString (environ env "OPENWEBUI_URL")).
Definition OPENWEBUI_KEY : string :=
  default EmptyString (environ env "OPENWEBUI_API_KEY").
Definition DEFAULT_MODEL : string :=
  default "gemma3:27b" (environ env "OPENWEBUI_DEFAULT_MODEL").

Definition _session : session :=
  if Py.truthy OPENWEBUI_KEY
  then mkSession [("Authorization", "Bearer " +:+ OPENWEBUI_KEY)]
  else mkSession [].

(** [data.get("items", data) if isinstance(data, dict) else data] *)
Definition items_of (data : json) : exn + json :=
  if Py.isinstance_dict data then Py.get data "items" data else inr data.

(** [[{"id": kb["id"], "name": kb["name"]} for kb in items]] *)
Fixpoint id_name_pairs (kbs : list json) : exn + list json :=
  match kbs with
  | [] => inr []
  | kb :: rest =>
      match Py.getitem kb "id" with
      | inl e => inl e
      | inr id =>
          match Py.getitem kb "name" with
          | inl e => inl e
          | inr name =>
              match id_name_pairs rest with
              | inl e => inl e
              | inr l => inr (JObj [("id", id); ("name", name)] :: l)
              end
          end
      end
  end.

(** List all knowledge base collections available in Open WebUI. *)
Definition list_collections : M (list json) :=
  let* r := session_get env _session (OPENWEBUI_URL +:+ "/api/v1/knowledge/") 10 in
  raise_for_status r;;
  let* data := response_json r in
  let* items := lift (items_of data) in
  let* kbs := lift (Py.iter items) in
  lift (id_name_pairs kbs).

(** [next((kb["id"] for kb in collections if kb["name"] == collection_name), None)] *)
Fixpoint first_id (collection_name : string) (kbs : list json) : exn + json :=
  match kbs with
  | [] => inr JNull
  | kb :: rest =>
      match Py.getitem kb "name" with
      | inl e => inl e
      | inr n => if Py.eq_str n collection_name then Py.getitem kb "id"
                 else first_id collection_name rest
      end
  end.

(** [[kb["name"] for kb in collections]] *)
Fixpoint names_of (kbs : list json) : exn + list json :=
  match kbs with
  | [] => inr []
  | kb :: rest =>
      match Py.getitem kb "name" with
      | inl e => inl e
      | inr n =>
          match names_of rest with
          | inl e => inl e
          | inr l => inr (n :: l)
          end
      end
  end.

Definition not_found_message (collection_name : string) (available : list json) : string :=
  "Collection '" +:+ collection_name +:+ "' not found. Available: "
    +:+ Py.repr (JArr available).

Definition chat_payload (model question : string) (collection_id : json) : json :=
  JObj [("model", JStr model);
        ("messages", JArr [JObj [("role", JStr "user"); ("content", JStr question)]]);
        ("files", JArr [JObj [("type", JStr "collection"); ("id", collection_id)]])].

(** Answer a question using RAG over an Open WebUI knowledge collection. *)
Definition rag_query (question collection_name model : string) : M json :=
  let sess := _session in
  (* Resolve collection name to ID *)
  let* r := session_get env sess (OPENWEBUI_URL +:+ "/api/v1/knowledge/") 10 in
  raise_for_status r;;
  let* data := response_json r in
  let* collections := lift (items_of data) in
  let* kbs := lift (Py.iter collections) in
  let* collection_id := lift (first_id collection_name kbs) in
  if Py.is_None collection_id then
    let* available := lift (names_of kbs) in
    ret (JStr (not_found_message collection_name available))
  else
    (* RAG-augmented chat completion *)
    let* r := session_post_json env sess (OPENWEBUI_URL +:+ "/api/chat/completions")
                (chat_payload model question collection_id) 120 in
    raise_for_status r;;
    let* data := response_json r in
    let* choices := lift (Py.getitem data "choices") in
    let* choice := lift (Py.getitem0 choices) in
    let* message := lift (Py.getitem choice "message") in
    lift (Py.getitem message "content").

End WithEnvironment.

End Mcp.

(** ** Vocabulary of the properties *)

(** [kb] is an object whose field [k] holds [v]. *)
Definition has_field (k : string) (v : json) (kb : json) : Prop :=
  exists m, kb = JObj m /\ Py.assoc k m = Some v.

(** [kb] is an object that is not named [name]: the field is absent or
    holds something else. *)
Definition not_named (name : string) (kb : json) : Prop :=
  exists m, kb = JObj m /\ Py.assoc "name" m <> Some (JStr name).

(** [kb] is an object that has a name, and it is not [name]. *)
Definition named_otherwise (name : string) (kb : json) : Prop :=
  exists m v, kb = JObj m /\ Py.assoc "name" m = Some v /\ v <> JStr name.

(** The two requests of [get_or_create_knowledge]. *)
Definition list_request (s : session) (base_url : string) : request :=
  mkRequest GET (base_url +:+ "/api/v1/knowledge/") (session_headers s) NoBody 10.

Definition create_request (s : session) (base_url name : string) : request :=
  mkRequest POST (base_url +:+ "/api/v1/knowledge/create") (session_headers s)
    (JsonBody (JObj [("name", JStr name);
                     ("description", JStr ("Ingested from local folder: " +:+ name))]))
    10.

(** The two requests of the query tools; the completion request carries
    the model, the question as the one user message, and the collection id
    as the one file of type [collection]. *)
Definition mcp_list_request (env : environment) : request :=
  mkRequest GET (Mcp.OPENWEBUI_URL env +:+ "/api/v1/knowledge/")
    (session_headers (Mcp._session env)) NoBody 10.

Definition chat_request (env : environment) (model question : string) (collection_id : json)
    : request :=
  mkRequest POST (Mcp.OPENWEBUI_URL env +:+ "/api/chat/completions")
    (session_headers (Mcp._session env))
    (JsonBody
       (JObj [("model", JStr model);
              ("messages", JArr [JObj [("role", JStr "user"); ("content", JStr question)]]);
              ("files", JArr [JObj [("type", JStr "collection"); ("id", collection_id)]])]))
    120.

(** The two forms of the answer to the listing call: the sequence [l]
    itself, or an object whose [items] field holds it. *)
Definition listing_of (data : json) (l : list json) : Prop :=
  data = JArr l \/ exists m, data = JObj m /\ Py.assoc "items" m = Some (JArr l).

(** The names of the elements of a listing, in order. *)
Definition names_are (l : list json) (names : list string) : Prop :=
  Forall2 (fun kb n => has_field "name" (JStr n) kb) l names.

(** The text of a completion response: [choices[0].message.content]. *)
Definition completion_text (r : response) (content : json) : Prop :=
  exists j choice rest message,
    json_body r = Some j /\
    has_field "choices" (JArr (choice :: rest)) j /\
    has_field "message" message choice /\
    has_field "content" content message.

(** The answer of [rag_query] when the collection is missing. *)
Definition not_found_text (collection_name : string) (names : list string) : string :=
  "Collection '" +:+ collection_name +:+ "' not found. Available: ["
    +:+ Py.join ", " (map Py.repr_str names) +:+ "]".

(** A computation that leaves the world as it found it. *)
Definition pure {A} (c : M A) : Prop := forall w, snd (c w) = w.

(** *** The processing waiter as a state machine *)

Definition status_request (s : session) (base_url : string) (file_id : json) : request :=
  mkRequest GET (base_url +:+ "/api/v1/files/" +:+ Py.str file_id +:+ "/process/status")
    (session_headers s) NoBody 10.

(** The states of the waiter as the design document names them. *)
Inductive waiter_state : Type :=
| Polling
| Completed
| Failed
| TimedOut
| AssumedReady.

(** Contract result: true for Completed and AssumedReady, false for Failed
    and TimedOut. *)
Definition contract_result (st : waiter_state) : option bool :=
  match st with
  | Completed | AssumedReady => Some true
  | Failed | TimedOut => Some false
  | Polling => None
  end.

(** The success class of the design document, and the one of
    [raise_for_status]. *)
Definition is_2xx (code : Z) : bool := (200 <=? code)%Z && (code <? 300)%Z.
Definition not_error (code : Z) : bool := negb (is_error code).

(** The transition of the design document on one answer of the status
    endpoint, for a given success class: 404 is AssumedReady; otherwise a
    successful response is required and its status field decides, where
    anything but the two terminal values (an absent field included) stays in
    Polling.  [None]: the wait is aborted. *)
Definition spec_transition (success : Z -> bool) (r : response) : option waiter_state :=
  if (status_code r =? 404)%Z then Some AssumedReady
  else if success (status_code r) then
    match json_body r with
    | Some (JObj m) =>
        let status := default (JStr "") (Py.assoc "status" m) in
        if Py.eq_str status "completed" then Some Completed
        else if Py.eq_str status "failed" then Some Failed
        else Some Polling
    | _ => None
    end
  else None.

(** The runs of that state machine from a world to a terminal state: the
    loop polls while the clock is before the deadline, and sleeps
    [POLL_INTERVAL] between a poll that stays in Polling and the next. *)
Inductive waiter_run (success : Z -> bool) (env : environment) (s : session)
    (base_url : string) (file_id : json) (deadline : Q)
    : world -> waiter_state -> world -> Prop :=
| run_timed_out w :
    ~ (now w < deadline)%Q ->
    waiter_run success env s base_url file_id deadline w TimedOut w
| run_terminal w r w1 st :
    (now w < deadline)%Q ->
    send env (status_request s base_url file_id) w = (Ret r, w1) ->
    spec_transition success r = Some st ->
    st <> Polling ->
    waiter_run success env s base_url file_id deadline w st w1
| run_repoll w r w1 st w' :
    (now w < deadline)%Q ->
    send env (status_request s base_url file_id) w = (Ret r, w1) ->
    spec_transition success r = Some Polling ->
    waiter_run success env s base_url file_id deadline
               (snd (time_sleep env Ingest.POLL_INTERVAL w1)) st w' ->
    waiter_run success env s base_url file_id deadline w st w'.

(** Time does not run backwards: no request and no sleep takes a negative
    time. *)
Definition clock_advances (env : environment) : Prop :=
  (forall h rq, (0 <= elapsed (serve env h rq))%Q) /\
  (forall h, (0 <= oversleep env h)%Q).

(** Tests of the loop condition that [POLL_TIMEOUT / POLL_INTERVAL] sleeps
    allow, plus the one that fails. *)
Definition POLL_FUEL : nat := 61.

(** *** Scenarios *)

Definition ok_json (j : json) : response := mkResponse 200 EmptyString (Some j).

(** An environment around a backend: requests take one second, sleeps are
    exact, the folder [/data] holds what [tree] lists, every file reads as
    [content]. *)
Definition scenario (backend : list request -> request -> response) (tree : list path)
    : environment :=
  mkEnv (fun h rq => mkReply 1 (Some (backend h rq)))
        (fun _ => 0%Q)
        (fun f => [f])
        (fun p => bool_decide (p = ["data"]))
        (fun _ => true)
        (fun _ => tree)
        (fun _ => Some "content")
        (fun _ => None)
        (fun _ => None)
        (fun _ => "error").

Definition session0 : session := Ingest.build_session "sk-1".
Definition world0 : world := mkWorld 0 [].

(** A backend whose status endpoint says [pending] twice, then [completed]. *)
Definition slow_backend (h : list request) (rq : request) : response :=
  ok_json (JObj [("status", JStr (if (length h <? 2)%nat then "pending" else "completed"))]).

(** A backend whose status endpoint never leaves [pending], and one that
    has no status endpoint. *)
Definition pending_backend (h : list request) (rq : request) : response :=
  ok_json (JObj [("status", JStr "pending")]).
Definition old_backend (h : list request) (rq : request) : response :=
  mkResponse 404 "Not Found" None.

(** A backend that answers 300 (Multiple Choices) with a completed status. *)
Definition choices_backend (h : list request) (rq : request) : response :=
  mkResponse 300 EmptyString (Some (JObj [("status", JStr "completed")])).

(** *** The batch loop *)

Definition add_request (s : session) (base_url : string) (kb_id file_id : json) : request :=
  mkRequest POST (base_url +:+ "/api/v1/knowledge/" +:+ Py.str kb_id +:+ "/file/add")
    (session_headers s) (JsonBody (JObj [("file_id", file_id)])) 30.

(** The attach calls among the requests: URL and file id of every POST
    whose document is [{"file_id": f}]. *)
Fixpoint attached (reqs : list request) : list (string * json) :=
  match reqs with
  | [] => []
  | rq :: rest =>
      match meth rq, body rq with
      | POST, JsonBody (JObj [(k, f)]) =>
          if String.eqb k "file_id" then (url rq, f) :: attached rest else attached rest
      | _, _ => attached rest
      end
  end.

(** The catalog entries below [folder]. *)
Definition entries (folder : path) (rels : list path) : list path :=
  map (fun rel => folder ++ rel) rels.

(** The world after some more output. *)
Definition printed (chunks : list string) (w : world) : world :=
  mkWorld (now w) (trace w ++ map Wrote chunks).

(** The header line the loop prints for entry [i] of [total]. *)
Definition entry_header (i total : nat) (rel : path) : string :=
  (newline +:+ "[" +:+ Py.str_nat i +:+ "/" +:+ Py.str_nat total +:+ "] "
     +:+ PathLib.str_rel rel) +:+ newline.

(** The lines of the [try] block. *)
Definition uploaded_line (file_id : json) : string :=
  ("  uploaded  → " +:+ Py.str file_id) +:+ newline.
Definition processing_chunk : string := "  processing...".
Definition outcome_line (ok : bool) : string :=
  (if ok then " done" else " timed-out (proceeding anyway)") +:+ newline.
Definition added_line : string := "  added to knowledge base ✓" +:+ newline.

(** The line a handler of the [try] block prints for the exception [e]. *)
Definition error_line (env : environment) (e : exn) : string :=
  match e with
  | HTTPError status body =>
      ("  ERROR " +:+ Py.str_Z status +:+ ": " +:+ Py.take 200 body) +:+ newline
  | _ => ("  ERROR: " +:+ exc_str env e) +:+ newline
  end.

(** *** A batch in which nothing but uploads fails *)

(** What became of a catalog entry: its upload raised, or the upload
    returned this file id and the wait and the attach call returned. *)
Inductive entry_outcome : Type :=
| UploadRaised (e : exn)
| Ingested (file_id : json).

(** The number of entries whose upload raised, and the file ids of the
    others, in order. *)
Fixpoint upload_failures (outs : list entry_outcome) : nat :=
  match outs with
  | [] => 0
  | UploadRaised _ :: rest => S (upload_failures rest)
  | Ingested _ :: rest => upload_failures rest
  end.

Fixpoint ingested_ids (outs : list entry_outcome) : list json :=
  match outs with
  | [] => []
  | UploadRaised _ :: rest => ingested_ids rest
  | Ingested file_id :: rest => file_id :: ingested_ids rest
  end.

(** [upload_failures_only ... i rels w outs w'] describes what the steps of
    the pipeline do on the entries [rels], numbered from [i], when the first
    of them is reached in the world [w]: each step is taken in the world the
    steps before it have left, after the lines printed in between. For every
    entry either [upload_file] raises, and the error line is printed, or
    [upload_file] returns a file id, [wait_for_processing] returns and
    [add_to_knowledge] returns. [outs] records which, and [w'] is the world
    after the last entry. *)
Inductive upload_failures_only (env : environment) (fuel : nat) (s : session)
    (base_url : string) (kb_id : json) (folder : path) (total : nat)
    : nat -> list path -> world -> list entry_outcome -> world -> Prop :=
| no_more_entries i w :
    upload_failures_only env fuel s base_url kb_id folder total i [] w [] w
| upload_raises i rel rels w e w1 outs w' :
    Ingest.upload_file env s base_url (folder ++ rel) (printed [entry_header i total rel] w)
    = (Raise e, w1) ->
    upload_failures_only env fuel s base_url kb_id folder total (S i) rels
      (printed [error_line env e] w1) outs w' ->
    upload_failures_only env fuel s base_url kb_id folder total i (rel :: rels) w
      (UploadRaised e :: outs) w'
| all_steps_return i rel rels w file_id w1 ok w2 w3 outs w' :
    Ingest.upload_file env s base_url (folder ++ rel) (printed [entry_header i total rel] w)
    = (Ret file_id, w1) ->
    Ingest.wait_for_processing env fuel s base_url file_id
      (printed [processing_chunk] (printed [uploaded_line file_id] w1)) = (Ret ok, w2) ->
    Ingest.add_to_knowledge env s base_url kb_id file_id (printed [outcome_line ok] w2)
    = (Ret tt, w3) ->
    upload_failures_only env fuel s base_url kb_id folder total (S i) rels
      (printed [added_line] w3) outs w' ->
    upload_failures_only env fuel s base_url kb_id folder total i (rel :: rels) w
      (Ingested file_id :: outs) w'.

(** What a computation may end in without leaving the [try] block's
    handlers: a value or an [Exception], never [SystemExit] and never a
    missing result. *)
Definition safe {A} (c : M A) : Prop :=
  forall w,
    match fst (c w) with
    | Ret _ => True
    | Raise e => is_Exception e = true
    | Diverge => False
    end.

(** A computation that sends no attach call. *)
Definition no_attach {A} (c : M A) : Prop :=
  forall w, attached (requests (trace (snd (c w)))) = attached (requests (trace w)).

(** *** The dry run *)

(** The lines [main] prints before it asks for a dry run. *)
Definition found_line (n : nat) (collection_name : string) : string :=
  ("Found " +:+ Py.str_nat n +:+ " file(s) to ingest into '" +:+ collection_name +:+ "':")
    +:+ newline.
Definition listing_line (rel : path) : string := ("  " +:+ PathLib.str_rel rel) +:+ newline.

(** The collection name [main] uses. *)
Definition collection_name_of (env : environment) (args : Ingest.arguments) : string :=
  Py.or_else (Ingest.arg_collection args) (PathLib.name (resolve env (Ingest.arg_folder args))).

(** The catalog [main] builds. *)
Definition catalog (env : environment) (args : Ingest.arguments) : list path :=
  Ingest.collect_files env (resolve env (Ingest.arg_folder args))
    (Ingest.effective_extensions (Ingest.arg_ext args)).

Definition dry_run_of (folder : string) (ext : option string) : Ingest.arguments :=
  Ingest.mkArgs folder "http://localhost:3000" None None ext true.

(** *** More scenarios *)

Definition kb (id name : string) : json := JObj [("id", JStr id); ("name", JStr name)].

(** A listing in which the name [docs] occurs twice. *)
Definition collections : list json := [kb "kb-2" "notes"; kb "kb-1" "docs"; kb "kb-3" "docs"].

(** What the backends below answer to a POST: a document with a new id
    and a completion. *)
Definition answer_document : json :=
  JObj [("id", JStr "kb-9");
        ("choices", JArr [JObj [("message", JObj [("content", JStr "forty-two")])]])].

(** The listing as a raw sequence. *)
Definition library_backend (h : list request) (rq : request) : response :=
  match meth rq with
  | GET => ok_json (JArr collections)
  | POST => ok_json answer_document
  end.

(** The listing as an object with an [items] field. *)
Definition items_backend (h : list request) (rq : request) : response :=
  match meth rq with
  | GET => ok_json (JObj [("items", JArr collections)])
  | POST => ok_json answer_document
  end.

(** A backend that refuses the upload of [b.pdf] and processes every
    other file at once. *)
Definition batch_backend (h : list request) (rq : request) : response :=
  match body rq with
  | FileBody _ filename _ _ =>
      if String.eqb filename "b.pdf" then mkResponse 500 "disk full" None
      else ok_json (JObj [("id", JStr ("id-" +:+ filename))])
  | NoBody => ok_json (JObj [("status", JStr "completed")])
  | JsonBody _ => ok_json (JObj [])
  end.

(** A backend on which the processing of every file fails. *)
Definition failing_backend (h : list request) (rq : request) : response :=
  match body rq with
  | FileBody _ filename _ _ => ok_json (JObj [("id", JStr ("id-" +:+ filename))])
  | NoBody => ok_json (JObj [("status", JStr "failed")])
  | JsonBody _ => ok_json (JObj [])
  end.

(** The same behind a listing call, which is the first call of a run. *)
Definition full_backend (h : list request) (rq : request) : response :=
  match h with
  | [] => ok_json (JArr collections)
  | _ => batch_backend h rq
  end.

Definition small_tree : list path := [["b.pdf"]; ["skip.exe"]; ["a.txt"]].
Definition three_files : list path := [["a.txt"]; ["b.pdf"]; ["c.md"]].


(** A backend that refuses the upload of [b.pdf] and numbers every other
    file by the requests it has answered before: what it answers depends on
    the history of the run. *)
Definition counter_backend (h : list request) (rq : request) : response :=
  match body rq with
  | FileBody _ filename _ _ =>
      if String.eqb filename "b.pdf" then mkResponse 500 "disk full" None
      else ok_json (JObj [("id", JStr ("id-" +:+ Py.str_nat (length h)))])
  | NoBody => ok_json (JObj [("status", JStr "completed")])
  | JsonBody _ => ok_json (JObj [])
  end.

(** ** Vocabulary of the further properties *)

(** A computation that only ever adds to the trace, and only events that
    satisfy [P]. *)
Definition only_emits {A} (P : event -> Prop) (c : M A) : Prop :=
  forall w, exists t, trace (snd (c w)) = trace w ++ t /\ Forall P t.

(** The order of paths as a relation. *)
Definition path_le (p q : path) : Prop := PathLib.leb p q = true.

(** A string without a comma, and a string with a dot put in front unless
    it starts with one. *)
Fixpoint comma_free (s : string) : bool :=
  match s with
  | EmptyString => true
  | String c s' => negb (Ascii.eqb c ",") && comma_free s'
  end.

Definition with_dot (piece : string) : string :=
  if String.prefix "." piece then piece else "." +:+ piece.

(** The events of a wait: a poll, then a sleep of [POLL_INTERVAL] before
    the next turn of the loop, and so on; it ends after a poll or after a
    sleep. *)
Inductive poll_trace (rq : request) : list event -> Prop :=
| poll_trace_nil : poll_trace rq []
| poll_trace_last : poll_trace rq [Sent rq]
| poll_trace_more t :
    poll_trace rq t -> poll_trace rq (Sent rq :: Slept Ingest.POLL_INTERVAL :: t).

(** The request of [upload_file] for a file that reads as [content]. *)
Definition upload_request (env : environment) (s : session) (base_url : string) (p : path)
    (content : string) : request :=
  mkRequest POST (base_url +:+ "/api/v1/files/") (session_headers s)
    (FileBody "file" (PathLib.name p) content
       (Py.or_else (guess_type env (PathLib.str_abs p)) "application/octet-stream"))
    60.

(** The file names of the uploads among the requests. *)
Fixpoint uploaded_names (reqs : list request) : list string :=
  match reqs with
  | [] => []
  | rq :: rest =>
      match body rq with
      | FileBody _ filename _ _ => filename :: uploaded_names rest
      | _ => uploaded_names rest
      end
  end.

(** [open(path, "rb")] succeeds. *)
Definition readable (env : environment) (p : path) : bool :=
  match read_file env p with
  | Some _ => true
  | None => false
  end.

(** An event that is not an upload. *)
Definition not_upload (ev : event) : Prop :=
  match ev with
  | Sent rq => match body rq with FileBody _ _ _ _ => False | _ => True end
  | _ => True
  end.

(** Backends on which one step of the pipeline fails: the status endpoint
    answers 500, or the attach call does. *)
Definition status_error_backend (h : list request) (rq : request) : response :=
  match body rq with
  | FileBody _ filename _ _ => ok_json (JObj [("id", JStr ("id-" +:+ filename))])
  | NoBody => mkResponse 500 "status endpoint down" None
  | JsonBody _ => ok_json (JObj [])
  end.

Definition attach_error_backend (h : list request) (rq : request) : response :=
  match body rq with
  | FileBody _ filename _ _ => ok_json (JObj [("id", JStr ("id-" +:+ filename))])
  | NoBody => ok_json (JObj [("status", JStr "completed")])
  | JsonBody _ => mkResponse 409 "already attached" None
  end.

(** *** A run of [main] *)

(** The API key, the session and the base URL [main] works with. *)
Definition api_key_of (env : environment) (args : Ingest.arguments) : string :=
  Py.or_else (Ingest.arg_api_key args) (default EmptyString (environ env "OPENWEBUI_API_KEY")).

Definition session_of (env : environment) (args : Ingest.arguments) : session :=
  mkSession [("Authorization", "Bearer " +:+ api_key_of env args)].

Definition base_url_of (args : Ingest.arguments) : string :=
  Py.rstrip_slash (Ingest.arg_url args).

(** The summary [main] prints after the batch loop. *)
Definition summary_lines (succeeded failed : nat) (collection_name : string) (kb_id : json)
    (base_url : string) : list string :=
  [(newline +:+ "── Summary ──────────────────────────────") +:+ newline;
   ("  Succeeded : " +:+ Py.str_nat succeeded) +:+ newline;
   ("  Failed    : " +:+ Py.str_nat failed) +:+ newline;
   ("  Collection: '" +:+ collection_name +:+ "' (" +:+ Py.str kb_id +:+ ")") +:+ newline;
   ("  View at   : " +:+ base_url) +:+ newline].

(** The world in which [main] resolves the collection: the count line, the
    listing and an empty line are printed. *)
Definition listed (env : environment) (args : Ingest.arguments) (rels : list path)
    (w : world) : world :=
  printed [newline]
    (printed (found_line (length rels) (collection_name_of env args) :: map listing_line rels)
       w).

(** The requests of the ingestion: the listing and the creation of the
    collection, the upload of a file, the status poll and the attach call. *)
Definition ingest_request (env : environment) (s : session) (base_url name : string)
    (rq : request) : Prop :=
  rq = list_request s base_url \/
  rq = create_request s base_url name \/
  (exists p content, rq = upload_request env s base_url p content) \/
  (exists file_id, rq = status_request s base_url file_id) \/
  (exists kb_id file_id, rq = add_request s base_url kb_id file_id).

Definition ingest_event (env : environment) (s : session) (base_url name : string)
    (ev : event) : Prop :=
  match ev with
  | Sent rq => ingest_request env s base_url name rq
  | Slept d => d = Ingest.POLL_INTERVAL
  | Wrote _ => True
  end.

(** A computation that raises nothing but [Exception]s. *)
Definition exceptions_only {A} (c : M A) : Prop :=
  forall w e w', c w = (Raise e, w') -> is_Exception e = true.

(** *** More scenarios *)

(** An element of a listing with fields besides [id] and [name]. *)
Definition kb_with_description (id name description : string) : json :=
  JObj [("description", JStr description); ("name", JStr name); ("id", JStr id)].

(** A listing whose second collection has a null id. *)
Definition null_id_backend (h : list request) (rq : request) : response :=
  match meth rq with
  | GET => ok_json (JObj [("items", JArr [kb "kb-2" "notes";
                                          JObj [("id", JNull); ("name", JStr "docs")]])])
  | POST => ok_json answer_document
  end.

(** A backend that lists collections with descriptions and refuses every
    POST. *)
Definition read_only_backend (h : list request) (rq : request) : response :=
  match meth rq with
  | GET => ok_json (JArr [kb_with_description "kb-1" "docs" "manuals";
                          kb_with_description "kb-2" "notes" "minutes"])
  | POST => mkResponse 503 "model not loaded" None
  end.

(** A backend that refuses everything. *)
Definition down_backend (h : list request) (rq : request) : response :=
  mkResponse 401 "invalid token" None.

Definition run_of (folder : string) : Ingest.arguments :=
  Ingest.mkArgs folder "http://h/" (Some "docs") (Some "sk-1") None false.

Definition sorted_tree : list path := [["a.txt"]; ["b.pdf"]; ["skip.exe"]].
Definition two_files : list path := [["a.txt"]; ["c.md"]].
Definition null_id_kb : json := JObj [("id", JNull); ("name", JStr "docs")].

(** An event that is output. *)
Definition is_output (ev : event) : Prop :=
  match ev with
  | Wrote _ => True
  | _ => False
  end.

(** * Properties *)

(** ** Sanity checks of the Python primitives *)

Example repr_list_of_names :
  Py.repr (JArr [JStr "docs"; JStr "my notes"; JNum (-3); JNull])
  = "['docs', 'my notes', -3, None]".
Proof. reflexivity. Qed.

Example split_comma_ex :
  Py.split_comma ".log,yaml," = [".log"; "yaml"; ""].
Proof. reflexivity. Qed.

Example rstrip_slash_ex : Py.rstrip_slash "http://h:3000//" = "http://h:3000".
Proof. reflexivity. Qed.

Example suffix_ex : PathLib.suffix ["home"; "u"; "notes.tar.GZ"] = ".GZ".
Proof. reflexivity. Qed.

Example suffix_hidden : PathLib.suffix ["home"; ".bashrc"] = "".
Proof. reflexivity. Qed.

Example sorted_ex :
  PathLib.sorted [["r"; "b.pdf"]; ["r"; "a.txt"]; ["r"; "B"; "z.md"]]
  = [["r"; "B"; "z.md"]; ["r"; "a.txt"]; ["r"; "b.pdf"]].
Proof. reflexivity. Qed.

(** ** Traces and the transport layer *)

Lemma requests_app t1 t2 : requests (t1 ++ t2) = requests t1 ++ requests t2.
Proof.
  induction t1 as [|ev t1 IH]; simpl; [reflexivity|].
  destruct ev; simpl; rewrite IH; reflexivity.
Qed.

Lemma stdout_app t1 t2 : stdout (t1 ++ t2) = stdout t1 ++ stdout t2.
Proof.
  induction t1 as [|ev t1 IH]; simpl; [reflexivity|].
  destruct ev; simpl; rewrite IH; reflexivity.
Qed.

Lemma send_answered env rq w dt r :
  serve env (requests (trace w)) rq = mkReply dt (Some r) ->
  send env rq w = (Ret r, mkWorld (now w + dt) (trace w ++ [Sent rq])).
Proof. intros H. unfold send. rewrite H. reflexivity. Qed.

Lemma raise_for_status_ok r w :
  is_error (status_code r) = false -> raise_for_status r w = (Ret tt, w).
Proof. intros H. unfold raise_for_status. rewrite H. reflexivity. Qed.

Lemma eq_str_true v s : Py.eq_str v s = true <-> v = JStr s.
Proof.
  destruct v; simpl; try (split; [discriminate | intros H; discriminate H]).
  rewrite String.eqb_eq. split; [intros ->; reflexivity | intros H; injection H; auto].
Qed.

Lemma eq_str_false v s : Py.eq_str v s = false <-> v <> JStr s.
Proof.
  rewrite <- eq_str_true. destruct (Py.eq_str v s); split; congruence.
Qed.

(** ** Collection records *)

Lemma named_otherwise_not_named name kb : named_otherwise name kb -> not_named name kb.
Proof.
  intros (m & v & -> & Hv & Hne). exists m. split; [reflexivity|].
  rewrite Hv. intros H. injection H as H. contradiction.
Qed.

Lemma has_field_getitem k v kb : has_field k v kb -> Py.getitem kb k = inr v.
Proof. intros (m & -> & H). simpl. rewrite H. reflexivity. Qed.

Lemma has_field_get k v kb d : has_field k v kb -> Py.get kb k d = inr v.
Proof. intros (m & -> & H). simpl. rewrite H. reflexivity. Qed.

(** ** Collection resolution in the ingestion *)

Section Resolution.

Variable env : environment.

Lemma find_knowledge_absent name l w :
  Forall (not_named name) l -> Ingest.find_knowledge name l w = (Ret None, w).
Proof.
  induction 1 as [|kb l (m & -> & Hm) _ IH]; [reflexivity|].
  simpl. unfold bind, lift, ret. simpl.
  destruct (Py.assoc "name" m) as [v|] eqn:E; simpl.
  - destruct (Py.eq_str v name) eqn:Ev; [|apply IH].
    apply eq_str_true in Ev. subst v. contradiction.
  - apply IH.
Qed.

Lemma find_knowledge_first name pre kb post id w :
  Forall (not_named name) pre ->
  has_field "name" (JStr name) kb ->
  has_field "id" id kb ->
  exists line,
    Ingest.find_knowledge name (pre ++ kb :: post) w
    = (Ret (Some id), mkWorld (now w) (trace w ++ [Wrote line])).
Proof.
  intros Hpre Hname Hid. induction Hpre as [|x pre (m & -> & Hm) _ IH].
  - simpl. unfold bind at 1. rewrite (has_field_get _ _ _ JNull Hname). simpl.
    replace (String.eqb name name) with true by (symmetry; apply String.eqb_refl).
    unfold bind at 1. rewrite (has_field_getitem _ _ _ Hid). simpl.
    eexists. reflexivity.
  - simpl. unfold bind at 1. simpl.
    destruct (Py.assoc "name" m) as [v|] eqn:E; simpl.
    + destruct (Py.eq_str v name) eqn:Ev; [|apply IH].
      apply eq_str_true in Ev. subst v. contradiction.
    + apply IH.
Qed.

End Resolution.

Lemma response_json_ok r j w : json_body r = Some j -> response_json r w = (Ret j, w).
Proof. intros H. unfold response_json. rewrite H. reflexivity. Qed.

(** Rewriting a [bind] whose first computation is known. *)
Lemma bind_ret {A B} (c : M A) (k : A -> M B) w a w' :
  c w = (Ret a, w') -> bind c k w = k a w'.
Proof. intros H. unfold bind. rewrite H. reflexivity. Qed.

Lemma bind_raise {A B} (c : M A) (k : A -> M B) w e w' :
  c w = (Raise e, w') -> bind c k w = (Raise e, w').
Proof. intros H. unfold bind. rewrite H. reflexivity. Qed.

Lemma bind_lift_inr {A B} (a : A) (k : A -> M B) w : bind (lift (inr a)) k w = k a w.
Proof. reflexivity. Qed.

Lemma bind_diverge {A B} (c : M A) (k : A -> M B) w w' :
  c w = (Diverge, w') -> bind c k w = (Diverge, w').
Proof. intros H. unfold bind. rewrite H. reflexivity. Qed.

(** C3: when the listing (a sequence of objects) has an element named
    [name], [get_or_create_knowledge] returns the id of the first such
    element and sends nothing but the listing request, so no create call;
    when no element has that name it sends exactly one create call after
    the listing request, and returns the id that the response to that call
    reports. *)
Theorem get_or_create_knowledge_resolves env s base_url name w dt r l :
  serve env (requests (trace w)) (list_request s base_url) = mkReply dt (Some r) ->
  is_error (status_code r) = false ->
  json_body r = Some (JArr l) ->
  (forall pre kb post id,
      l = pre ++ kb :: post ->
      Forall (not_named name) pre ->
      has_field "name" (JStr name) kb ->
      has_field "id" id kb ->
      exists w',
        Ingest.get_or_create_knowledge env s base_url name w = (Ret id, w') /\
        requests (trace w') = requests (trace w) ++ [list_request s base_url])
  /\
  (Forall (not_named name) l ->
   exists res w',
     Ingest.get_or_create_knowledge env s base_url name w = (res, w') /\
     requests (trace w')
     = requests (trace w) ++ [list_request s base_url; create_request s base_url name] /\
     forall dt' r' id,
       serve env (requests (trace w) ++ [list_request s base_url])
             (create_request s base_url name) = mkReply dt' (Some r') ->
       is_error (status_code r') = false ->
       (exists j, json_body r' = Some j /\ has_field "id" id j) ->
       res = Ret id).
Proof.
  intros Hserve Hok Hbody.
  pose proof (send_answered _ _ _ _ _ Hserve) as Hsend.
  split.
  - intros pre kb post id -> Hpre Hname Hid.
    unfold Ingest.get_or_create_knowledge, session_get.
    fold (list_request s base_url).
    rewrite (bind_ret _ _ _ _ _ Hsend).
    rewrite (bind_ret _ _ _ _ _ (raise_for_status_ok _ _ Hok)).
    rewrite (bind_ret _ _ _ _ _ (response_json_ok _ _ _ Hbody)).
    unfold bind at 1. simpl.
    destruct (find_knowledge_first name pre kb post id
                (mkWorld (now w + dt) (trace w ++ [Sent (list_request s base_url)]))
                Hpre Hname Hid) as [line Hfind].
    rewrite (bind_ret _ _ _ _ _ Hfind).
    eexists. split; [reflexivity|].
    simpl. rewrite !requests_app. simpl. rewrite app_nil_r. reflexivity.
  - intros Hall.
    unfold Ingest.get_or_create_knowledge, session_get, session_post_json.
    fold (list_request s base_url). fold (create_request s base_url name).
    rewrite (bind_ret _ _ _ _ _ Hsend).
    rewrite (bind_ret _ _ _ _ _ (raise_for_status_ok _ _ Hok)).
    rewrite (bind_ret _ _ _ _ _ (response_json_ok _ _ _ Hbody)).
    unfold bind at 1. simpl.
    rewrite (bind_ret _ _ _ _ _ (find_knowledge_absent name l _ Hall)).
    set (w1 := mkWorld (now w + dt) (trace w ++ [Sent (list_request s base_url)])).
    assert (Hreq1 : requests (trace w1) = requests (trace w) ++ [list_request s base_url]).
    { unfold w1. simpl. rewrite requests_app. reflexivity. }
    destruct (serve env (requests (trace w1)) (create_request s base_url name))
      as [dt' [r'|]] eqn:Hcreate.
    + pose proof (send_answered _ _ _ _ _ Hcreate) as Hsend'.
      rewrite (bind_ret _ _ _ _ _ Hsend').
      set (w2 := mkWorld (now w1 + dt') (trace w1 ++ [Sent (create_request s base_url name)])).
      assert (Hreq2 : requests (trace w2)
                      = requests (trace w) ++ [list_request s base_url;
                                               create_request s base_url name]).
      { unfold w2. cbn [trace]. rewrite requests_app, Hreq1, <- app_assoc. reflexivity. }
      destruct (is_error (status_code r')) eqn:Herr.
      * unfold bind, raise_for_status. rewrite Herr. simpl.
        eexists _, _. split; [reflexivity|]. split; [exact Hreq2|].
        intros dt'' r'' id Hs. rewrite <- Hreq1, Hcreate in Hs.
        injection Hs as _ <-. congruence.
      * rewrite (bind_ret _ _ _ _ _ (raise_for_status_ok _ _ Herr)).
        destruct (json_body r') as [j|] eqn:Hj.
        -- rewrite (bind_ret _ _ _ _ _ (response_json_ok _ _ _ Hj)).
           destruct (Py.getitem j "id") as [e|id'] eqn:Hid.
           ++ unfold bind, lift. simpl.
              eexists _, _. split; [reflexivity|]. split; [exact Hreq2|].
              intros dt'' r'' id Hs _ (j' & Hj' & Hf). rewrite <- Hreq1, Hcreate in Hs.
              injection Hs as _ <-. rewrite Hj in Hj'. injection Hj' as <-.
              rewrite (has_field_getitem _ _ _ Hf) in Hid. discriminate.
           ++ unfold bind, lift. simpl.
              eexists _, _. split; [reflexivity|]. split.
              ** simpl. rewrite requests_app. simpl. rewrite app_nil_r. exact Hreq2.
              ** intros dt'' r'' id Hs _ (j' & Hj' & Hf). rewrite <- Hreq1, Hcreate in Hs.
                 injection Hs as _ <-. rewrite Hj in Hj'. injection Hj' as <-.
                 rewrite (has_field_getitem _ _ _ Hf) in Hid. congruence.
        -- unfold bind, response_json. rewrite Hj. simpl.
           eexists _, _. split; [reflexivity|]. split; [exact Hreq2|].
           intros dt'' r'' id Hs _ (j' & Hj' & _). rewrite <- Hreq1, Hcreate in Hs.
           injection Hs as _ <-. congruence.
    + unfold bind, send. rewrite Hcreate. simpl.
      eexists _, _. split; [reflexivity|]. split.
      * cbn [trace]. rewrite !requests_app, <- app_assoc. reflexivity.
      * intros dt'' r'' id Hs. rewrite <- Hreq1, Hcreate in Hs. discriminate.
Qed.

(** ** Name resolution in the query tool *)

Lemma items_of_listing data l : listing_of data l -> Mcp.items_of data = inr (JArr l).
Proof.
  intros [-> | (m & -> & Hm)]; [reflexivity|].
  unfold Mcp.items_of. simpl. rewrite Hm. reflexivity.
Qed.

Lemma first_id_absent name l :
  Forall (named_otherwise name) l -> Mcp.first_id name l = inr JNull.
Proof.
  induction 1 as [|kb l (m & v & -> & Hv & Hne) _ IH]; [reflexivity|].
  simpl. rewrite Hv. apply eq_str_false in Hne. rewrite Hne. exact IH.
Qed.

Lemma first_id_first name pre kb post id :
  Forall (named_otherwise name) pre ->
  has_field "name" (JStr name) kb ->
  has_field "id" id kb ->
  Mcp.first_id name (pre ++ kb :: post) = inr id.
Proof.
  intros Hpre Hname Hid. induction Hpre as [|x pre (m & v & -> & Hv & Hne) _ IH].
  - simpl. rewrite (has_field_getitem _ _ _ Hname). simpl.
    rewrite String.eqb_refl. apply has_field_getitem, Hid.
  - simpl. rewrite Hv. apply eq_str_false in Hne. rewrite Hne. exact IH.
Qed.

Lemma names_of_names l names :
  names_are l names -> Mcp.names_of l = inr (map JStr names).
Proof.
  induction 1 as [|kb n l names Hn _ IH]; [reflexivity|].
  simpl. rewrite (has_field_getitem _ _ _ Hn), IH. reflexivity.
Qed.

Lemma names_are_otherwise name l names :
  names_are l names -> ~ In name names -> Forall (named_otherwise name) l.
Proof.
  induction 1 as [|kb n l names (m & -> & Hm) _ IH]; intros Hnot; constructor.
  - exists m, (JStr n). repeat split; [exact Hm|].
    intros H. injection H as ->. apply Hnot. left. reflexivity.
  - apply IH. intros H. apply Hnot. right. exact H.
Qed.

Lemma repr_names names :
  Py.repr (JArr (map JStr names)) = "[" +:+ Py.join ", " (map Py.repr_str names) +:+ "]".
Proof. simpl. rewrite map_map. reflexivity. Qed.

Lemma completion_text_content r content :
  completion_text r content ->
  exists j choices choice message,
    json_body r = Some j /\ Py.getitem j "choices" = inr choices /\
    Py.getitem0 choices = inr choice /\ Py.getitem choice "message" = inr message /\
    Py.getitem message "content" = inr content.
Proof.
  intros (j & choice & rest & message & Hj & Hc & Hm & Ht).
  exists j, (JArr (choice :: rest)), choice, message.
  repeat split; auto using has_field_getitem.
Qed.

(** The first steps of [rag_query], up to the resolution of the name. *)
Lemma rag_query_resolution env question name model w dt r data l :
  serve env (requests (trace w)) (mcp_list_request env) = mkReply dt (Some r) ->
  is_error (status_code r) = false ->
  json_body r = Some data ->
  listing_of data l ->
  Mcp.rag_query env question name model w
  = (let* collection_id := lift (Mcp.first_id name l) in
     if Py.is_None collection_id then
       let* available := lift (Mcp.names_of l) in
       ret (JStr (Mcp.not_found_message name available))
     else
       let* r := send env (chat_request env model question collection_id) in
       raise_for_status r;;
       let* data := response_json r in
       let* choices := lift (Py.getitem data "choices") in
       let* choice := lift (Py.getitem0 choices) in
       let* message := lift (Py.getitem choice "message") in
       lift (Py.getitem message "content"))
      (mkWorld (now w + dt) (trace w ++ [Sent (mcp_list_request env)])).
Proof.
  intros Hserve Hok Hbody Hl.
  unfold Mcp.rag_query, session_get. fold (mcp_list_request env).
  rewrite (bind_ret _ _ _ _ _ (send_answered _ _ _ _ _ Hserve)).
  rewrite (bind_ret _ _ _ _ _ (raise_for_status_ok _ _ Hok)).
  rewrite (bind_ret _ _ _ _ _ (response_json_ok _ _ _ Hbody)).
  rewrite (items_of_listing _ _ Hl).
  reflexivity.
Qed.

(** *** Computations without effects *)

Lemma pure_ret {A} (a : A) : pure (ret a).
Proof. intros w. reflexivity. Qed.

Lemma pure_raise {A} e : pure (@raise A e).
Proof. intros w. reflexivity. Qed.

Lemma pure_lift {A} (x : exn + A) : pure (lift x).
Proof. destruct x; intros w; reflexivity. Qed.

Lemma pure_raise_for_status r : pure (raise_for_status r).
Proof. intros w. unfold raise_for_status. destruct (is_error _); reflexivity. Qed.

Lemma pure_response_json r : pure (response_json r).
Proof. intros w. unfold response_json. destruct (json_body r); reflexivity. Qed.

Lemma pure_bind {A B} (c : M A) (k : A -> M B) :
  pure c -> (forall a, pure (k a)) -> pure (bind c k).
Proof.
  intros Hc Hk w. unfold bind. specialize (Hc w).
  destruct (c w) as [[a|e|] w']; simpl in *; subst; [apply Hk | reflexivity | reflexivity].
Qed.

Create HintDb pure.
#[local] Hint Resolve pure_ret pure_raise pure_lift pure_raise_for_status
  pure_response_json : pure.

Lemma pure_result {A} (c : M A) w : pure c -> exists res, c w = (res, w).
Proof. intros H. exists (fst (c w)). rewrite <- (H w) at 3. apply surjective_pairing. Qed.

(** A request followed by effect-free code sends exactly that request. *)
Lemma send_then_pure {A} env rq (k : response -> M A) w :
  (forall r, pure (k r)) ->
  exists res w',
    bind (send env rq) k w = (res, w') /\ trace w' = trace w ++ [Sent rq].
Proof.
  intros Hk. unfold bind, send.
  destruct (answer (serve env (requests (trace w)) rq)) as [r|].
  - destruct (pure_result (k r) (mkWorld (now w + elapsed (serve env (requests (trace w)) rq))
                                         (trace w ++ [Sent rq])) (Hk r)) as [res Hres].
    rewrite Hres. eexists _, _. split; reflexivity.
  - eexists _, _. split; reflexivity.
Qed.

(** [rag_query] once the name is resolved to [id]. *)
Lemma rag_query_found env question name model w dt r data pre kb post id :
  serve env (requests (trace w)) (mcp_list_request env) = mkReply dt (Some r) ->
  is_error (status_code r) = false ->
  json_body r = Some data ->
  listing_of data (pre ++ kb :: post) ->
  Forall (named_otherwise name) pre ->
  has_field "name" (JStr name) kb ->
  has_field "id" id kb ->
  id <> JNull ->
  exists res w',
    Mcp.rag_query env question name model w = (res, w') /\
    requests (trace w')
    = requests (trace w) ++ [mcp_list_request env; chat_request env model question id] /\
    forall dt' r' content,
      serve env (requests (trace w) ++ [mcp_list_request env])
            (chat_request env model question id) = mkReply dt' (Some r') ->
      is_error (status_code r') = false ->
      completion_text r' content ->
      res = Ret content.
Proof.
  intros Hserve Hok Hbody Hl Hpre Hname Hid Hnn.
  rewrite (rag_query_resolution _ _ _ _ _ _ _ _ _ Hserve Hok Hbody Hl).
  rewrite (first_id_first _ _ _ _ _ Hpre Hname Hid), bind_lift_inr.
  replace (Py.is_None id) with false by (destruct id; simpl; congruence).
  set (w1 := mkWorld (now w + dt) (trace w ++ [Sent (mcp_list_request env)])).
  match goal with |- context [bind (send env ?rq) ?k w1] =>
    destruct (send_then_pure env rq k w1) as (res & w' & Hrun & Htrace)
  end.
  { intros r0. repeat (apply pure_bind; [auto with pure | intros ?]). auto with pure. }
  exists res, w'. split; [exact Hrun|]. split.
  - rewrite Htrace. unfold w1. cbn [trace]. rewrite !requests_app, <- app_assoc. reflexivity.
  - intros dt' r' content Hs Hok' Htext.
    destruct (completion_text_content _ _ Htext) as (j & cs & c & m & Hj & H1 & H2 & H3 & H4).
    assert (Hs' : serve env (requests (trace w1)) (chat_request env model question id)
                  = mkReply dt' (Some r')).
    { unfold w1. cbn [trace]. rewrite requests_app. exact Hs. }
    rewrite (bind_ret _ _ _ _ _ (send_answered _ _ _ _ _ Hs')) in Hrun.
    rewrite (bind_ret _ _ _ _ _ (raise_for_status_ok _ _ Hok')) in Hrun.
    rewrite (bind_ret _ _ _ _ _ (response_json_ok _ _ _ Hj)) in Hrun.
    rewrite H1, bind_lift_inr, H2, bind_lift_inr, H3, bind_lift_inr, H4 in Hrun.
    cbv [lift ret] in Hrun. congruence.
Qed.

(** C8: when no collection of the listing is named [collection_name],
    [rag_query] returns, without raising, the not-found message that lists
    the names of all collections in listing order, and the listing request is
    the only request it sends; when one is, it sends the completion request
    with the id of the first collection of that name and returns the text of
    the response. *)
Theorem rag_query_not_found_or_forwarded env question collection_name model w dt r data l :
  serve env (requests (trace w)) (mcp_list_request env) = mkReply dt (Some r) ->
  is_error (status_code r) = false ->
  json_body r = Some data ->
  listing_of data l ->
  (forall names,
      names_are l names ->
      ~ In collection_name names ->
      exists w',
        Mcp.rag_query env question collection_name model w
        = (Ret (JStr (not_found_text collection_name names)), w') /\
        requests (trace w') = requests (trace w) ++ [mcp_list_request env])
  /\
  (forall pre kb post id,
      l = pre ++ kb :: post ->
      Forall (named_otherwise collection_name) pre ->
      has_field "name" (JStr collection_name) kb ->
      has_field "id" id kb ->
      id <> JNull ->
      exists res w',
        Mcp.rag_query env question collection_name model w = (res, w') /\
        requests (trace w')
        = requests (trace w) ++ [mcp_list_request env;
                                 chat_request env model question id] /\
        forall dt' r' content,
          serve env (requests (trace w) ++ [mcp_list_request env])
                (chat_request env model question id) = mkReply dt' (Some r') ->
          is_error (status_code r') = false ->
          completion_text r' content ->
          res = Ret content).
Proof.
  intros Hserve Hok Hbody Hl. split.
  - intros names Hnames Hnot.
    rewrite (rag_query_resolution _ _ _ _ _ _ _ _ _ Hserve Hok Hbody Hl).
    rewrite (first_id_absent _ _ (names_are_otherwise _ _ _ Hnames Hnot)).
    rewrite bind_lift_inr. cbn [Py.is_None].
    rewrite (names_of_names _ _ Hnames), bind_lift_inr.
    unfold Mcp.not_found_message. rewrite repr_names.
    eexists. split; [reflexivity|].
    cbn [trace]. rewrite requests_app. reflexivity.
  - intros pre kb post id -> Hpre Hname Hid Hnn.
    exact (rag_query_found _ question _ model _ _ _ _ _ _ _ _
             Hserve Hok Hbody Hl Hpre Hname Hid Hnn).
Qed.

(** C10: in a listing [pre ++ kb :: post] where [kb] is the first element
    named [name], both lookups select [kb], whatever follows it: the
    ingestion returns the id of [kb], and [rag_query] puts the id of [kb] in
    its completion request.  Elements of [post] with the same name are
    ignored. *)
Theorem first_match_wins env s base_url question name model w
    dt r dt2 r2 data2 pre kb post id :
  serve env (requests (trace w)) (list_request s base_url) = mkReply dt (Some r) ->
  is_error (status_code r) = false ->
  json_body r = Some (JArr (pre ++ kb :: post)) ->
  serve env (requests (trace w)) (mcp_list_request env) = mkReply dt2 (Some r2) ->
  is_error (status_code r2) = false ->
  json_body r2 = Some data2 ->
  listing_of data2 (pre ++ kb :: post) ->
  Forall (named_otherwise name) pre ->
  has_field "name" (JStr name) kb ->
  has_field "id" id kb ->
  id <> JNull ->
  (exists w', Ingest.get_or_create_knowledge env s base_url name w = (Ret id, w'))
  /\
  (exists res w',
      Mcp.rag_query env question name model w = (res, w') /\
      requests (trace w')
      = requests (trace w) ++ [mcp_list_request env; chat_request env model question id]).
Proof.
  intros Hs1 Hok1 Hb1 Hs2 Hok2 Hb2 Hl2 Hpre Hname Hid Hnn. split.
  - unfold Ingest.get_or_create_knowledge, session_get. fold (list_request s base_url).
    rewrite (bind_ret _ _ _ _ _ (send_answered _ _ _ _ _ Hs1)).
    rewrite (bind_ret _ _ _ _ _ (raise_for_status_ok _ _ Hok1)).
    rewrite (bind_ret _ _ _ _ _ (response_json_ok _ _ _ Hb1)).
    unfold bind at 1. cbn [Py.iter lift ret].
    assert (Hpre' : Forall (not_named name) pre).
    { eapply Forall_impl; [exact Hpre|]. intros x. apply named_otherwise_not_named. }
    edestruct (find_knowledge_first name pre kb post id) as [line Hfind]; eauto.
    rewrite (bind_ret _ _ _ _ _ Hfind). eexists. reflexivity.
  - destruct (rag_query_found _ question _ model _ _ _ _ _ _ _ _
                Hs2 Hok2 Hb2 Hl2 Hpre Hname Hid Hnn) as (res & w' & Hrun & Hreq & _).
    exists res, w'. split; assumption.
Qed.

(** ** The processing waiter *)

Lemma Qltb_true x y : Ingest.Qltb x y = true <-> (x < y)%Q.
Proof.
  unfold Ingest.Qltb. rewrite negb_true_iff.
  split.
  - intros H. apply Qnot_le_lt. intros Hle. apply Qle_bool_iff in Hle. congruence.
  - intros H. destruct (Qle_bool y x) eqn:E; [|reflexivity].
    apply Qle_bool_iff in E. exfalso. exact (Qlt_not_le _ _ H E).
Qed.

Lemma Qltb_false x y : Ingest.Qltb x y = false <-> ~ (x < y)%Q.
Proof.
  rewrite <- Qltb_true. destruct (Ingest.Qltb x y); split; congruence.
Qed.

(** One turn of the loop of [wait_for_processing]. *)
Lemma poll_loop_unfold env fuel s base_url file_id deadline w :
  Ingest.poll_loop env (S fuel) s base_url file_id deadline w
  = if Ingest.Qltb (now w) deadline then
      match send env (status_request s base_url file_id) w with
      | (Ret r, w1) =>
          if (status_code r =? 404)%Z then (Ret true, w1)
          else if is_error (status_code r)
               then (Raise (HTTPError (status_code r) (text r)), w1)
          else match json_body r with
               | None => (Raise JSONDecodeError, w1)
               | Some (JObj m) =>
                   let status := default (JStr "") (Py.assoc "status" m) in
                   if Py.eq_str status "completed" then (Ret true, w1)
                   else if Py.eq_str status "failed" then (Ret false, w1)
                   else Ingest.poll_loop env fuel s base_url file_id deadline
                          (snd (time_sleep env Ingest.POLL_INTERVAL w1))
               | Some _ => (Raise AttributeError, w1)
               end
      | (Raise e, w1) => (Raise e, w1)
      | (Diverge, w1) => (Diverge, w1)
      end
    else (Ret false, w).
Proof.
  cbn [Ingest.poll_loop]. unfold bind at 1. cbn [time_time].
  destruct (Ingest.Qltb (now w) deadline); [|reflexivity].
  unfold bind at 1, session_get.
  change (mkRequest GET (Ingest.status_url base_url file_id) (session_headers s) NoBody 10)
    with (status_request s base_url file_id).
  destruct (send env (status_request s base_url file_id) w) as [[r|e|] w1]; try reflexivity.
  destruct (status_code r =? 404)%Z; [reflexivity|].
  unfold bind at 1, raise_for_status.
  destruct (is_error (status_code r)); [reflexivity|]. cbn [ret].
  unfold bind at 1, response_json.
  destruct (json_body r) as [j|]; [|reflexivity]. cbn [ret].
  destruct j as [ | | | | |m]; try reflexivity.
  unfold bind at 1. cbn [Py.get lift ret].
  set (status := match Py.assoc "status" m with Some x => x | None => JStr "" end).
  change (default (JStr "") (Py.assoc "status" m)) with status.
  cbv zeta.
  destruct (Py.eq_str status "completed"); [reflexivity|].
  destruct (Py.eq_str status "failed"); reflexivity.
Qed.

Section Waiter.

Variable env : environment.
Variable s : session.
Variable base_url : string.
Variable file_id : json.
Variable deadline : Q.

Let loop (fuel : nat) : M bool := Ingest.poll_loop env fuel s base_url file_id deadline.
Let run := waiter_run not_error env s base_url file_id deadline.

(** Every result of the loop is the contract result of a run of the state
  machine. *)
Lemma poll_loop_sound fuel w b w' :
loop fuel w = (Ret b, w') ->
exists st, run w st w' /\ contract_result st = Some b.
Proof.
subst loop run. cbv beta. revert w. induction fuel as [|fuel IH]; intros w H; [discriminate|].
rewrite poll_loop_unfold in H.
destruct (Ingest.Qltb (now w) deadline) eqn:Ht.
2:{ injection H as <- <-. exists TimedOut. split; [|reflexivity].
    apply run_timed_out. apply Qltb_false, Ht. }
apply Qltb_true in Ht.
destruct (send env (status_request s base_url file_id) w) as [[r|e|] w1] eqn:Hsend;
  try discriminate.
destruct (status_code r =? 404)%Z eqn:E404.
{ injection H as <- <-. exists AssumedReady. split; [|reflexivity].
  eapply run_terminal; [exact Ht | exact Hsend | | discriminate].
  unfold spec_transition. rewrite E404. reflexivity. }
destruct (is_error (status_code r)) eqn:Eerr; [discriminate|].
destruct (json_body r) as [[ | | | | |m]|] eqn:Ej; try discriminate.
cbv zeta in H.
assert (Hspec : forall st,
           (if Py.eq_str (default (JStr "") (Py.assoc "status" m)) "completed"
            then Some Completed
            else if Py.eq_str (default (JStr "") (Py.assoc "status" m)) "failed"
                 then Some Failed else Some Polling) = Some st ->
           spec_transition not_error r = Some st).
{ intros st Hst. unfold spec_transition, not_error. rewrite E404, Eerr, Ej. exact Hst. }
destruct (Py.eq_str (default (JStr "") (Py.assoc "status" m)) "completed").
{ injection H as <- <-. exists Completed. split; [|reflexivity].
  eapply run_terminal; [exact Ht | exact Hsend | apply Hspec; reflexivity | discriminate]. }
destruct (Py.eq_str (default (JStr "") (Py.assoc "status" m)) "failed").
{ injection H as <- <-. exists Failed. split; [|reflexivity].
  eapply run_terminal; [exact Ht | exact Hsend | apply Hspec; reflexivity | discriminate]. }
destruct (IH _ H) as (st & Hrun & Hst).
exists st. split; [|exact Hst].
eapply run_repoll; [exact Ht | exact Hsend | apply Hspec; reflexivity | exact Hrun].
Qed.

(** Every run of the state machine is a result of the loop, for some fuel. *)
Lemma poll_loop_complete w st w' b :
run w st w' ->
contract_result st = Some b ->
exists fuel, loop fuel w = (Ret b, w').
Proof.
subst loop run. cbv beta.
induction 1 as [w Ht | w r w1 st Ht Hsend Hspec Hterm | w r w1 st w' Ht Hsend Hspec _ IH];
  intros Hb.
- exists 1%nat. rewrite poll_loop_unfold.
  apply Qltb_false in Ht. rewrite Ht. simpl in Hb. congruence.
- exists 1%nat. rewrite poll_loop_unfold.
  apply Qltb_true in Ht. rewrite Ht, Hsend.
  unfold spec_transition, not_error in Hspec.
  destruct (status_code r =? 404)%Z.
  { injection Hspec as <-. simpl in Hb. congruence. }
  destruct (is_error (status_code r)); [discriminate|]. cbn [negb] in Hspec.
  destruct (json_body r) as [[ | | | | |m]|]; try discriminate.
  cbv zeta in Hspec |- *.
  destruct (Py.eq_str (default (JStr "") (Py.assoc "status" m)) "completed").
  { injection Hspec as <-. simpl in Hb. congruence. }
  destruct (Py.eq_str (default (JStr "") (Py.assoc "status" m)) "failed").
  { injection Hspec as <-. simpl in Hb. congruence. }
  congruence.
- destruct (IH Hb) as [fuel Hfuel]. exists (S fuel). rewrite poll_loop_unfold.
  apply Qltb_true in Ht. rewrite Ht, Hsend.
  unfold spec_transition, not_error in Hspec.
  destruct (status_code r =? 404)%Z; [discriminate|].
  destruct (is_error (status_code r)); [discriminate|]. cbn [negb] in Hspec.
  destruct (json_body r) as [[ | | | | |m]|]; try discriminate.
  cbv zeta in Hspec |- *.
  destruct (Py.eq_str (default (JStr "") (Py.assoc "status" m)) "completed");
    [discriminate|].
  destruct (Py.eq_str (default (JStr "") (Py.assoc "status" m)) "failed");
    [discriminate|].
  exact Hfuel.
Qed.

(** More fuel does not change a result. *)
Lemma poll_loop_more_fuel fuel w res w' :
loop fuel w = (res, w') -> res <> Diverge -> loop (S fuel) w = (res, w').
Proof.
subst loop. cbv beta. revert w. induction fuel as [|fuel IH]; intros w H Hres.
{ injection H as <- <-. contradiction. }
rewrite poll_loop_unfold in H. rewrite poll_loop_unfold.
destruct (Ingest.Qltb (now w) deadline); [|exact H].
destruct (send env (status_request s base_url file_id) w) as [[r|e|] w1]; try exact H.
destruct (status_code r =? 404)%Z; [exact H|].
destruct (is_error (status_code r)); [exact H|].
destruct (json_body r) as [[ | | | | |m]|]; try exact H.
cbv zeta in H |- *.
destruct (Py.eq_str (default (JStr "") (Py.assoc "status" m)) "completed"); [exact H|].
destruct (Py.eq_str (default (JStr "") (Py.assoc "status" m)) "failed"); [exact H|].
apply IH; assumption.
Qed.

Lemma poll_loop_fuel_le fuel fuel' w res w' :
(fuel <= fuel')%nat ->
loop fuel w = (res, w') -> res <> Diverge -> loop fuel' w = (res, w').
Proof.
induction 1 as [|fuel' _ IH]; intros H Hres; [exact H|].
apply poll_loop_more_fuel; auto.
Qed.

(** While the clock advances, [n] sleeps use up [n * POLL_INTERVAL]
  seconds: the loop ends within [n + 1] tests when no more than that is
  left before the deadline. *)
Lemma poll_loop_terminates n w :
clock_advances env ->
(deadline - now w <= Ingest.POLL_INTERVAL * inject_Z (Z.of_nat n))%Q ->
fst (loop (S n) w) <> Diverge.
Proof.
subst loop. cbv beta. intros [Hserve Hsleep]. revert w.
induction n as [|n IH]; intros w Hleft; rewrite poll_loop_unfold.
- destruct (Ingest.Qltb (now w) deadline) eqn:Ht; [|discriminate].
  apply Qltb_true in Ht. exfalso. unfold Ingest.POLL_INTERVAL in Hleft.
  change (inject_Z (Z.of_nat 0)) with 0%Q in Hleft. lra.
- destruct (Ingest.Qltb (now w) deadline) eqn:Ht; [|discriminate].
  unfold send.
  pose proof (Hserve (requests (trace w)) (status_request s base_url file_id)) as Hdt.
  destruct (serve env (requests (trace w)) (status_request s base_url file_id))
    as [dt [r|]]; cbn [answer elapsed] in *; [|discriminate].
  destruct (status_code r =? 404)%Z; [discriminate|].
  destruct (is_error (status_code r)); [discriminate|].
  destruct (json_body r) as [[ | | | | |m]|]; try discriminate.
  cbv zeta.
  destruct (Py.eq_str (default (JStr "") (Py.assoc "status" m)) "completed");
    [discriminate|].
  destruct (Py.eq_str (default (JStr "") (Py.assoc "status" m)) "failed");
    [discriminate|].
  apply IH. cbn [time_sleep snd now trace].
  match goal with |- context [oversleep env ?h] => pose proof (Hsleep h) as Hover end.
  rewrite Nat2Z.inj_succ in Hleft. unfold Z.succ in Hleft.
  rewrite inject_Z_plus in Hleft.
  unfold Ingest.POLL_INTERVAL in *. change (inject_Z 1) with 1%Q in Hleft. lra.
Qed.

End Waiter.

Lemma scenario_clock_advances backend tree : clock_advances (scenario backend tree).
Proof. split; intros; simpl; lra. Qed.

Example slow_backend_polls :
  let '(res, w) := Ingest.wait_for_processing (scenario slow_backend []) POLL_FUEL
                     session0 "http://h" (JStr "f1") world0 in
  res = Ret true /\
  trace w = [Sent (status_request session0 "http://h" (JStr "f1")); Slept 2;
             Sent (status_request session0 "http://h" (JStr "f1")); Slept 2;
             Sent (status_request session0 "http://h" (JStr "f1"))].
Proof. vm_compute. split; reflexivity. Qed.

Example old_backend_assumed_ready :
  let '(res, w) := Ingest.wait_for_processing (scenario old_backend []) POLL_FUEL
                     session0 "http://h" (JStr "f1") world0 in
  res = Ret true /\ length (requests (trace w)) = 1%nat.
Proof. vm_compute. split; reflexivity. Qed.

(** Requests of one second and sleeps of two: the deadline of 120 seconds
    is reached after 40 polls. *)
Example pending_backend_times_out :
  let '(res, w) := Ingest.wait_for_processing (scenario pending_backend []) POLL_FUEL
                     session0 "http://h" (JStr "f1") world0 in
  res = Ret false /\ length (requests (trace w)) = 40%nat /\ (now w == 120)%Q.
Proof. vm_compute. repeat split; reflexivity. Qed.

(** C1 (amended): while the clock advances and the fuel covers the polls
    the timeout allows, [wait_for_processing] ends, and it returns [b]
    exactly when the state machine of the design document, read with
    "not a 4xx or 5xx response" as its success class, runs from the entry
    world to the exit world and ends in a state whose contract result is
    [b]: true for Completed and AssumedReady (a 404, on that poll), false for
    Failed and TimedOut; every poll that stays in Polling is followed by a
    sleep of [POLL_INTERVAL] seconds and the next test of the deadline. *)
Theorem wait_for_processing_state_machine env fuel s base_url file_id w :
  clock_advances env ->
  (POLL_FUEL <= fuel)%nat ->
  exists res w',
    Ingest.wait_for_processing env fuel s base_url file_id w = (res, w') /\
    res <> Diverge /\
    forall b,
      res = Ret b <->
      exists st,
        waiter_run not_error env s base_url file_id (now w + Ingest.POLL_TIMEOUT) w st w' /\
        contract_result st = Some b.
Proof.
  intros Hclock Hfuel.
  unfold Ingest.wait_for_processing. unfold bind at 1. cbn [time_time].
  set (deadline := (now w + Ingest.POLL_TIMEOUT)%Q).
  assert (Hend : fst (Ingest.poll_loop env POLL_FUEL s base_url file_id deadline w)
                 <> Diverge).
  { apply poll_loop_terminates; [exact Hclock|].
    unfold deadline, Ingest.POLL_TIMEOUT, Ingest.POLL_INTERVAL.
    change (inject_Z (Z.of_nat 60)) with 60%Q. lra. }
  destruct (Ingest.poll_loop env POLL_FUEL s base_url file_id deadline w)
    as [res w'] eqn:Hrun0.
  cbn [fst] in Hend.
  pose proof (poll_loop_fuel_le _ _ _ _ _ _ _ _ _ _ Hfuel Hrun0 Hend) as Hrun.
  exists res, w'. split; [exact Hrun|]. split; [exact Hend|].
  intros b. split.
  - intros ->. eapply poll_loop_sound. exact Hrun.
  - intros (st & Hst & Hb).
    destruct (poll_loop_complete _ _ _ _ _ _ _ _ _ Hst Hb) as [fuel2 Hrun2].
    assert (Hmax1 : (fuel <= Nat.max fuel fuel2)%nat) by apply Nat.le_max_l.
    assert (Hmax2 : (fuel2 <= Nat.max fuel fuel2)%nat) by apply Nat.le_max_r.
    pose proof (poll_loop_fuel_le _ _ _ _ _ _ _ _ _ _ Hmax1 Hrun Hend) as E1.
    assert (Hret : Ret b <> @Diverge bool) by discriminate.
    pose proof (poll_loop_fuel_le _ _ _ _ _ _ _ _ _ _ Hmax2 Hrun2 Hret) as E2.
    congruence.
Qed.

Lemma wait_for_processing_state_machine_witness :
  clock_advances (scenario slow_backend []) /\
  (POLL_FUEL <= 61)%nat /\
  exists res w',
    Ingest.wait_for_processing (scenario slow_backend []) 61 session0 "http://h"
      (JStr "f1") world0 = (res, w') /\
    res <> Diverge /\
    forall b,
      res = Ret b <->
      exists st,
        waiter_run not_error (scenario slow_backend []) session0 "http://h" (JStr "f1")
          (now world0 + Ingest.POLL_TIMEOUT) world0 st w' /\
        contract_result st = Some b.
Proof.
  split; [apply scenario_clock_advances|].
  split; [unfold POLL_FUEL; lia|].
  apply (wait_for_processing_state_machine (scenario slow_backend []) 61 session0
           "http://h" (JStr "f1") world0).
  - apply scenario_clock_advances.
  - unfold POLL_FUEL. lia.
Defined.

(** C1 as stated fails: a 300 response whose status field is "completed"
    makes [wait_for_processing] return true, and it is neither a 2xx
    response nor a 404, so the state machine read with the 2xx class has no
    run that ends in Completed or AssumedReady. *)
Lemma wait_for_processing_true_without_2xx :
  clock_advances (scenario choices_backend []) /\
  fst (Ingest.wait_for_processing (scenario choices_backend []) POLL_FUEL session0
         "http://h" (JStr "f1") world0) = Ret true /\
  ~ (exists st w',
        waiter_run is_2xx (scenario choices_backend []) session0 "http://h" (JStr "f1")
          (now world0 + Ingest.POLL_TIMEOUT) world0 st w' /\
        contract_result st = Some true).
Proof.
  split; [apply scenario_clock_advances|].
  split; [vm_compute; reflexivity|].
  intros (st & w' & Hrun & Hst).
  inversion Hrun as [w Ht | w r w1 st' Ht Hsend Hspec Hterm
                     | w r w1 st' w'' Ht Hsend Hspec Hrest]; subst.
  - apply Ht. reflexivity.
  - unfold send in Hsend. simpl in Hsend. injection Hsend as <- _.
    discriminate Hspec.
  - unfold send in Hsend. simpl in Hsend. injection Hsend as <- _.
    discriminate Hspec.
Qed.

(** ** The batch loop *)

(** *** Computations that raise nothing but [Exception]s and end *)

Lemma safe_ret {A} (a : A) : safe (ret a).
Proof. intros w. exact I. Qed.

Lemma safe_raise {A} e : is_Exception e = true -> safe (@raise A e).
Proof. intros H w. exact H. Qed.

Lemma safe_bind {A B} (c : M A) (k : A -> M B) :
  safe c -> (forall a, safe (k a)) -> safe (bind c k).
Proof.
  intros Hc Hk w. unfold bind. specialize (Hc w).
  destruct (c w) as [[a|e|] w']; simpl in *; [apply Hk | exact Hc | exact Hc].
Qed.

Lemma getitem_exception v k e : Py.getitem v k = inl e -> is_Exception e = true.
Proof.
  destruct v; simpl; try (intros H; injection H as <-; reflexivity).
  destruct (Py.assoc k m); [discriminate|]. intros H; injection H as <-; reflexivity.
Qed.

Lemma get_exception v k d e : Py.get v k d = inl e -> is_Exception e = true.
Proof. destruct v; simpl; intros H; try discriminate; injection H as <-; reflexivity. Qed.

Lemma safe_lift {A} (x : exn + A) :
  (forall e, x = inl e -> is_Exception e = true) -> safe (lift x).
Proof. intros H w. destruct x as [e|a]; simpl; [apply H; reflexivity | exact I]. Qed.

Lemma safe_getitem v k : safe (lift (Py.getitem v k)).
Proof. apply safe_lift. apply getitem_exception. Qed.

Lemma safe_get v k d : safe (lift (Py.get v k d)).
Proof. apply safe_lift. apply get_exception. Qed.

Lemma safe_send env rq : safe (send env rq).
Proof.
  intros w. unfold send. destruct (answer _); simpl; [exact I | reflexivity].
Qed.

Lemma safe_raise_for_status r : safe (raise_for_status r).
Proof. intros w. unfold raise_for_status. destruct (is_error _); simpl; auto. Qed.

Lemma safe_response_json r : safe (response_json r).
Proof. intros w. unfold response_json. destruct (json_body r); simpl; auto. Qed.

Lemma safe_write s : safe (write s).
Proof. intros w. exact I. Qed.

Lemma safe_print s : safe (print s).
Proof. intros w. exact I. Qed.

Lemma safe_time_sleep env d : safe (time_sleep env d).
Proof. intros w. exact I. Qed.

Create HintDb safe.
#[local] Hint Resolve safe_ret safe_getitem safe_get safe_send safe_raise_for_status
  safe_response_json safe_write safe_print safe_time_sleep : safe.

Ltac safe_steps :=
  repeat first
    [ apply safe_bind; [|intros ?]
    | solve [auto with safe]
    | match goal with
      | |- safe (if ?c then _ else _) => destruct c
      | |- safe (match ?x with _ => _ end) => destruct x
      end ].

Lemma safe_upload_file env s base_url p : safe (Ingest.upload_file env s base_url p).
Proof.
  unfold Ingest.upload_file, session_post_file. safe_steps.
  apply safe_raise. reflexivity.
Qed.

Lemma safe_add_to_knowledge env s base_url kb_id file_id :
  safe (Ingest.add_to_knowledge env s base_url kb_id file_id).
Proof. unfold Ingest.add_to_knowledge, session_post_json. safe_steps. Qed.

(** The loop of the waiter raises nothing but [Exception]s. *)
Lemma poll_loop_exceptions env fuel s base_url file_id deadline w e w' :
  Ingest.poll_loop env fuel s base_url file_id deadline w = (Raise e, w') ->
  is_Exception e = true.
Proof.
  revert w. induction fuel as [|fuel IH]; intros w H; [discriminate|].
  rewrite poll_loop_unfold in H.
  destruct (Ingest.Qltb (now w) deadline); [|discriminate].
  unfold send in H. destruct (answer _) as [r|].
  2:{ injection H as <- _. reflexivity. }
  destruct (status_code r =? 404)%Z; [discriminate|].
  destruct (is_error (status_code r)); [injection H as <- _; reflexivity|].
  destruct (json_body r) as [[ | | | | |m]|];
    try (injection H as <- _; reflexivity).
  cbv zeta in H.
  destruct (Py.eq_str _ "completed"); [discriminate|].
  destruct (Py.eq_str _ "failed"); [discriminate|].
  eapply IH, H.
Qed.

Lemma safe_wait_for_processing env fuel s base_url file_id :
  clock_advances env ->
  (POLL_FUEL <= fuel)%nat ->
  safe (Ingest.wait_for_processing env fuel s base_url file_id).
Proof.
  intros Hclock Hfuel w.
  unfold Ingest.wait_for_processing. unfold bind at 1. cbn [time_time].
  set (deadline := (now w + Ingest.POLL_TIMEOUT)%Q).
  assert (Hend : fst (Ingest.poll_loop env POLL_FUEL s base_url file_id deadline w)
                 <> Diverge).
  { apply poll_loop_terminates; [exact Hclock|].
    unfold deadline, Ingest.POLL_TIMEOUT, Ingest.POLL_INTERVAL.
    change (inject_Z (Z.of_nat 60)) with 60%Q. lra. }
  destruct (Ingest.poll_loop env POLL_FUEL s base_url file_id deadline w)
    as [res w'] eqn:Hrun0.
  cbn [fst] in Hend.
  rewrite (poll_loop_fuel_le _ _ _ _ _ _ _ _ _ _ Hfuel Hrun0 Hend). cbn [fst].
  destruct res as [b|e|]; [exact I | | contradiction].
  eapply poll_loop_exceptions, Hrun0.
Qed.

(** *** Computations that attach nothing *)

Lemma attached_app r1 r2 : attached (r1 ++ r2) = attached r1 ++ attached r2.
Proof.
  induction r1 as [|rq r1 IH]; [reflexivity|].
  simpl. destruct (meth rq); [exact IH|].
  destruct (body rq) as [|[ | | | | |[|[k f] [|? ?]]]|]; try exact IH.
  destruct (String.eqb k "file_id"); simpl; rewrite IH; reflexivity.
Qed.

Lemma no_attach_ret {A} (a : A) : no_attach (ret a).
Proof. intros w. reflexivity. Qed.

Lemma no_attach_raise {A} e : no_attach (@raise A e).
Proof. intros w. reflexivity. Qed.

Lemma no_attach_diverge {A} : no_attach (@diverge A).
Proof. intros w. reflexivity. Qed.

Lemma no_attach_lift {A} (x : exn + A) : no_attach (lift x).
Proof. destruct x; intros w; reflexivity. Qed.

Lemma no_attach_bind {A B} (c : M A) (k : A -> M B) :
  no_attach c -> (forall a, no_attach (k a)) -> no_attach (bind c k).
Proof.
  intros Hc Hk w. unfold bind. specialize (Hc w).
  destruct (c w) as [[a|e|] w']; simpl in *; [|exact Hc|exact Hc].
  rewrite (Hk a w'). exact Hc.
Qed.

Lemma no_attach_write s : no_attach (write s).
Proof.
  intros w. simpl. rewrite requests_app. simpl. rewrite app_nil_r. reflexivity.
Qed.

Lemma no_attach_print s : no_attach (print s).
Proof. apply no_attach_write. Qed.

Lemma no_attach_time_time : no_attach time_time.
Proof. intros w. reflexivity. Qed.

Lemma no_attach_time_sleep env d : no_attach (time_sleep env d).
Proof.
  intros w. simpl. rewrite requests_app. simpl. rewrite app_nil_r. reflexivity.
Qed.

Lemma no_attach_send env rq : attached [rq] = [] -> no_attach (send env rq).
Proof.
  intros Hrq w. unfold send.
  destruct (answer _); simpl; rewrite requests_app, attached_app; simpl requests;
    rewrite Hrq, app_nil_r; reflexivity.
Qed.

Lemma no_attach_raise_for_status r : no_attach (raise_for_status r).
Proof. intros w. unfold raise_for_status. destruct (is_error _); reflexivity. Qed.

Lemma no_attach_response_json r : no_attach (response_json r).
Proof. intros w. unfold response_json. destruct (json_body r); reflexivity. Qed.

Create HintDb frame.
#[local] Hint Resolve no_attach_ret no_attach_raise no_attach_diverge no_attach_lift
  no_attach_write no_attach_print no_attach_time_time no_attach_time_sleep
  no_attach_raise_for_status no_attach_response_json : frame.

Ltac frame_steps :=
  repeat first
    [ apply no_attach_bind; [|intros ?]
    | solve [auto with frame]
    | apply no_attach_send; reflexivity
    | match goal with
      | |- no_attach (if ?c then _ else _) => destruct c
      | |- no_attach (match ?x with _ => _ end) => destruct x
      end ].

Lemma no_attach_upload_file env s base_url p :
  no_attach (Ingest.upload_file env s base_url p).
Proof. unfold Ingest.upload_file, session_post_file. frame_steps. Qed.

Lemma no_attach_poll_loop env fuel s base_url file_id deadline :
  no_attach (Ingest.poll_loop env fuel s base_url file_id deadline).
Proof.
  induction fuel as [|fuel IH]; cbn [Ingest.poll_loop]; [auto with frame|].
  unfold session_get. frame_steps.
Qed.

Lemma no_attach_wait_for_processing env fuel s base_url file_id :
  no_attach (Ingest.wait_for_processing env fuel s base_url file_id).
Proof.
  unfold Ingest.wait_for_processing. frame_steps. apply no_attach_poll_loop.
Qed.

(** *** One entry *)

Lemma relative_to_app folder rel : PathLib.relative_to (folder ++ rel) folder = Some rel.
Proof.
  induction folder as [|c folder IH]; simpl.
  - destruct rel; reflexivity.
  - rewrite String.eqb_refl. exact IH.
Qed.

Lemma add_to_knowledge_trace env s base_url kb_id file_id w :
  trace (snd (Ingest.add_to_knowledge env s base_url kb_id file_id w))
  = trace w ++ [Sent (add_request s base_url kb_id file_id)].
Proof.
  unfold Ingest.add_to_knowledge, session_post_json.
  change (mkRequest POST (Ingest.add_url base_url kb_id) (session_headers s)
            (JsonBody (JObj [("file_id", file_id)])) 30)
    with (add_request s base_url kb_id file_id).
  destruct (send_then_pure env (add_request s base_url kb_id file_id)
              (fun r => raise_for_status r) w
              (fun r => pure_raise_for_status r)) as (res & w' & Hrun & Htrace).
  rewrite Hrun. exact Htrace.
Qed.

Lemma attached_add_request s base_url kb_id file_id :
  attached [add_request s base_url kb_id file_id] = [(Ingest.add_url base_url kb_id, file_id)].
Proof. reflexivity. Qed.

(** The [try] block when its three steps return. *)
Lemma ingest_entry_steps env fuel s base_url kb_id p w file_id w1 ok w2 w3 :
  Ingest.upload_file env s base_url p w = (Ret file_id, w1) ->
  Ingest.wait_for_processing env fuel s base_url file_id
    (printed [processing_chunk] (printed [uploaded_line file_id] w1)) = (Ret ok, w2) ->
  Ingest.add_to_knowledge env s base_url kb_id file_id (printed [outcome_line ok] w2)
  = (Ret tt, w3) ->
  Ingest.ingest_entry env fuel s base_url kb_id p w = (Ret true, printed [added_line] w3).
Proof.
  intros Hup Hwait Hadd.
  unfold Ingest.ingest_entry, try_except.
  rewrite (bind_ret _ _ _ _ _ Hup).
  unfold bind at 1. cbn [print write].
  unfold bind at 1. cbn [write].
  change (mkWorld (now (mkWorld (now w1) (trace w1 ++ [Wrote (("  uploaded  → " +:+ Py.str file_id) +:+ newline)])))
            (trace (mkWorld (now w1) (trace w1 ++ [Wrote (("  uploaded  → " +:+ Py.str file_id) +:+ newline)])) ++ [Wrote "  processing..."]))
    with (printed [processing_chunk] (printed [uploaded_line file_id] w1)).
  rewrite (bind_ret _ _ _ _ _ Hwait).
  unfold bind at 1. cbn [print write].
  change (mkWorld (now w2) (trace w2 ++ [Wrote ((if ok then " done" else " timed-out (proceeding anyway)") +:+ newline)]))
    with (printed [outcome_line ok] w2).
  rewrite (bind_ret _ _ _ _ _ Hadd).
  reflexivity.
Qed.

(** The [try] block when the upload raises: the handlers count a failure
    and nothing is attached. *)
Lemma ingest_entry_upload_raises env fuel s base_url kb_id p w e w1 :
  Ingest.upload_file env s base_url p w = (Raise e, w1) ->
  exists w',
    Ingest.ingest_entry env fuel s base_url kb_id p w = (Ret false, w') /\
    attached (requests (trace w')) = attached (requests (trace w)).
Proof.
  intros Hup.
  assert (He : is_Exception e = true).
  { pose proof (safe_upload_file env s base_url p w) as H. rewrite Hup in H. exact H. }
  assert (Hw1 : attached (requests (trace w1)) = attached (requests (trace w))).
  { pose proof (no_attach_upload_file env s base_url p w) as H. rewrite Hup in H. exact H. }
  unfold Ingest.ingest_entry, try_except.
  rewrite (bind_raise _ _ _ _ _ Hup), He.
  destruct e; try discriminate He;
    (eexists; split; [reflexivity|]);
    cbn [trace]; rewrite requests_app, attached_app, app_nil_r; exact Hw1.
Qed.

Lemma handler_prints env e w :
  is_Exception e = true ->
  (if is_Exception e
   then (match e with
         | HTTPError status body =>
             print ("  ERROR " +:+ Py.str_Z status +:+ ": " +:+ Py.take 200 body);;
             ret false
         | _ => print ("  ERROR: " +:+ exc_str env e);; ret false
         end) w
   else (Raise e, w))
  = (Ret false, printed [error_line env e] w).
Proof. intros He. rewrite He. destruct e; try discriminate He; reflexivity. Qed.

(** The [try] block when the upload raises: the handler prints the error
    line in the world the upload has left. *)
Lemma ingest_entry_upload_raised env fuel s base_url kb_id p w e w1 :
  Ingest.upload_file env s base_url p w = (Raise e, w1) ->
  Ingest.ingest_entry env fuel s base_url kb_id p w
  = (Ret false, printed [error_line env e] w1).
Proof.
  intros Hup.
  assert (He : is_Exception e = true).
  { pose proof (safe_upload_file env s base_url p w) as H. rewrite Hup in H. exact H. }
  unfold Ingest.ingest_entry, try_except.
  rewrite (bind_raise _ _ _ _ _ Hup).
  apply handler_prints, He.
Qed.

(** The [try] block never lets an exception through, and it ends when the
    waiter does. *)
Lemma ingest_entry_total env fuel s base_url kb_id p w :
  clock_advances env ->
  (POLL_FUEL <= fuel)%nat ->
  exists ok w', Ingest.ingest_entry env fuel s base_url kb_id p w = (Ret ok, w').
Proof.
  intros Hclock Hfuel. unfold Ingest.ingest_entry, try_except.
  match goal with |- context [match ?body w with _ => _ end] =>
    assert (Hsafe : safe body)
  end.
  { apply safe_bind; [apply safe_upload_file | intros file_id].
    apply safe_bind; [apply safe_print | intros _].
    apply safe_bind; [apply safe_write | intros _].
    apply safe_bind; [apply safe_wait_for_processing; assumption | intros ok].
    apply safe_bind; [apply safe_print | intros _].
    apply safe_bind; [apply safe_add_to_knowledge | intros _].
    apply safe_bind; [apply safe_print | intros _].
    apply safe_ret. }
  specialize (Hsafe w).
  match goal with |- context [match ?body w with _ => _ end] =>
    destruct (body w) as [[ok|e|] w1]
  end; cbn [fst] in Hsafe.
  - eexists _, _. reflexivity.
  - rewrite Hsafe. destruct e; try discriminate Hsafe; eexists _, _; reflexivity.
  - contradiction.
Qed.

(** One turn of the batch loop. *)
Lemma batch_loop_cons env fuel s base_url kb_id folder total i rel rest su fa w :
  Ingest.batch_loop env fuel s base_url kb_id folder total i ((folder ++ rel) :: rest) su fa w
  = match Ingest.ingest_entry env fuel s base_url kb_id (folder ++ rel)
            (printed [entry_header i total rel] w) with
    | (Ret true, w') =>
        Ingest.batch_loop env fuel s base_url kb_id folder total (S i) rest (S su) fa w'
    | (Ret false, w') =>
        Ingest.batch_loop env fuel s base_url kb_id folder total (S i) rest su (S fa) w'
    | (Raise e, w') => (Raise e, w')
    | (Diverge, w') => (Diverge, w')
    end.
Proof.
  cbn [Ingest.batch_loop]. rewrite relative_to_app.
  unfold bind at 1. cbn [ret].
  unfold bind at 1. cbn [print write].
  unfold bind at 1.
  change (mkWorld (now w) (trace w ++ [Wrote ((newline +:+ "[" +:+ Py.str_nat i +:+ "/" +:+ Py.str_nat total +:+ "] " +:+ PathLib.str_rel rel) +:+ newline)]))
    with (printed [entry_header i total rel] w).
  destruct (Ingest.ingest_entry env fuel s base_url kb_id (folder ++ rel)
              (printed [entry_header i total rel] w)) as [[[|]|e|] w']; reflexivity.
Qed.

Lemma attached_printed chunks w :
  attached (requests (trace (printed chunks w))) = attached (requests (trace w)).
Proof.
  unfold printed. cbn [trace]. rewrite requests_app.
  replace (requests (map Wrote chunks)) with (@nil request).
  - rewrite app_nil_r. reflexivity.
  - induction chunks; simpl; auto.
Qed.

(** The [try] block when its three steps return: one attach call, of the
    uploaded file. *)
Lemma ingest_entry_attaches env fuel s base_url kb_id p w file_id w1 ok w2 w3 :
  Ingest.upload_file env s base_url p w = (Ret file_id, w1) ->
  Ingest.wait_for_processing env fuel s base_url file_id
    (printed [processing_chunk] (printed [uploaded_line file_id] w1)) = (Ret ok, w2) ->
  Ingest.add_to_knowledge env s base_url kb_id file_id (printed [outcome_line ok] w2)
  = (Ret tt, w3) ->
  attached (requests (trace (printed [added_line] w3)))
  = attached (requests (trace w)) ++ [(Ingest.add_url base_url kb_id, file_id)].
Proof.
  intros Hup Hwait Hadd.
  rewrite attached_printed.
  pose proof (add_to_knowledge_trace env s base_url kb_id file_id
                (printed [outcome_line ok] w2)) as Htrace.
  rewrite Hadd in Htrace. cbn [snd] in Htrace.
  rewrite Htrace, requests_app, attached_app, attached_printed.
  cbn [requests]. rewrite attached_add_request.
  pose proof (no_attach_wait_for_processing env fuel s base_url file_id
                (printed [processing_chunk] (printed [uploaded_line file_id] w1))) as H2.
  rewrite Hwait in H2. cbn [snd] in H2. rewrite H2, !attached_printed.
  pose proof (no_attach_upload_file env s base_url p w) as H1.
  rewrite Hup in H1. cbn [snd] in H1. rewrite H1. reflexivity.
Qed.

Section Batch.

Variable env : environment.
Variable fuel : nat.
Variable s : session.
Variable base_url : string.
Variable kb_id : json.
Variable folder : path.
Variable total : nat.

Let loop := Ingest.batch_loop env fuel s base_url kb_id folder total.

Lemma batch_loop_upload_failures_only i rels w outs w' :
upload_failures_only env fuel s base_url kb_id folder total i rels w outs w' ->
forall su fa,
  loop i (entries folder rels) su fa w
  = (Ret ((su + length (ingested_ids outs))%nat, (fa + upload_failures outs)%nat), w') /\
  attached (requests (trace w'))
  = attached (requests (trace w))
    ++ map (fun file_id => (Ingest.add_url base_url kb_id, file_id)) (ingested_ids outs) /\
  length outs = length rels /\
  (length (ingested_ids outs) + upload_failures outs = length rels)%nat.
Proof.
subst loop. cbv beta.
induction 1 as [i w | i rel rels w e w1 outs w' Hup _ IH
                | i rel rels w file_id w1 ok w2 w3 outs w' Hup Hwait Hadd _ IH];
  intros su fa.
- simpl. rewrite !Nat.add_0_r, app_nil_r. repeat split; reflexivity.
- change (entries folder (rel :: rels)) with ((folder ++ rel) :: entries folder rels).
  rewrite batch_loop_cons, (ingest_entry_upload_raised _ _ _ _ _ _ _ _ _ Hup).
  destruct (IH su (S fa)) as (Hrun & Hatt & Hlen & Hsum).
  cbn [ingested_ids upload_failures length]. repeat split.
  + rewrite Hrun. do 3 f_equal. lia.
  + rewrite Hatt, !attached_printed.
    pose proof (no_attach_upload_file env s base_url (folder ++ rel)
                  (printed [entry_header i total rel] w)) as H1.
    rewrite Hup in H1. cbn [snd] in H1. rewrite H1, attached_printed. reflexivity.
  + rewrite Hlen. reflexivity.
  + lia.
- change (entries folder (rel :: rels)) with ((folder ++ rel) :: entries folder rels).
  rewrite batch_loop_cons, (ingest_entry_steps _ _ _ _ _ _ _ _ _ _ _ _ Hup Hwait Hadd).
  pose proof (ingest_entry_attaches _ _ _ _ _ _ _ _ _ _ _ _ Hup Hwait Hadd) as Hone.
  destruct (IH (S su) fa) as (Hrun & Hatt & Hlen & Hsum).
  cbn [ingested_ids upload_failures length map]. repeat split.
  + rewrite Hrun. do 3 f_equal. lia.
  + rewrite Hatt, Hone, attached_printed, <- app_assoc. reflexivity.
  + rewrite Hlen. reflexivity.
  + lia.
Qed.

Lemma batch_loop_total rels i su fa w :
clock_advances env ->
(POLL_FUEL <= fuel)%nat ->
exists su' fa' w',
  loop i (entries folder rels) su fa w = (Ret (su', fa'), w') /\
  (su' + fa' = su + fa + length rels)%nat.
Proof.
subst loop. cbv beta. intros Hclock Hfuel. revert i su fa w.
induction rels as [|rel rels IH]; intros i su fa w.
- exists su, fa, w. split; [reflexivity | simpl; lia].
- change (entries folder (rel :: rels)) with ((folder ++ rel) :: entries folder rels).
  rewrite batch_loop_cons.
  destruct (ingest_entry_total env fuel s base_url kb_id (folder ++ rel)
              (printed [entry_header i total rel] w) Hclock Hfuel) as (ok & w1 & Hentry).
  rewrite Hentry. destruct ok.
  + destruct (IH (S i) (S su) fa w1) as (su' & fa' & w' & Hrun & Hsum).
    exists su', fa', w'. split; [exact Hrun | simpl; lia].
  + destruct (IH (S i) su (S fa) w1) as (su' & fa' & w' & Hrun & Hsum).
    exists su', fa', w'. split; [exact Hrun | simpl; lia].
Qed.

Lemma batch_loop_app done rest i su fa w su' fa' w' :
loop i (entries folder done) su fa w = (Ret (su', fa'), w') ->
loop i (entries folder (done ++ rest)) su fa w
= loop (i + length done)%nat (entries folder rest) su' fa' w'.
Proof.
subst loop. cbv beta. revert i su fa w.
induction done as [|rel done IH]; intros i su fa w H.
- simpl in H. injection H as <- <- <-. simpl. rewrite Nat.add_0_r. reflexivity.
- change (entries folder (rel :: done)) with ((folder ++ rel) :: entries folder done) in H.
  change (entries folder ((rel :: done) ++ rest))
    with ((folder ++ rel) :: entries folder (done ++ rest)).
  rewrite batch_loop_cons in H. rewrite batch_loop_cons.
  destruct (Ingest.ingest_entry env fuel s base_url kb_id (folder ++ rel)
              (printed [entry_header i total rel] w)) as [[[|]|e|] w1];
    try discriminate H.
  + rewrite (IH _ _ _ _ H). cbn [length]. f_equal. lia.
  + rewrite (IH _ _ _ _ H). cbn [length]. f_equal. lia.
Qed.

End Batch.

Lemma filter_split_length {A} (f : A -> bool) (l : list A) :
  length (List.filter (fun x => negb (f x)) l) = (length l - length (List.filter f l))%nat.
Proof.
  assert (H : (length (List.filter (fun x => negb (f x)) l) + length (List.filter f l)
               = length l)%nat).
  { induction l as [|x l IH]; [reflexivity|]. simpl. destruct (f x); simpl; lia. }
  lia.
Qed.

(** C2: take a catalog of N entries and a run of the pipeline over it in
    which, for each entry in the world the run has reached, either the upload
    raises or the upload, the wait and the attach call all return; say the
    upload raises for K of them. Then the batch loop goes through all N
    entries and returns normally, in the world that run ends in, with
    [succeeded = N - K] and [failed = K], and the attach calls it has sent are
    exactly those of the file ids of the other N - K entries, one each, in
    catalog order. *)
Theorem batch_isolates_upload_failures env fuel s base_url kb_id folder total rels w
    outs w' :
  upload_failures_only env fuel s base_url kb_id folder total 1 rels w outs w' ->
  length outs = length rels /\
  Ingest.batch_loop env fuel s base_url kb_id folder total 1 (entries folder rels) 0 0 w
  = (Ret ((length rels - upload_failures outs)%nat, upload_failures outs), w') /\
  length (ingested_ids outs) = (length rels - upload_failures outs)%nat /\
  attached (requests (trace w'))
  = attached (requests (trace w))
    ++ map (fun file_id =>
              (base_url +:+ "/api/v1/knowledge/" +:+ Py.str kb_id +:+ "/file/add", file_id))
           (ingested_ids outs).
Proof.
  intros Hsteps.
  destruct (batch_loop_upload_failures_only env fuel s base_url kb_id folder total
              1%nat rels w outs w' Hsteps 0%nat 0%nat) as (Hrun & Hatt & Hlen & Hsum).
  split; [exact Hlen|]. split; [|split; [lia | exact Hatt]].
  rewrite Hrun. do 3 f_equal. lia.
Qed.

(** C4: when the upload of an entry returns a file id, the waiter returns
    false and the attach call succeeds, the [try] block prints the
    timed-out line, sends the attach call for that file id, and counts the
    entry in [succeeded], leaving [failed] as it was. *)
Theorem false_wait_still_attaches env fuel s base_url kb_id folder total i rel rest su fa
    w file_id w1 w2 w3 :
  Ingest.upload_file env s base_url (folder ++ rel) (printed [entry_header i total rel] w)
  = (Ret file_id, w1) ->
  Ingest.wait_for_processing env fuel s base_url file_id
    (printed [processing_chunk] (printed [uploaded_line file_id] w1)) = (Ret false, w2) ->
  Ingest.add_to_knowledge env s base_url kb_id file_id (printed [outcome_line false] w2)
  = (Ret tt, w3) ->
  Ingest.ingest_entry env fuel s base_url kb_id (folder ++ rel)
    (printed [entry_header i total rel] w) = (Ret true, printed [added_line] w3) /\
  trace w3 = trace w2 ++ [Wrote (outcome_line false);
                          Sent (add_request s base_url kb_id file_id)] /\
  Ingest.batch_loop env fuel s base_url kb_id folder total i ((folder ++ rel) :: rest) su fa w
  = Ingest.batch_loop env fuel s base_url kb_id folder total (S i) rest (S su) fa
      (printed [added_line] w3).
Proof.
  intros Hup Hwait Hadd.
  pose proof (ingest_entry_steps _ _ _ _ _ _ _ _ _ _ _ _ Hup Hwait Hadd) as Hentry.
  split; [exact Hentry|]. split.
  - pose proof (add_to_knowledge_trace env s base_url kb_id file_id
                  (printed [outcome_line false] w2)) as Htrace.
    rewrite Hadd in Htrace. cbn [snd] in Htrace. rewrite Htrace.
    unfold printed. cbn [trace map]. rewrite <- app_assoc. reflexivity.
  - rewrite batch_loop_cons, Hentry. reflexivity.
Qed.

(** C9: while the clock advances and the fuel covers the waits, the batch
    loop over [done ++ rest] reaches the end of [done] with counters whose
    sum is the number of entries of [done]; it goes on from there over
    [rest]; and one more entry increments exactly one of the two counters.
    With [rest] empty: after the loop the sum is the number of entries. *)
Theorem batch_counters_account_for_entries env fuel s base_url kb_id folder total
    done rest w :
  clock_advances env ->
  (POLL_FUEL <= fuel)%nat ->
  exists su fa w1,
    Ingest.batch_loop env fuel s base_url kb_id folder total 1 (entries folder done) 0 0 w
    = (Ret (su, fa), w1) /\
    (su + fa = length done)%nat /\
    Ingest.batch_loop env fuel s base_url kb_id folder total 1
      (entries folder (done ++ rest)) 0 0 w
    = Ingest.batch_loop env fuel s base_url kb_id folder total (1 + length done)
        (entries folder rest) su fa w1 /\
    forall rel, exists w2,
      Ingest.batch_loop env fuel s base_url kb_id folder total (1 + length done)
        (entries folder [rel]) su fa w1 = (Ret (S su, fa), w2) \/
      Ingest.batch_loop env fuel s base_url kb_id folder total (1 + length done)
        (entries folder [rel]) su fa w1 = (Ret (su, S fa), w2).
Proof.
  intros Hclock Hfuel.
  destruct (batch_loop_total env fuel s base_url kb_id folder total done 1%nat 0%nat 0%nat w
              Hclock Hfuel) as (su & fa & w1 & Hrun & Hsum).
  exists su, fa, w1. split; [exact Hrun|]. split; [lia|]. split.
  - apply batch_loop_app. exact Hrun.
  - intros rel.
    change (entries folder [rel]) with [folder ++ rel].
    rewrite batch_loop_cons.
    destruct (ingest_entry_total env fuel s base_url kb_id (folder ++ rel)
                (printed [entry_header (1 + length done) total rel] w1) Hclock Hfuel)
      as (ok & w2 & Hentry).
    rewrite Hentry. exists w2. destruct ok; [left | right]; reflexivity.
Qed.

(** ** The catalog and the dry run *)

Lemma insert_sorted_In p q l : In q (PathLib.insert_sorted p l) -> q = p \/ In q l.
Proof.
  induction l as [|x l IH]; simpl.
  - intros [<-|[]]. left; reflexivity.
  - destruct (PathLib.leb p x); simpl.
    + intros [<-|H]; [left; reflexivity | right; exact H].
    + intros [<-|H]; [right; left; reflexivity|].
      destruct (IH H) as [->|H']; [left; reflexivity | right; right; exact H'].
Qed.

Lemma sorted_In q l : In q (PathLib.sorted l) -> In q l.
Proof.
  induction l as [|x l IH]; simpl; [auto|].
  intros H. destruct (insert_sorted_In _ _ _ H) as [->|H']; [left; reflexivity|].
  right. apply IH, H'.
Qed.

(** Every catalog entry lies below the folder. *)
Lemma collect_files_entries env folder extensions :
  exists rels, Ingest.collect_files env folder extensions = entries folder rels.
Proof.
  unfold Ingest.collect_files.
  set (l := PathLib.sorted _).
  assert (H : forall p, In p l -> exists rel, p = folder ++ rel).
  { intros p Hp. apply sorted_In in Hp. apply list_elem_of_In in Hp.
    apply list_elem_of_filter in Hp. destruct Hp as [_ Hp].
    apply list_elem_of_In, in_map_iff in Hp. destruct Hp as (rel & <- & _).
    exists rel. reflexivity. }
  clearbody l. induction l as [|p l IH].
  - exists []. reflexivity.
  - destruct (H p (or_introl eq_refl)) as [rel ->].
    destruct IH as [rels ->]; [intros q Hq; apply H; right; exact Hq|].
    exists (rel :: rels). reflexivity.
Qed.

Lemma printed_cons chunk chunks w :
  printed (chunk :: chunks) w = printed chunks (printed [chunk] w).
Proof. unfold printed. cbn [now trace map]. rewrite <- app_assoc. reflexivity. Qed.

Lemma printed_nil w : printed [] w = w.
Proof. unfold printed. cbn [map]. rewrite app_nil_r. destruct w; reflexivity. Qed.

Lemma print_listing_entries folder rels w :
  Ingest.print_listing folder (entries folder rels) w
  = (Ret tt, printed (map listing_line rels) w).
Proof.
  revert w. induction rels as [|rel rels IH]; intros w.
  - simpl. rewrite printed_nil. reflexivity.
  - change (entries folder (rel :: rels)) with ((folder ++ rel) :: entries folder rels).
    cbn [Ingest.print_listing map]. rewrite relative_to_app.
    unfold bind at 1. cbn [ret]. unfold bind at 1. cbn [print write].
    rewrite printed_cons. apply IH.
Qed.

Lemma requests_printed chunks w : requests (trace (printed chunks w)) = requests (trace w).
Proof.
  unfold printed. cbn [trace]. rewrite requests_app.
  replace (requests (map Wrote chunks)) with (@nil request);
    [apply app_nil_r | induction chunks; simpl; auto].
Qed.

Lemma stdout_printed chunks w :
  stdout (trace (printed chunks w)) = stdout (trace w) ++ chunks.
Proof.
  unfold printed. cbn [trace]. rewrite stdout_app. f_equal.
  induction chunks; simpl; congruence.
Qed.

(** C6 (amended): a dry run on a valid root folder sends no request.
    When the catalog is not empty it prints the count line and one line per
    catalog entry and the process exits with status 0; when the catalog is
    empty it prints nothing and the process exits with status 1, on the
    message that no supported file was found. *)
Theorem dry_run_sends_nothing env fuel args w :
  Ingest.arg_dry_run args = true ->
  is_dir env (resolve env (Ingest.arg_folder args)) = true ->
  exists rels res w',
    catalog env args = entries (resolve env (Ingest.arg_folder args)) rels /\
    Ingest.main env fuel args w = (res, w') /\
    requests (trace w') = requests (trace w) /\
    match rels with
    | [] =>
        res = Raise (SystemExit (ExitMsg ("No supported files found in "
                 +:+ PathLib.str_abs (resolve env (Ingest.arg_folder args))))) /\
        stdout (trace w') = stdout (trace w) /\
        exit_status res = Some 1%Z
    | _ :: _ =>
        res = Ret tt /\
        stdout (trace w')
        = stdout (trace w)
          ++ found_line (length rels) (collection_name_of env args) :: map listing_line rels /\
        exit_status res = Some 0%Z
    end.
Proof.
  intros Hdry Hdir.
  destruct (collect_files_entries env (resolve env (Ingest.arg_folder args))
              (Ingest.effective_extensions (Ingest.arg_ext args))) as [rels Hrels].
  exists rels. unfold Ingest.main, catalog.
  rewrite Hdir, Hdry, Hrels. cbn [negb]. rewrite andb_false_r.
  destruct rels as [|rel rels].
  - eexists _, _. split; [reflexivity|]. cbn [entries map].
    split; [reflexivity|]. repeat split; reflexivity.
  - change (entries (resolve env (Ingest.arg_folder args)) (rel :: rels))
      with ((resolve env (Ingest.arg_folder args) ++ rel)
              :: entries (resolve env (Ingest.arg_folder args)) rels).
    cbv iota. unfold bind at 1. cbn [print write].
    change ((resolve env (Ingest.arg_folder args) ++ rel)
              :: entries (resolve env (Ingest.arg_folder args)) rels)
      with (entries (resolve env (Ingest.arg_folder args)) (rel :: rels)).
    rewrite (bind_ret _ _ _ _ _ (print_listing_entries _ _ _)).
    eexists _, _. split; [reflexivity|]. split; [reflexivity|].
    split; [|split; [reflexivity|split; [|reflexivity]]].
    + rewrite requests_printed. cbn [trace]. rewrite requests_app. apply app_nil_r.
    + rewrite stdout_printed. cbn [trace]. rewrite stdout_app, <- app_assoc.
      unfold found_line, collection_name_of, entries. rewrite length_map. reflexivity.
Qed.

(** ** The scenarios *)

Example catalog_of_small_tree :
  catalog (scenario library_backend small_tree) (dry_run_of "data" None)
  = [["data"; "a.txt"]; ["data"; "b.pdf"]].
Proof. vm_compute. reflexivity. Qed.

Example full_run_of_small_tree :
  let '(res, w) := Ingest.main (scenario full_backend small_tree) POLL_FUEL
                     (Ingest.mkArgs "data" "http://h/" (Some "docs") (Some "sk-1") None false)
                     world0 in
  exit_status res = Some 1%Z /\
  map url (requests (trace w))
  = ["http://h/api/v1/knowledge/";
     "http://h/api/v1/files/"; "http://h/api/v1/files/id-a.txt/process/status";
     "http://h/api/v1/knowledge/kb-1/file/add"; "http://h/api/v1/files/"].
Proof. vm_compute. split; reflexivity. Qed.

Lemma kb_has_name id name : has_field "name" (JStr name) (kb id name).
Proof. eexists. split; reflexivity. Qed.

Lemma kb_has_id id name : has_field "id" (JStr id) (kb id name).
Proof. eexists. split; reflexivity. Qed.

Lemma kb_named_otherwise id n name : n <> name -> named_otherwise name (kb id n).
Proof.
  intros Hne. exists [("id", JStr id); ("name", JStr n)], (JStr n).
  split; [reflexivity|]. split; [reflexivity|]. congruence.
Qed.

Lemma kb_not_named id n name : n <> name -> not_named name (kb id n).
Proof. intros Hne. apply named_otherwise_not_named, kb_named_otherwise, Hne. Qed.

Lemma get_or_create_knowledge_resolves_witness :
  serve (scenario library_backend []) (requests (trace world0))
        (list_request session0 "http://h")
  = mkReply 1 (Some (ok_json (JArr collections))) /\
  is_error (status_code (ok_json (JArr collections))) = false /\
  json_body (ok_json (JArr collections)) = Some (JArr collections) /\
  fst (Ingest.get_or_create_knowledge (scenario library_backend []) session0 "http://h"
         "docs" world0) = Ret (JStr "kb-1") /\
  fst (Ingest.get_or_create_knowledge (scenario library_backend []) session0 "http://h"
         "manuals" world0) = Ret (JStr "kb-9").
Proof.
  split; [reflexivity|]. split; [reflexivity|]. split; [reflexivity|]. split.
  - destruct (get_or_create_knowledge_resolves (scenario library_backend []) session0
                "http://h" "docs" world0 1 (ok_json (JArr collections)) collections
                eq_refl eq_refl eq_refl) as [Hfound _].
    destruct (Hfound [kb "kb-2" "notes"] (kb "kb-1" "docs") [kb "kb-3" "docs"]
                (JStr "kb-1") eq_refl)
      as (w' & Hrun & _).
    + constructor; [apply kb_not_named; discriminate | constructor].
    + apply kb_has_name.
    + apply kb_has_id.
    + rewrite Hrun. reflexivity.
  - destruct (get_or_create_knowledge_resolves (scenario library_backend []) session0
                "http://h" "manuals" world0 1 (ok_json (JArr collections)) collections
                eq_refl eq_refl eq_refl) as [_ Hnew].
    destruct Hnew as (res & w' & Hrun & _ & Hres).
    + repeat (constructor; [apply kb_not_named; discriminate|]). constructor.
    + rewrite Hrun. cbn [fst].
      apply (Hres 1%Q (ok_json answer_document) (JStr "kb-9") eq_refl eq_refl).
      eexists. split; [reflexivity|]. eexists. split; reflexivity.
Defined.

Lemma rag_query_not_found_or_forwarded_witness :
  serve (scenario library_backend []) (requests (trace world0))
        (mcp_list_request (scenario library_backend []))
  = mkReply 1 (Some (ok_json (JArr collections))) /\
  is_error (status_code (ok_json (JArr collections))) = false /\
  json_body (ok_json (JArr collections)) = Some (JArr collections) /\
  listing_of (JArr collections) collections /\
  fst (Mcp.rag_query (scenario library_backend []) "what is X?" "manuals" "gemma3:27b"
         world0)
  = Ret (JStr "Collection 'manuals' not found. Available: ['notes', 'docs', 'docs']") /\
  fst (Mcp.rag_query (scenario library_backend []) "what is X?" "docs" "gemma3:27b" world0)
  = Ret (JStr "forty-two").
Proof.
  split; [reflexivity|]. split; [reflexivity|]. split; [reflexivity|].
  split; [left; reflexivity|].
  destruct (rag_query_not_found_or_forwarded (scenario library_backend []) "what is X?"
              "manuals" "gemma3:27b" world0 1 (ok_json (JArr collections))
              (JArr collections) collections eq_refl eq_refl eq_refl
              (or_introl eq_refl)) as [Hmissing _].
  destruct (rag_query_not_found_or_forwarded (scenario library_backend []) "what is X?"
              "docs" "gemma3:27b" world0 1 (ok_json (JArr collections))
              (JArr collections) collections eq_refl eq_refl eq_refl
              (or_introl eq_refl)) as [_ Hfound].
  split.
  - destruct (Hmissing ["notes"; "docs"; "docs"]) as (w' & Hrun & _).
    + repeat (constructor; [apply kb_has_name|]). constructor.
    + simpl. intros [H|[H|[H|[]]]]; discriminate H.
    + rewrite Hrun. reflexivity.
  - destruct (Hfound [kb "kb-2" "notes"] (kb "kb-1" "docs") [kb "kb-3" "docs"]
                (JStr "kb-1") eq_refl) as (res & w' & Hrun & _ & Hres).
    + constructor; [apply kb_named_otherwise; discriminate | constructor].
    + apply kb_has_name.
    + apply kb_has_id.
    + discriminate.
    + rewrite Hrun. cbn [fst].
      apply (Hres 1%Q (ok_json answer_document) (JStr "forty-two") eq_refl eq_refl).
      eexists _, _, _, _. split; [reflexivity|].
      split; [eexists; split; reflexivity|].
      split; eexists; split; reflexivity.
Defined.

Lemma first_match_wins_witness :
  Forall (named_otherwise "docs") [kb "kb-2" "notes"] /\
  has_field "name" (JStr "docs") (kb "kb-1" "docs") /\
  has_field "id" (JStr "kb-1") (kb "kb-1" "docs") /\
  JStr "kb-1" <> JNull /\
  (exists w',
      Ingest.get_or_create_knowledge (scenario library_backend []) session0 "http://h"
        "docs" world0 = (Ret (JStr "kb-1"), w')) /\
  (exists res w',
      Mcp.rag_query (scenario library_backend []) "what is X?" "docs" "gemma3:27b" world0
      = (res, w') /\
      requests (trace w')
      = requests (trace world0)
        ++ [mcp_list_request (scenario library_backend []);
            chat_request (scenario library_backend []) "gemma3:27b" "what is X?"
              (JStr "kb-1")]).
Proof.
  assert (H1 : Forall (named_otherwise "docs") [kb "kb-2" "notes"]).
  { constructor; [apply kb_named_otherwise; discriminate | constructor]. }
  assert (H2 : has_field "name" (JStr "docs") (kb "kb-1" "docs")) by apply kb_has_name.
  assert (H3 : has_field "id" (JStr "kb-1") (kb "kb-1" "docs")) by apply kb_has_id.
  assert (H4 : JStr "kb-1" <> JNull) by discriminate.
  split; [exact H1|]. split; [exact H2|]. split; [exact H3|]. split; [exact H4|].
  exact (first_match_wins (scenario library_backend []) session0 "http://h" "what is X?"
           "docs" "gemma3:27b" world0
           1 (ok_json (JArr collections)) 1 (ok_json (JArr collections)) (JArr collections)
           [kb "kb-2" "notes"] (kb "kb-1" "docs") [kb "kb-3" "docs"] (JStr "kb-1")
           eq_refl eq_refl eq_refl eq_refl eq_refl eq_refl (or_introl eq_refl)
           H1 H2 H3 H4).
Defined.

Lemma batch_isolates_upload_failures_witness :
  exists w',
    upload_failures_only (scenario counter_backend small_tree) 61 session0 "http://h"
      (JStr "kb-1") ["data"] 3 1 three_files world0
      [Ingested (JStr "id-0"); UploadRaised (HTTPError 500 "disk full");
       Ingested (JStr "id-4")] w' /\
    Ingest.batch_loop (scenario counter_backend small_tree) 61 session0 "http://h"
      (JStr "kb-1") ["data"] 3 1 (entries ["data"] three_files) 0 0 world0
    = (Ret (2%nat, 1%nat), w') /\
    attached (requests (trace w'))
    = [("http://h/api/v1/knowledge/kb-1/file/add", JStr "id-0");
       ("http://h/api/v1/knowledge/kb-1/file/add", JStr "id-4")].
Proof.
  assert (Hsteps : exists w',
             upload_failures_only (scenario counter_backend small_tree) 61 session0
               "http://h" (JStr "kb-1") ["data"] 3 1 three_files world0
               [Ingested (JStr "id-0"); UploadRaised (HTTPError 500 "disk full");
                Ingested (JStr "id-4")] w').
  { eexists.
    eapply all_steps_return; [vm_compute; reflexivity.. |].
    eapply upload_raises; [vm_compute; reflexivity |].
    eapply all_steps_return; [vm_compute; reflexivity.. |].
    apply no_more_entries. }
  destruct Hsteps as [w' Hsteps]. exists w'. split; [exact Hsteps|].
  destruct (batch_isolates_upload_failures _ _ _ _ _ _ _ _ _ _ _ Hsteps)
    as (_ & Hrun & _ & Hatt).
  split; [exact Hrun | exact Hatt].
Defined.

Lemma false_wait_still_attaches_witness :
  exists w1 w2 w3,
    Ingest.upload_file (scenario failing_backend small_tree) session0 "http://h"
      (["data"] ++ ["a.txt"]) (printed [entry_header 1 1 ["a.txt"]] world0)
    = (Ret (JStr "id-a.txt"), w1) /\
    Ingest.wait_for_processing (scenario failing_backend small_tree) 61 session0 "http://h"
      (JStr "id-a.txt")
      (printed [processing_chunk] (printed [uploaded_line (JStr "id-a.txt")] w1))
    = (Ret false, w2) /\
    Ingest.add_to_knowledge (scenario failing_backend small_tree) session0 "http://h"
      (JStr "kb-1") (JStr "id-a.txt") (printed [outcome_line false] w2) = (Ret tt, w3) /\
    Ingest.batch_loop (scenario failing_backend small_tree) 61 session0 "http://h"
      (JStr "kb-1") ["data"] 1 1 ((["data"] ++ ["a.txt"]) :: []) 0 0 world0
    = (Ret (1%nat, 0%nat), printed [added_line] w3).
Proof.
  eexists _, _, _.
  assert (H1 : Ingest.upload_file (scenario failing_backend small_tree) session0 "http://h"
                 (["data"] ++ ["a.txt"]) (printed [entry_header 1 1 ["a.txt"]] world0)
               = (Ret (JStr "id-a.txt"),
                  snd (Ingest.upload_file (scenario failing_backend small_tree) session0
                         "http://h" (["data"] ++ ["a.txt"])
                         (printed [entry_header 1 1 ["a.txt"]] world0))))
    by (vm_compute; reflexivity).
  split; [exact H1|].
  match type of H1 with _ = (_, ?w1) =>
    assert (H2 : Ingest.wait_for_processing (scenario failing_backend small_tree) 61
                   session0 "http://h" (JStr "id-a.txt")
                   (printed [processing_chunk]
                      (printed [uploaded_line (JStr "id-a.txt")] w1))
                 = (Ret false,
                    snd (Ingest.wait_for_processing (scenario failing_backend small_tree)
                           61 session0 "http://h" (JStr "id-a.txt")
                           (printed [processing_chunk]
                              (printed [uploaded_line (JStr "id-a.txt")] w1)))))
      by (vm_compute; reflexivity)
  end.
  split; [exact H2|].
  match type of H2 with _ = (_, ?w2) =>
    assert (H3 : Ingest.add_to_knowledge (scenario failing_backend small_tree) session0
                   "http://h" (JStr "kb-1") (JStr "id-a.txt")
                   (printed [outcome_line false] w2)
                 = (Ret tt,
                    snd (Ingest.add_to_knowledge (scenario failing_backend small_tree)
                           session0 "http://h" (JStr "kb-1") (JStr "id-a.txt")
                           (printed [outcome_line false] w2))))
      by (vm_compute; reflexivity)
  end.
  split; [exact H3|].
  destruct (false_wait_still_attaches (scenario failing_backend small_tree) 61 session0
              "http://h" (JStr "kb-1") ["data"] 1 1 ["a.txt"] [] 0 0 world0
              (JStr "id-a.txt") _ _ _ H1 H2 H3) as (_ & _ & Hloop).
  rewrite Hloop. reflexivity.
Defined.

Lemma batch_counters_account_for_entries_witness :
  clock_advances (scenario batch_backend small_tree) /\
  (POLL_FUEL <= 61)%nat /\
  exists su fa w1,
    Ingest.batch_loop (scenario batch_backend small_tree) 61 session0 "http://h"
      (JStr "kb-1") ["data"] 3 1 (entries ["data"] three_files) 0 0 world0
    = (Ret (su, fa), w1) /\
    (su + fa = 3)%nat.
Proof.
  split; [apply scenario_clock_advances|].
  split; [unfold POLL_FUEL; lia|].
  destruct (batch_counters_account_for_entries (scenario batch_backend small_tree) 61
              session0 "http://h" (JStr "kb-1") ["data"] 3 three_files [] world0
              (scenario_clock_advances _ _) (Nat.le_refl _))
    as (su & fa & w1 & Hrun & Hsum & _).
  exists su, fa, w1. split; [exact Hrun | exact Hsum].
Defined.

Lemma dry_run_sends_nothing_witness :
  Ingest.arg_dry_run (dry_run_of "data" None) = true /\
  is_dir (scenario library_backend small_tree)
         (resolve (scenario library_backend small_tree)
            (Ingest.arg_folder (dry_run_of "data" None))) = true /\
  exists res w',
    Ingest.main (scenario library_backend small_tree) POLL_FUEL (dry_run_of "data" None)
      world0 = (res, w') /\
    requests (trace w') = [] /\
    stdout (trace w')
    = [found_line 2 "data"; listing_line ["a.txt"]; listing_line ["b.pdf"]] /\
    exit_status res = Some 0%Z.
Proof.
  split; [reflexivity|]. split; [reflexivity|].
  destruct (dry_run_sends_nothing (scenario library_backend small_tree) POLL_FUEL
              (dry_run_of "data" None) world0 eq_refl eq_refl)
    as (rels & res & w' & Hcat & Hrun & Hreq & Hrest).
  assert (Hrels : rels = [["a.txt"]; ["b.pdf"]]).
  { rewrite catalog_of_small_tree in Hcat.
    destruct rels as [|r1 [|r2 [|r3 rels]]]; try discriminate Hcat.
    injection Hcat as -> ->. reflexivity. }
  subst rels. destruct Hrest as (Hres & Hout & Hexit).
  exists res, w'. split; [exact Hrun|]. split; [exact Hreq|]. split; [exact Hout | exact Hexit].
Defined.

(** C6 as stated fails on an empty catalog: the dry run of a valid folder
    that holds no supported file exits with status 1. *)
Lemma dry_run_of_empty_catalog_exits_1 :
  Ingest.arg_dry_run (dry_run_of "data" None) = true /\
  is_dir (scenario library_backend [["skip.exe"]])
         (resolve (scenario library_backend [["skip.exe"]])
            (Ingest.arg_folder (dry_run_of "data" None))) = true /\
  catalog (scenario library_backend [["skip.exe"]]) (dry_run_of "data" None) = [] /\
  fst (Ingest.main (scenario library_backend [["skip.exe"]]) POLL_FUEL
         (dry_run_of "data" None) world0)
  = Raise (SystemExit (ExitMsg "No supported files found in /data")) /\
  exit_status (fst (Ingest.main (scenario library_backend [["skip.exe"]]) POLL_FUEL
                      (dry_run_of "data" None) world0)) = Some 1%Z.
Proof. repeat split; vm_compute; reflexivity. Qed.

(** ** The extension set *)

Lemma dotted_startswith_dot e : Py.startswith_dot (Ingest.dotted e) = true.
Proof.
  unfold Ingest.dotted. destruct (Py.startswith_dot e) eqn:E; [exact E | reflexivity].
Qed.

(** Every member of the extension set starts with a dot. *)
Lemma effective_extensions_dotted ext x :
  x ∈ Ingest.effective_extensions ext -> Py.startswith_dot x = true.
Proof.
  assert (Hdefault : x ∈ Ingest.DEFAULT_EXTENSIONS -> Py.startswith_dot x = true).
  { unfold Ingest.DEFAULT_EXTENSIONS. rewrite !elem_of_union, !elem_of_singleton.
    intros H. repeat (destruct H as [H | ->]; [|reflexivity]). subst x. reflexivity. }
  unfold Ingest.effective_extensions.
  destruct ext as [e|]; [|exact Hdefault].
  destruct (Py.truthy e); [|exact Hdefault].
  rewrite elem_of_union. intros [H|H]; [exact (Hdefault H)|].
  unfold Ingest.extra_extensions in H. rewrite elem_of_list_to_set in H.
  apply list_elem_of_In, in_map_iff in H. destruct H as (e' & <- & _).
  apply dotted_startswith_dot.
Qed.

(** A file is selected exactly when it is a regular file whose lower-cased
    suffix is in the extension set. *)
Lemma selected_iff env extensions p :
  Ingest.selected env extensions p = true
  <-> is_file env p = true /\ (Py.lower (PathLib.suffix p) ∈ extensions).
Proof.
  unfold Ingest.selected. rewrite andb_true_iff, bool_decide_eq_true. reflexivity.
Qed.

(** A member of the extension set that is not in lower case selects no
    file. *)
Lemma lower_idempotent s : Py.lower (Py.lower s) = Py.lower s.
Proof.
  induction s as [|c s IH]; [reflexivity|]. simpl. rewrite IH. f_equal.
  unfold Py.lower_ascii.
  destruct ((65 <=? nat_of_ascii c)%nat && (nat_of_ascii c <=? 90)%nat) eqn:E.
  - apply andb_true_iff in E. destruct E as [E1 E2].
    apply Nat.leb_le in E1, E2.
    rewrite nat_ascii_embedding by lia.
    replace ((65 <=? nat_of_ascii c + 32)%nat && (nat_of_ascii c + 32 <=? 90)%nat)
      with false; [reflexivity|].
    symmetry. apply andb_false_iff. right. apply Nat.leb_gt. lia.
  - rewrite E. reflexivity.
Qed.

Lemma mixed_case_member_selects_nothing (p : path) (x : string) :
  Py.lower x <> x -> Py.lower (PathLib.suffix p) <> x.
Proof. intros Hx H. apply Hx. rewrite <- H. apply lower_idempotent. Qed.

(** C5 at [--ext LOG]: the extension set holds [.LOG] as given, which is
    not lower-cased, and does not hold [.log]; so neither [server.LOG] nor
    [server.log] is in the catalog. *)
Theorem uppercase_extra_extension_kept_verbatim :
  (".LOG" ∈ Ingest.effective_extensions (Some "LOG")) /\
  Py.lower ".LOG" = ".log" /\
  (".log" ∉ Ingest.effective_extensions (Some "LOG")) /\
  catalog (scenario library_backend [["server.LOG"]; ["server.log"]])
          (dry_run_of "data" (Some "LOG")) = [].
Proof.
  split; [|split; [reflexivity|split]].
  - refine (bool_decide_eq_true_1 _ _). vm_compute. reflexivity.
  - refine (bool_decide_eq_false_1 _ _). vm_compute. reflexivity.
  - vm_compute. reflexivity.
Qed.

(** ** The two forms of the listing *)

(** The query tools read both forms of the listing. *)
Lemma list_collections_reads_both_forms env w dt r data l pairs :
  serve env (requests (trace w)) (mcp_list_request env) = mkReply dt (Some r) ->
  is_error (status_code r) = false ->
  json_body r = Some data ->
  listing_of data l ->
  Mcp.id_name_pairs l = inr pairs ->
  fst (Mcp.list_collections env w) = Ret pairs.
Proof.
  intros Hserve Hok Hbody Hl Hpairs.
  unfold Mcp.list_collections, session_get. fold (mcp_list_request env).
  rewrite (bind_ret _ _ _ _ _ (send_answered _ _ _ _ _ Hserve)).
  rewrite (bind_ret _ _ _ _ _ (raise_for_status_ok _ _ Hok)).
  rewrite (bind_ret _ _ _ _ _ (response_json_ok _ _ _ Hbody)).
  rewrite (items_of_listing _ _ Hl), bind_lift_inr.
  cbn [Py.iter]. rewrite bind_lift_inr, Hpairs. reflexivity.
Qed.

(** The ingestion does not: on a listing that is an object, the loop of
    [get_or_create_knowledge] runs over its keys, and a key has no [get]. *)
Lemma get_or_create_knowledge_on_object env s base_url name w dt r k v m :
  serve env (requests (trace w)) (list_request s base_url) = mkReply dt (Some r) ->
  is_error (status_code r) = false ->
  json_body r = Some (JObj ((k, v) :: m)) ->
  fst (Ingest.get_or_create_knowledge env s base_url name w) = Raise AttributeError.
Proof.
  intros Hserve Hok Hbody.
  unfold Ingest.get_or_create_knowledge, session_get. fold (list_request s base_url).
  rewrite (bind_ret _ _ _ _ _ (send_answered _ _ _ _ _ Hserve)).
  rewrite (bind_ret _ _ _ _ _ (raise_for_status_ok _ _ Hok)).
  rewrite (bind_ret _ _ _ _ _ (response_json_ok _ _ _ Hbody)).
  reflexivity.
Qed.

(** C7 at the listing [{"items": [...]}]: the query tools extract the
    collections, the ingestion raises [AttributeError]. *)
Theorem items_form_breaks_ingestion :
  fst (Mcp.list_collections (scenario items_backend []) world0) = Ret collections /\
  map body (requests (trace (snd (Mcp.rag_query (scenario items_backend [])
                                    "what is X?" "docs" "gemma3:27b" world0))))
  = [NoBody; JsonBody (Mcp.chat_payload "gemma3:27b" "what is X?" (JStr "kb-1"))] /\
  fst (Ingest.get_or_create_knowledge (scenario library_backend []) session0 "http://h"
         "docs" world0) = Ret (JStr "kb-1") /\
  fst (Ingest.get_or_create_knowledge (scenario items_backend []) session0 "http://h"
         "docs" world0) = Raise AttributeError.
Proof. repeat split; vm_compute; reflexivity. Qed.

(** * Further properties *)

(** ** The order of paths *)

Lemma ascii_compare_lt_trans a b c :
  Ascii.compare a b = Lt -> Ascii.compare b c = Lt -> Ascii.compare a c = Lt.
Proof.
  unfold Ascii.compare. rewrite !N.compare_lt_iff. apply N.lt_trans.
Qed.

Lemma string_compare_lt_trans a b c :
  String.compare a b = Lt -> String.compare b c = Lt -> String.compare a c = Lt.
Proof.
  revert b c. induction a as [|x a IH]; intros [|y b] [|z c]; simpl; try congruence.
  destruct (Ascii.compare x y) eqn:Exy; try discriminate;
    destruct (Ascii.compare y z) eqn:Eyz; try discriminate; intros H1 H2.
  - apply Ascii.compare_eq_iff in Exy, Eyz. subst.
    replace (Ascii.compare z z) with Eq.
    + eapply IH; eassumption.
    + symmetry. unfold Ascii.compare. apply N.compare_refl.
  - apply Ascii.compare_eq_iff in Exy. subst. rewrite Eyz. reflexivity.
  - apply Ascii.compare_eq_iff in Eyz. subst. rewrite Exy. reflexivity.
  - rewrite (ascii_compare_lt_trans _ _ _ Exy Eyz). reflexivity.
Qed.

Lemma string_compare_refl a : String.compare a a = Eq.
Proof.
  induction a as [|x a IH]; simpl; [reflexivity|].
  replace (Ascii.compare x x) with Eq; [exact IH|].
  symmetry. unfold Ascii.compare. apply N.compare_refl.
Qed.

Lemma string_compare_gt_lt a b : String.compare a b = Gt <-> String.compare b a = Lt.
Proof.
  rewrite (String.compare_antisym a b).
  destruct (String.compare b a); simpl; split; congruence.
Qed.

Lemma path_leb_total p q : PathLib.leb p q = false -> PathLib.leb q p = true.
Proof.
  revert q. induction p as [|a p IH]; intros [|b q]; simpl; try congruence.
  rewrite (String.compare_antisym b a).
  destruct (String.compare a b); simpl; try congruence. apply IH.
Qed.

Lemma path_leb_antisym p q : PathLib.leb p q = true -> PathLib.leb q p = true -> p = q.
Proof.
  revert q. induction p as [|a p IH]; intros [|b q]; simpl; try congruence.
  rewrite (String.compare_antisym b a).
  destruct (String.compare a b) eqn:E; simpl; try congruence.
  intros H1 H2. apply String.compare_eq_iff in E. subst. f_equal. apply IH; assumption.
Qed.

Lemma path_leb_trans p q r :
  PathLib.leb p q = true -> PathLib.leb q r = true -> PathLib.leb p r = true.
Proof.
  revert q r. induction p as [|a p IH]; intros [|b q] [|c r]; simpl; try congruence.
  destruct (String.compare a b) eqn:Eab; try discriminate;
    destruct (String.compare b c) eqn:Ebc; try discriminate; intros H1 H2.
  - apply String.compare_eq_iff in Eab, Ebc. subst. rewrite string_compare_refl.
    eapply IH; eassumption.
  - apply String.compare_eq_iff in Eab. subst. rewrite Ebc. reflexivity.
  - apply String.compare_eq_iff in Ebc. subst. rewrite Eab. reflexivity.
  - rewrite (string_compare_lt_trans _ _ _ Eab Ebc). reflexivity.
Qed.

(** ** [sorted] *)

Lemma insert_sorted_perm p l : Permutation (PathLib.insert_sorted p l) (p :: l).
Proof.
  induction l as [|q l IH]; simpl; [reflexivity|].
  destruct (PathLib.leb p q); [reflexivity|].
  rewrite IH. apply perm_swap.
Qed.

Lemma sorted_perm l : Permutation (PathLib.sorted l) l.
Proof.
  induction l as [|p l IH]; simpl; [reflexivity|].
  rewrite insert_sorted_perm, IH. reflexivity.
Qed.

Lemma insert_sorted_sorted p l :
  StronglySorted path_le l -> StronglySorted path_le (PathLib.insert_sorted p l).
Proof.
  induction 1 as [|q l Hl IH Hq]; simpl.
  - constructor; constructor.
  - destruct (PathLib.leb p q) eqn:E.
    + constructor; [constructor; assumption|].
      constructor; [exact E|].
      eapply Forall_impl; [exact Hq|]. intros r Hr. exact (path_leb_trans _ _ _ E Hr).
    + constructor; [exact IH|].
      apply path_leb_total in E.
      apply (Permutation_Forall (Permutation_sym (insert_sorted_perm p l))).
      constructor; assumption.
Qed.

Lemma sorted_sorted l : StronglySorted path_le (PathLib.sorted l).
Proof.
  induction l as [|p l IH]; simpl; [constructor | apply insert_sorted_sorted, IH].
Qed.

Lemma insert_sorted_comm p q l :
  PathLib.insert_sorted p (PathLib.insert_sorted q l)
  = PathLib.insert_sorted q (PathLib.insert_sorted p l).
Proof.
  induction l as [|x l IH]; simpl.
  - destruct (PathLib.leb p q) eqn:Epq, (PathLib.leb q p) eqn:Eqp; try reflexivity.
    + rewrite (path_leb_antisym _ _ Epq Eqp). reflexivity.
    + apply path_leb_total in Epq. congruence.
  - destruct (PathLib.leb q x) eqn:Eqx, (PathLib.leb p x) eqn:Epx; simpl;
      rewrite ?Eqx, ?Epx.
    + destruct (PathLib.leb p q) eqn:Epq, (PathLib.leb q p) eqn:Eqp; try reflexivity.
      * rewrite (path_leb_antisym _ _ Epq Eqp). reflexivity.
      * apply path_leb_total in Epq. congruence.
    + destruct (PathLib.leb p q) eqn:Epq; [|reflexivity].
      rewrite (path_leb_trans _ _ _ Epq Eqx) in Epx. discriminate.
    + destruct (PathLib.leb q p) eqn:Eqp; [|reflexivity].
      rewrite (path_leb_trans _ _ _ Eqp Epx) in Eqx. discriminate.
    + rewrite IH. reflexivity.
Qed.

(** The sorted list does not depend on the order of the input. *)
Lemma sorted_permutation l1 l2 :
  Permutation l1 l2 -> PathLib.sorted l1 = PathLib.sorted l2.
Proof.
  induction 1 as [|p l1 l2 _ IH|p q l|l1 l2 l3 _ IH1 _ IH2]; simpl.
  - reflexivity.
  - rewrite IH. reflexivity.
  - apply insert_sorted_comm.
  - congruence.
Qed.

(** ** The catalog *)

Lemma collect_files_In env folder extensions p :
  In p (Ingest.collect_files env folder extensions)
  <-> exists rel,
        In rel (rglob env folder) /\ p = folder ++ rel /\
        is_file env p = true /\ (Py.lower (PathLib.suffix p) ∈ extensions).
Proof.
  unfold Ingest.collect_files.
  rewrite <- !list_elem_of_In, (sorted_perm _), list_elem_of_filter, selected_iff.
  rewrite list_elem_of_In, in_map_iff. split.
  - intros ([Hfile Hext] & rel & <- & Hrel). exists rel. auto.
  - intros (rel & Hrel & -> & Hfile & Hext). split; [auto|]. exists rel. auto.
Qed.

(** X1: a path is in the catalog exactly when the directory walk finds it
    below the folder, it is a regular file, and its lower-cased suffix is in
    the extension set. *)
Theorem collect_files_membership env folder extensions p :
  In p (Ingest.collect_files env folder extensions)
  <-> exists rel,
        In rel (rglob env folder) /\ p = folder ++ rel /\
        is_file env p = true /\ (Py.lower (PathLib.suffix p) ∈ extensions).
Proof. apply collect_files_In. Qed.

(** X2: the catalog is in ascending order of paths. *)
Theorem collect_files_sorted env folder extensions :
  StronglySorted path_le (Ingest.collect_files env folder extensions).
Proof. unfold Ingest.collect_files. apply sorted_sorted. Qed.

Lemma filter_selected_ext env1 env2 extensions (l : list path) :
  (forall p, is_file env1 p = is_file env2 p) ->
  filter (fun p => Ingest.selected env1 extensions p = true) l
  = filter (fun p => Ingest.selected env2 extensions p = true) l.
Proof.
  intros Hfile. induction l as [|p l IH]; [reflexivity|].
  rewrite !filter_cons, IH. unfold Ingest.selected. rewrite (Hfile p).
  repeat case_decide; congruence.
Qed.

(** X3: the catalog does not depend on the order in which the directory
    walk lists the folder: two file systems that hold the same regular files
    below it give the same catalog. *)
Theorem collect_files_walk_order env1 env2 folder extensions :
  Permutation (rglob env1 folder) (rglob env2 folder) ->
  (forall p, is_file env1 p = is_file env2 p) ->
  Ingest.collect_files env1 folder extensions = Ingest.collect_files env2 folder extensions.
Proof.
  intros Hperm Hfile. unfold Ingest.collect_files.
  apply sorted_permutation.
  rewrite (filter_selected_ext env1 env2 extensions _ Hfile).
  apply filter_Permutation, Permutation_map, Hperm.
Qed.

Lemma NoDup_entries (folder : path) (rels : list path) : NoDup rels -> NoDup (map (fun rel => folder ++ rel) rels).
Proof.
  induction 1 as [|rel rels Hnot _ IH]; simpl; constructor; [|exact IH].
  rewrite list_elem_of_In, in_map_iff. intros (rel' & Heq & Hin).
  apply app_inv_head in Heq. subst rel'. apply Hnot, list_elem_of_In, Hin.
Qed.

(** X4: when the directory walk lists no path twice, no file is twice in
    the catalog. *)
Theorem collect_files_no_duplicates env folder extensions :
  NoDup (rglob env folder) -> NoDup (Ingest.collect_files env folder extensions).
Proof.
  intros Hnodup. unfold Ingest.collect_files.
  rewrite (sorted_perm _). apply NoDup_filter, NoDup_entries, Hnodup.
Qed.

Lemma lower_empty s : Py.lower s = EmptyString -> s = EmptyString.
Proof. destruct s; [reflexivity | discriminate]. Qed.

(** X5: whatever [--ext] says, a file whose name has no suffix is not in
    the catalog [main] builds. *)
Theorem catalog_entries_have_suffix env args p :
  In p (catalog env args) -> PathLib.suffix p <> EmptyString.
Proof.
  unfold catalog. intros Hp Hsuffix.
  apply collect_files_In in Hp. destruct Hp as (rel & _ & _ & _ & Hext).
  apply effective_extensions_dotted in Hext.
  rewrite Hsuffix in Hext. discriminate Hext.
Qed.

(** [split] undoes [join] on pieces without the separator. *)
Lemma split_comma_free x : comma_free x = true -> Py.split_comma x = [x].
Proof.
  induction x as [|c x IH]; [reflexivity|]. cbn [comma_free Py.split_comma].
  intros H. apply andb_true_iff in H. destruct H as [Hc Hx].
  apply negb_true_iff in Hc. rewrite Hc, (IH Hx). reflexivity.
Qed.

Lemma split_comma_cons x rest :
  comma_free x = true -> Py.split_comma (x +:+ "," +:+ rest) = x :: Py.split_comma rest.
Proof.
  induction x as [|c x IH]; [reflexivity|].
  cbn [comma_free]. intros H. apply andb_true_iff in H. destruct H as [Hc Hx].
  apply negb_true_iff in Hc.
  change (String c x +:+ "," +:+ rest) with (String c (x +:+ "," +:+ rest)).
  cbn [Py.split_comma]. rewrite Hc, (IH Hx). reflexivity.
Qed.

Lemma split_comma_join pieces :
  pieces <> [] -> Forall (fun piece => comma_free piece = true) pieces ->
  Py.split_comma (Py.join "," pieces) = pieces.
Proof.
  induction pieces as [|x pieces IH]; [congruence|]. intros _ Hfree.
  apply Forall_cons in Hfree. destruct Hfree as [Hx Hfree].
  destruct pieces as [|y pieces].
  - cbn [Py.join]. apply split_comma_free, Hx.
  - change (Py.join "," (x :: y :: pieces)) with (x +:+ "," +:+ Py.join "," (y :: pieces)).
    rewrite (split_comma_cons _ _ Hx), IH; [reflexivity | discriminate | exact Hfree].
Qed.

Lemma dotted_with_dot piece : Ingest.dotted piece = with_dot piece.
Proof.
  unfold Ingest.dotted, with_dot. destruct piece as [|c piece]; [reflexivity|].
  cbn [Py.startswith_dot String.prefix].
  destruct (Ascii.eqb_spec c ".") as [->|Hc].
  - destruct (ascii_dec "." "."); [|congruence]. destruct piece; reflexivity.
  - destruct (ascii_dec "." c); [congruence | reflexivity].
Qed.

(** X6: for an [--ext] argument that is a list of pieces joined by
    commas (the pieces hold no comma, and the argument is not empty), the
    extension set holds the built-in extensions and, besides them, exactly
    the pieces, each with a dot put in front unless it starts with one. *)
Theorem effective_extensions_of_pieces pieces x :
  pieces <> [] ->
  Forall (fun piece => comma_free piece = true) pieces ->
  Py.join "," pieces <> EmptyString ->
  x ∈ Ingest.effective_extensions (Some (Py.join "," pieces))
  <-> x ∈ Ingest.DEFAULT_EXTENSIONS \/ exists piece, In piece pieces /\ x = with_dot piece.
Proof.
  intros Hne Hfree Hext.
  unfold Ingest.effective_extensions, Ingest.extra_extensions.
  destruct (Py.join "," pieces) as [|c e] eqn:Hjoin; [congruence|].
  cbn [Py.truthy]. rewrite <- Hjoin, (split_comma_join pieces Hne Hfree).
  rewrite elem_of_union, elem_of_list_to_set, list_elem_of_In, in_map_iff.
  split.
  - intros [H|(piece & <- & Hin)]; [left; exact H|].
    right. exists piece. split; [exact Hin | apply dotted_with_dot].
  - intros [H|(piece & Hin & ->)]; [left; exact H|].
    right. exists piece. split; [apply dotted_with_dot | exact Hin].
Qed.

(** ** The events of the waiter *)

Lemma poll_loop_trace env fuel s base_url file_id deadline w :
  exists t,
    trace (snd (Ingest.poll_loop env fuel s base_url file_id deadline w)) = trace w ++ t /\
    poll_trace (status_request s base_url file_id) t.
Proof.
  revert w. induction fuel as [|fuel IH]; intros w.
  { exists []. split; [symmetry; apply app_nil_r | constructor]. }
  rewrite poll_loop_unfold.
  destruct (Ingest.Qltb (now w) deadline).
  2:{ exists []. split; [symmetry; apply app_nil_r | constructor]. }
  unfold send.
  set (w1 := mkWorld _ (trace w ++ [Sent (status_request s base_url file_id)])).
  assert (Hlast : exists t,
             trace w1 = trace w ++ t /\ poll_trace (status_request s base_url file_id) t).
  { eexists. split; [reflexivity | constructor]. }
  destruct (answer _) as [r|]; [|exact Hlast].
  destruct (status_code r =? 404)%Z; [exact Hlast|].
  destruct (is_error (status_code r)); [exact Hlast|].
  destruct (json_body r) as [[ | | | | |m]|]; try exact Hlast.
  cbv zeta.
  destruct (Py.eq_str _ "completed"); [exact Hlast|].
  destruct (Py.eq_str _ "failed"); [exact Hlast|].
  destruct (IH (snd (time_sleep env Ingest.POLL_INTERVAL w1))) as (t & Ht & Hpoll).
  exists (Sent (status_request s base_url file_id) :: Slept Ingest.POLL_INTERVAL :: t).
  split; [|constructor; exact Hpoll].
  rewrite Ht. unfold w1. cbn [time_sleep snd trace].
  rewrite <- !app_assoc. reflexivity.
Qed.

(** X7: a wait adds to the trace nothing but polls of the status URL of
    its file and sleeps of [POLL_INTERVAL] seconds, one sleep after each poll
    that is followed by another turn of the loop. *)
Theorem wait_for_processing_trace env fuel s base_url file_id w :
  exists t,
    trace (snd (Ingest.wait_for_processing env fuel s base_url file_id w)) = trace w ++ t /\
    poll_trace (status_request s base_url file_id) t.
Proof.
  unfold Ingest.wait_for_processing. unfold bind at 1. cbn [time_time].
  apply poll_loop_trace.
Qed.

Lemma poll_loop_poll_bound env fuel s base_url file_id deadline n w :
  clock_advances env ->
  (deadline - now w <= Ingest.POLL_INTERVAL * inject_Z (Z.of_nat n))%Q ->
  (length (requests (trace (snd (Ingest.poll_loop env fuel s base_url file_id deadline w))))
   <= length (requests (trace w)) + n)%nat.
Proof.
  intros [Hserve Hsleep]. revert n w.
  induction fuel as [|fuel IH]; intros n w Hleft; [simpl; lia|].
  rewrite poll_loop_unfold.
  destruct (Ingest.Qltb (now w) deadline) eqn:Ht; [|simpl; lia].
  apply Qltb_true in Ht.
  destruct n as [|n].
  { exfalso. unfold Ingest.POLL_INTERVAL in Hleft.
    change (inject_Z (Z.of_nat 0)) with 0%Q in Hleft. lra. }
  unfold send.
  pose proof (Hserve (requests (trace w)) (status_request s base_url file_id)) as Hdt.
  set (w1 := mkWorld _ (trace w ++ [Sent (status_request s base_url file_id)])).
  assert (Hone : (length (requests (trace w1)) <= length (requests (trace w)) + S n)%nat).
  { unfold w1. cbn [trace]. rewrite requests_app, length_app. simpl. lia. }
  destruct (answer _) as [r|]; [|exact Hone].
  destruct (status_code r =? 404)%Z; [exact Hone|].
  destruct (is_error (status_code r)); [exact Hone|].
  destruct (json_body r) as [[ | | | | |m]|]; try exact Hone.
  cbv zeta.
  destruct (Py.eq_str _ "completed"); [exact Hone|].
  destruct (Py.eq_str _ "failed"); [exact Hone|].
  etransitivity; [apply (IH n)|].
  - unfold w1. cbn [time_sleep snd now trace].
    match goal with |- context [oversleep env ?h] => pose proof (Hsleep h) as Hover end.
    rewrite Nat2Z.inj_succ in Hleft. unfold Z.succ in Hleft.
    rewrite inject_Z_plus in Hleft.
    unfold Ingest.POLL_INTERVAL in *. change (inject_Z 1) with 1%Q in Hleft. lra.
  - unfold w1. cbn [time_sleep snd trace]. rewrite !requests_app, !length_app. simpl. lia.
Qed.

(** X8: while the clock advances, a wait polls at most 60 times
    ([POLL_TIMEOUT / POLL_INTERVAL]), whatever the fuel. *)
Theorem wait_for_processing_poll_bound env fuel s base_url file_id w :
  clock_advances env ->
  (length (requests (trace (snd (Ingest.wait_for_processing env fuel s base_url file_id w))))
   <= length (requests (trace w)) + 60)%nat.
Proof.
  intros Hclock. unfold Ingest.wait_for_processing. unfold bind at 1. cbn [time_time].
  apply poll_loop_poll_bound; [exact Hclock|].
  unfold Ingest.POLL_TIMEOUT, Ingest.POLL_INTERVAL.
  change (inject_Z (Z.of_nat 60)) with 60%Q. lra.
Qed.

Lemma waiter_run_timed_out env s base_url file_id deadline w st w' :
  waiter_run not_error env s base_url file_id deadline w st w' ->
  st = TimedOut -> (deadline <= now w')%Q.
Proof.
  induction 1 as [w Ht | w r w1 st Ht Hsend Hspec Hterm | w r w1 st w' Ht Hsend Hspec _ IH];
    intros Hst.
  - apply Qnot_lt_le, Ht.
  - subst st. unfold spec_transition in Hspec.
    destruct (status_code r =? 404)%Z; [discriminate|].
    destruct (not_error (status_code r)); [|discriminate].
    destruct (json_body r) as [[ | | | | |m]|]; try discriminate.
    cbv zeta in Hspec.
    destruct (Py.eq_str _ "completed"); [discriminate|].
    destruct (Py.eq_str _ "failed"); discriminate.
  - apply IH, Hst.
Qed.

Lemma waiter_run_failed env s base_url file_id deadline w st w' :
  waiter_run not_error env s base_url file_id deadline w st w' ->
  st = Failed ->
  exists w0 r j,
    send env (status_request s base_url file_id) w0 = (Ret r, w') /\
    json_body r = Some j /\ has_field "status" (JStr "failed") j.
Proof.
  induction 1 as [w Ht | w r w1 st Ht Hsend Hspec Hterm | w r w1 st w' Ht Hsend Hspec _ IH];
    intros Hst.
  - discriminate.
  - subst st. unfold spec_transition in Hspec.
    destruct (status_code r =? 404)%Z; [discriminate|].
    destruct (not_error (status_code r)); [|discriminate].
    destruct (json_body r) as [[ | | | | |m]|] eqn:Ej; try discriminate.
    cbv zeta in Hspec.
    destruct (Py.eq_str _ "completed"); [discriminate|].
    destruct (Py.eq_str (default (JStr "") (Py.assoc "status" m)) "failed") eqn:Ef;
      [|discriminate].
    exists w, r, (JObj m). split; [exact Hsend|]. split; [exact Ej|].
    exists m. split; [reflexivity|].
    apply eq_str_true in Ef. destruct (Py.assoc "status" m) as [v|]; simpl in Ef.
    + congruence.
    + discriminate.
  - apply IH, Hst.
Qed.

(** X9: a wait does not give up early: when it returns false, either the
    clock has reached the deadline, [POLL_TIMEOUT] seconds after the start,
    or the last response said that the processing failed. *)
Theorem wait_for_processing_false env fuel s base_url file_id w w' :
  Ingest.wait_for_processing env fuel s base_url file_id w = (Ret false, w') ->
  (now w + Ingest.POLL_TIMEOUT <= now w')%Q \/
  exists w0 r j,
    send env (status_request s base_url file_id) w0 = (Ret r, w') /\
    json_body r = Some j /\ has_field "status" (JStr "failed") j.
Proof.
  unfold Ingest.wait_for_processing. unfold bind at 1. cbn [time_time]. intros H.
  destruct (poll_loop_sound _ _ _ _ _ _ _ _ _ H) as (st & Hrun & Hst).
  destruct st; try discriminate Hst.
  - right. eapply waiter_run_failed; [exact Hrun | reflexivity].
  - left. eapply waiter_run_timed_out; [exact Hrun | reflexivity].
Qed.

(** ** The upload *)

Lemma getitem_has_field j k v : Py.getitem j k = inr v -> has_field k v j.
Proof.
  destruct j as [ | | | | |m]; simpl; try discriminate.
  destruct (Py.assoc k m) as [x|] eqn:E; [|discriminate].
  intros H. injection H as <-. exists m. split; [reflexivity | exact E].
Qed.

Lemma upload_file_unfold env s base_url p w :
  Ingest.upload_file env s base_url p w
  = match read_file env p with
    | None => (Raise OSError, w)
    | Some content =>
        match send env (upload_request env s base_url p content) w with
        | (Ret r, w1) =>
            if is_error (status_code r)
            then (Raise (HTTPError (status_code r) (text r)), w1)
            else match json_body r with
                 | None => (Raise JSONDecodeError, w1)
                 | Some j =>
                     match Py.getitem j "id" with
                     | inl e => (Raise e, w1)
                     | inr id => (Ret id, w1)
                     end
                 end
        | (Raise e, w1) => (Raise e, w1)
        | (Diverge, w1) => (Diverge, w1)
        end
    end.
Proof.
  unfold Ingest.upload_file, session_post_file, bind. cbv zeta.
  destruct (read_file env p) as [content|]; [|reflexivity].
  cbv beta iota delta [ret]. fold (upload_request env s base_url p content).
  destruct (send env (upload_request env s base_url p content) w) as [[r|e|] w1];
    try reflexivity.
  unfold raise_for_status.
  destruct (is_error (status_code r)); [reflexivity|]. cbn [ret].
  unfold response_json.
  destruct (json_body r) as [j|]; [|reflexivity]. cbn [ret].
  destruct (Py.getitem j "id"); reflexivity.
Qed.

(** X10: [upload_file] returns [id] exactly when the file can be read, the
    backend answers the multipart POST with a response that is not an error,
    and the JSON object of that response holds [id] in its [id] field; the
    POST is then the one request it has sent.  When the file cannot be read
    it raises [OSError] and sends nothing. *)
Theorem upload_file_returns env s base_url p w :
  (forall id w',
      Ingest.upload_file env s base_url p w = (Ret id, w')
      <-> exists content dt r j,
            read_file env p = Some content /\
            serve env (requests (trace w)) (upload_request env s base_url p content)
            = mkReply dt (Some r) /\
            is_error (status_code r) = false /\
            json_body r = Some j /\ has_field "id" id j /\
            w' = mkWorld (now w + dt)
                   (trace w ++ [Sent (upload_request env s base_url p content)]))
  /\
  (read_file env p = None ->
   Ingest.upload_file env s base_url p w = (Raise OSError, w)).
Proof.
  rewrite upload_file_unfold. split.
  - intros id w'. destruct (read_file env p) as [content|].
    2:{ split; [discriminate|]. intros (c & _ & _ & _ & Hc & _). discriminate. }
    unfold send.
    destruct (serve env (requests (trace w)) (upload_request env s base_url p content))
      as [dt [r|]] eqn:Hserve; cbn [answer elapsed].
    2:{ split; [discriminate|].
        intros (c & dt' & r' & j & Hc & Hs & _). injection Hc as <-.
        rewrite Hserve in Hs. discriminate. }
    destruct (is_error (status_code r)) eqn:Herr.
    { split; [discriminate|].
      intros (c & dt' & r' & j & Hc & Hs & Hok & _). injection Hc as <-.
      rewrite Hserve in Hs. injection Hs as <- <-. congruence. }
    destruct (json_body r) as [j|] eqn:Hj.
    2:{ split; [discriminate|].
        intros (c & dt' & r' & j & Hc & Hs & _ & Hj' & _). injection Hc as <-.
        rewrite Hserve in Hs. injection Hs as <- <-. congruence. }
    destruct (Py.getitem j "id") as [e|id'] eqn:Hid.
    { split; [discriminate|].
      intros (c & dt' & r' & j' & Hc & Hs & _ & Hj' & Hf & _). injection Hc as <-.
      rewrite Hserve in Hs. injection Hs as <- <-.
      rewrite Hj in Hj'. injection Hj' as <-.
      rewrite (has_field_getitem _ _ _ Hf) in Hid. discriminate. }
    split.
    + intros H. injection H as <- <-.
      exists content, dt, r, j. repeat split; auto using getitem_has_field.
    + intros (c & dt' & r' & j' & Hc & Hs & _ & Hj' & Hf & ->). injection Hc as <-.
      rewrite Hserve in Hs. injection Hs as <- <-.
      rewrite Hj in Hj'. injection Hj' as <-.
      rewrite (has_field_getitem _ _ _ Hf) in Hid. injection Hid as <-. reflexivity.
  - intros ->. reflexivity.
Qed.

(** ** Failures inside the [try] block *)

Lemma wait_for_processing_exceptions env fuel s base_url file_id w e w' :
  Ingest.wait_for_processing env fuel s base_url file_id w = (Raise e, w') ->
  is_Exception e = true.
Proof.
  unfold Ingest.wait_for_processing. unfold bind at 1. cbn [time_time].
  apply poll_loop_exceptions.
Qed.

(** X11: when the upload of an entry has returned and the wait raises,
    the [try] block prints the error line and counts a failure, and no attach
    call is sent for the file. *)
Theorem ingest_entry_wait_raises env fuel s base_url kb_id p w file_id w1 e w2 :
  Ingest.upload_file env s base_url p w = (Ret file_id, w1) ->
  Ingest.wait_for_processing env fuel s base_url file_id
    (printed [processing_chunk] (printed [uploaded_line file_id] w1)) = (Raise e, w2) ->
  Ingest.ingest_entry env fuel s base_url kb_id p w
  = (Ret false, printed [error_line env e] w2) /\
  attached (requests (trace (printed [error_line env e] w2)))
  = attached (requests (trace w)).
Proof.
  intros Hup Hwait.
  pose proof (wait_for_processing_exceptions _ _ _ _ _ _ _ _ Hwait) as He.
  split.
  - unfold Ingest.ingest_entry, try_except.
    rewrite (bind_ret _ _ _ _ _ Hup).
    unfold bind at 1. cbn [print write].
    unfold bind at 1. cbn [write].
    change (mkWorld (now (mkWorld (now w1) (trace w1 ++ [Wrote (("  uploaded  → " +:+ Py.str file_id) +:+ newline)])))
              (trace (mkWorld (now w1) (trace w1 ++ [Wrote (("  uploaded  → " +:+ Py.str file_id) +:+ newline)])) ++ [Wrote "  processing..."]))
      with (printed [processing_chunk] (printed [uploaded_line file_id] w1)).
    rewrite (bind_raise _ _ _ _ _ Hwait).
    apply handler_prints, He.
  - rewrite attached_printed.
    pose proof (no_attach_wait_for_processing env fuel s base_url file_id
                  (printed [processing_chunk] (printed [uploaded_line file_id] w1))) as H2.
    rewrite Hwait in H2. cbn [snd] in H2. rewrite H2, !attached_printed.
    pose proof (no_attach_upload_file env s base_url p w) as H1.
    rewrite Hup in H1. exact H1.
Qed.

(** X12: when the upload and the wait have returned and the attach call
    raises, the [try] block prints the error line and counts a failure; the
    attach call was sent once and is not repeated. *)
Theorem ingest_entry_attach_raises env fuel s base_url kb_id p w file_id w1 ok w2 e w3 :
  Ingest.upload_file env s base_url p w = (Ret file_id, w1) ->
  Ingest.wait_for_processing env fuel s base_url file_id
    (printed [processing_chunk] (printed [uploaded_line file_id] w1)) = (Ret ok, w2) ->
  Ingest.add_to_knowledge env s base_url kb_id file_id (printed [outcome_line ok] w2)
  = (Raise e, w3) ->
  Ingest.ingest_entry env fuel s base_url kb_id p w
  = (Ret false, printed [error_line env e] w3) /\
  attached (requests (trace (printed [error_line env e] w3)))
  = attached (requests (trace w)) ++ [(Ingest.add_url base_url kb_id, file_id)].
Proof.
  intros Hup Hwait Hadd.
  assert (He : is_Exception e = true).
  { pose proof (safe_add_to_knowledge env s base_url kb_id file_id
                  (printed [outcome_line ok] w2)) as H.
    rewrite Hadd in H. exact H. }
  split.
  - unfold Ingest.ingest_entry, try_except.
    rewrite (bind_ret _ _ _ _ _ Hup).
    unfold bind at 1. cbn [print write].
    unfold bind at 1. cbn [write].
    change (mkWorld (now (mkWorld (now w1) (trace w1 ++ [Wrote (("  uploaded  → " +:+ Py.str file_id) +:+ newline)])))
              (trace (mkWorld (now w1) (trace w1 ++ [Wrote (("  uploaded  → " +:+ Py.str file_id) +:+ newline)])) ++ [Wrote "  processing..."]))
      with (printed [processing_chunk] (printed [uploaded_line file_id] w1)).
    rewrite (bind_ret _ _ _ _ _ Hwait).
    unfold bind at 1. cbn [print write].
    change (mkWorld (now w2) (trace w2 ++ [Wrote ((if ok then " done" else " timed-out (proceeding anyway)") +:+ newline)]))
      with (printed [outcome_line ok] w2).
    rewrite (bind_raise _ _ _ _ _ Hadd).
    apply handler_prints, He.
  - rewrite attached_printed.
    pose proof (add_to_knowledge_trace env s base_url kb_id file_id
                  (printed [outcome_line ok] w2)) as Htrace.
    rewrite Hadd in Htrace. cbn [snd] in Htrace.
    rewrite Htrace, requests_app, attached_app, attached_printed.
    cbn [requests]. rewrite attached_add_request.
    pose proof (no_attach_wait_for_processing env fuel s base_url file_id
                  (printed [processing_chunk] (printed [uploaded_line file_id] w1))) as H2.
    rewrite Hwait in H2. cbn [snd] in H2. rewrite H2, !attached_printed.
    pose proof (no_attach_upload_file env s base_url p w) as H1.
    rewrite Hup in H1. cbn [snd] in H1. rewrite H1. reflexivity.
Qed.

(** ** What a computation adds to the trace *)

Lemma only_emits_nothing {A} (P : event -> Prop) (c : M A) :
  (forall w, snd (c w) = w) -> only_emits P c.
Proof.
  intros H w. exists []. rewrite H. split; [symmetry; apply app_nil_r | constructor].
Qed.

Lemma only_emits_ret {A} P (a : A) : only_emits P (ret a).
Proof. apply only_emits_nothing. reflexivity. Qed.

Lemma only_emits_raise {A} P e : only_emits P (@raise A e).
Proof. apply only_emits_nothing. reflexivity. Qed.

Lemma only_emits_diverge {A} P : only_emits P (@diverge A).
Proof. apply only_emits_nothing. reflexivity. Qed.

Lemma only_emits_lift {A} P (x : exn + A) : only_emits P (lift x).
Proof. apply only_emits_nothing. destruct x; reflexivity. Qed.

Lemma only_emits_time_time P : only_emits P time_time.
Proof. apply only_emits_nothing. reflexivity. Qed.

Lemma only_emits_raise_for_status P r : only_emits P (raise_for_status r).
Proof. apply only_emits_nothing. apply pure_raise_for_status. Qed.

Lemma only_emits_response_json P r : only_emits P (response_json r).
Proof. apply only_emits_nothing. apply pure_response_json. Qed.

Lemma only_emits_bind {A B} P (c : M A) (k : A -> M B) :
  only_emits P c -> (forall a, only_emits P (k a)) -> only_emits P (bind c k).
Proof.
  intros Hc Hk w. unfold bind. destruct (Hc w) as (t1 & Ht1 & HP1).
  destruct (c w) as [[a|e|] w1]; cbn [snd] in *; try (exists t1; split; assumption).
  destruct (Hk a w1) as (t2 & Ht2 & HP2).
  exists (t1 ++ t2). split.
  - rewrite Ht2, Ht1, app_assoc. reflexivity.
  - apply Forall_app. split; assumption.
Qed.

Lemma only_emits_try_except {A} P (body : M A) (handler : exn -> M A) :
  only_emits P body -> (forall e, only_emits P (handler e)) ->
  only_emits P (try_except body handler).
Proof.
  intros Hb Hh w. unfold try_except. destruct (Hb w) as (t1 & Ht1 & HP1).
  destruct (body w) as [[a|e|] w1]; cbn [snd] in *; try (exists t1; split; assumption).
  destruct (is_Exception e); [|exists t1; split; assumption].
  destruct (Hh e w1) as (t2 & Ht2 & HP2).
  exists (t1 ++ t2). split.
  - rewrite Ht2, Ht1, app_assoc. reflexivity.
  - apply Forall_app. split; assumption.
Qed.

Lemma only_emits_one {A} (P : event -> Prop) (c : M A) ev :
  P ev -> (forall w, trace (snd (c w)) = trace w ++ [ev]) -> only_emits P c.
Proof.
  intros HP H w. exists [ev]. split; [apply H | constructor; [exact HP | constructor]].
Qed.

Lemma only_emits_write (P : event -> Prop) s : P (Wrote s) -> only_emits P (write s).
Proof. intros HP. apply (only_emits_one P _ (Wrote s) HP). reflexivity. Qed.

Lemma only_emits_print (P : event -> Prop) s :
  P (Wrote (s +:+ newline)) -> only_emits P (print s).
Proof. apply only_emits_write. Qed.

Lemma only_emits_time_sleep (P : event -> Prop) env d :
  P (Slept d) -> only_emits P (time_sleep env d).
Proof. intros HP. apply (only_emits_one P _ (Slept d) HP). reflexivity. Qed.

Lemma only_emits_send (P : event -> Prop) env rq : P (Sent rq) -> only_emits P (send env rq).
Proof.
  intros HP. apply (only_emits_one P _ (Sent rq) HP).
  intros w. unfold send. destruct (answer _); reflexivity.
Qed.

Lemma only_emits_impl {A} (P Q : event -> Prop) (c : M A) :
  (forall ev, P ev -> Q ev) -> only_emits P c -> only_emits Q c.
Proof.
  intros HPQ Hc w. destruct (Hc w) as (t & Ht & HP). exists t. split; [exact Ht|].
  eapply Forall_impl; [exact HP | exact HPQ].
Qed.

Lemma poll_trace_Forall (P : event -> Prop) rq t :
  P (Sent rq) -> P (Slept Ingest.POLL_INTERVAL) -> poll_trace rq t -> Forall P t.
Proof. intros H1 H2. induction 1; repeat constructor; assumption. Qed.

Lemma only_emits_wait_for_processing (P : event -> Prop) env fuel s base_url file_id :
  P (Sent (status_request s base_url file_id)) ->
  P (Slept Ingest.POLL_INTERVAL) ->
  only_emits P (Ingest.wait_for_processing env fuel s base_url file_id).
Proof.
  intros H1 H2 w. unfold Ingest.wait_for_processing. unfold bind at 1. cbn [time_time].
  destruct (poll_loop_trace env fuel s base_url file_id (now w + Ingest.POLL_TIMEOUT) w)
    as (t & Ht & Hpoll).
  exists t. split; [exact Ht | eapply poll_trace_Forall; eassumption].
Qed.

Lemma only_emits_add_to_knowledge (P : event -> Prop) env s base_url kb_id file_id :
  P (Sent (add_request s base_url kb_id file_id)) ->
  only_emits P (Ingest.add_to_knowledge env s base_url kb_id file_id).
Proof.
  intros HP. apply (only_emits_one P _ _ HP). apply add_to_knowledge_trace.
Qed.

Lemma only_emits_upload_file (P : event -> Prop) env s base_url p :
  (forall content, P (Sent (upload_request env s base_url p content))) ->
  only_emits P (Ingest.upload_file env s base_url p).
Proof.
  intros HP w. rewrite upload_file_unfold.
  destruct (read_file env p) as [content|].
  2:{ exists []. split; [symmetry; apply app_nil_r | constructor]. }
  exists [Sent (upload_request env s base_url p content)].
  split; [|constructor; [apply HP | constructor]].
  unfold send. destruct (answer _) as [r|]; [|reflexivity].
  destruct (is_error (status_code r)); [reflexivity|].
  destruct (json_body r) as [j|]; [|reflexivity].
  destruct (Py.getitem j "id"); reflexivity.
Qed.

Lemma handler_only_prints (P : event -> Prop) env e :
  (forall s, P (Wrote s)) ->
  only_emits P (match e with
                | HTTPError status body =>
                    print ("  ERROR " +:+ Py.str_Z status +:+ ": " +:+ Py.take 200 body);;
                    ret false
                | _ => print ("  ERROR: " +:+ exc_str env e);; ret false
                end).
Proof.
  intros HP.
  destruct e; (apply only_emits_bind; [apply only_emits_print, HP | intros _; apply only_emits_ret]).
Qed.

(** What the [try] block adds after the upload step: output, status polls,
    sleeps and attach calls. *)
Lemma ingest_entry_after_upload (P : event -> Prop) env fuel s base_url kb_id p :
  (forall s, P (Wrote s)) ->
  (forall d, P (Slept d)) ->
  (forall file_id, P (Sent (status_request s base_url file_id))) ->
  (forall file_id, P (Sent (add_request s base_url kb_id file_id))) ->
  forall w, exists t,
    trace (snd (Ingest.ingest_entry env fuel s base_url kb_id p w))
    = trace (snd (Ingest.upload_file env s base_url p w)) ++ t /\ Forall P t.
Proof.
  intros Hw Hs Hpoll Hadd w. unfold Ingest.ingest_entry, try_except.
  unfold bind at 1.
  destruct (Ingest.upload_file env s base_url p w) as [[file_id|e|] w1]; cbn [snd].
  - match goal with |- context [match ?rest w1 with _ => _ end] =>
      assert (Hrest : only_emits P rest)
    end.
    { apply only_emits_bind; [apply only_emits_print, Hw | intros _].
      apply only_emits_bind; [apply only_emits_write, Hw | intros _].
      apply only_emits_bind;
        [apply only_emits_wait_for_processing; [apply Hpoll | apply Hs] | intros ok].
      apply only_emits_bind; [apply only_emits_print, Hw | intros _].
      apply only_emits_bind; [apply only_emits_add_to_knowledge, Hadd | intros _].
      apply only_emits_bind; [apply only_emits_print, Hw | intros _].
      apply only_emits_ret. }
    destruct (Hrest w1) as (t1 & Ht1 & HP1).
    match goal with |- context [match ?rest w1 with _ => _ end] =>
      destruct (rest w1) as [[ok|e|] w2]
    end; cbn [snd] in *; try (exists t1; split; assumption).
    destruct (is_Exception e); [|exists t1; split; assumption].
    destruct (handler_only_prints P env e Hw w2) as (t2 & Ht2 & HP2).
    exists (t1 ++ t2). split.
    + rewrite Ht2, Ht1, app_assoc. reflexivity.
    + apply Forall_app. split; assumption.
  - destruct (is_Exception e).
    + apply (handler_only_prints P env e Hw w1).
    + exists []. split; [symmetry; apply app_nil_r | constructor].
  - exists []. split; [symmetry; apply app_nil_r | constructor].
Qed.

(** ** The uploads of the batch loop *)

Lemma uploaded_names_app r1 r2 :
  uploaded_names (r1 ++ r2) = uploaded_names r1 ++ uploaded_names r2.
Proof.
  induction r1 as [|rq r1 IH]; [reflexivity|].
  simpl. destruct (body rq); simpl; rewrite IH; reflexivity.
Qed.

Lemma uploaded_names_frame t : Forall not_upload t -> uploaded_names (requests t) = [].
Proof.
  induction 1 as [|ev t Hev _ IH]; [reflexivity|].
  destruct ev as [rq| |]; simpl; try exact IH.
  simpl in Hev. destruct (body rq); [exact IH | exact IH | contradiction].
Qed.

Lemma upload_file_uploaded env s base_url p w :
  uploaded_names (requests (trace (snd (Ingest.upload_file env s base_url p w))))
  = uploaded_names (requests (trace w))
    ++ (if readable env p then [PathLib.name p] else []).
Proof.
  rewrite upload_file_unfold. unfold readable.
  destruct (read_file env p) as [content|]; [|symmetry; apply app_nil_r].
  assert (H : forall (res : result json) w1,
             trace w1 = trace w ++ [Sent (upload_request env s base_url p content)] ->
             uploaded_names (requests (trace (snd (res, w1))))
             = uploaded_names (requests (trace w)) ++ [PathLib.name p]).
  { intros res w1 Hw1. cbn [snd]. rewrite Hw1, requests_app, uploaded_names_app.
    reflexivity. }
  unfold send. destruct (answer _) as [r|]; [|apply H; reflexivity].
  destruct (is_error (status_code r)); [apply H; reflexivity|].
  destruct (json_body r) as [j|]; [|apply H; reflexivity].
  destruct (Py.getitem j "id"); apply H; reflexivity.
Qed.

Lemma ingest_entry_uploaded env fuel s base_url kb_id p w :
  uploaded_names (requests (trace (snd (Ingest.ingest_entry env fuel s base_url kb_id p w))))
  = uploaded_names (requests (trace w))
    ++ (if readable env p then [PathLib.name p] else []).
Proof.
  destruct (ingest_entry_after_upload not_upload env fuel s base_url kb_id p
              (fun _ => I) (fun _ => I) (fun _ => I) (fun _ => I) w) as (t & Ht & HP).
  rewrite Ht, requests_app, uploaded_names_app, (uploaded_names_frame _ HP), app_nil_r.
  apply upload_file_uploaded.
Qed.

(** X13: while the clock advances and the fuel covers the waits, the batch
    loop uploads every catalog entry that can be read exactly once, in
    catalog order, whatever happens to the entries before it; no upload is
    repeated. *)
Theorem batch_loop_uploads_in_order env fuel s base_url kb_id folder total i rels su fa w :
  clock_advances env ->
  (POLL_FUEL <= fuel)%nat ->
  uploaded_names
    (requests (trace (snd (Ingest.batch_loop env fuel s base_url kb_id folder total i
                             (entries folder rels) su fa w))))
  = uploaded_names (requests (trace w))
    ++ map PathLib.name (List.filter (readable env) (entries folder rels)).
Proof.
  intros Hclock Hfuel. revert i su fa w.
  induction rels as [|rel rels IH]; intros i su fa w.
  - simpl. symmetry. apply app_nil_r.
  - change (entries folder (rel :: rels)) with ((folder ++ rel) :: entries folder rels).
    rewrite batch_loop_cons.
    pose proof (ingest_entry_uploaded env fuel s base_url kb_id (folder ++ rel)
                  (printed [entry_header i total rel] w)) as Hup.
    destruct (ingest_entry_total env fuel s base_url kb_id (folder ++ rel)
                (printed [entry_header i total rel] w) Hclock Hfuel) as (ok & w1 & Hentry).
    rewrite Hentry in Hup |- *. cbn [snd] in Hup.
    assert (Hw1 : uploaded_names (requests (trace w1))
                  = uploaded_names (requests (trace w))
                    ++ (if readable env (folder ++ rel)
                        then [PathLib.name (folder ++ rel)] else [])).
    { rewrite Hup, requests_printed. reflexivity. }
    cbn [List.filter].
    destruct ok; rewrite IH, Hw1;
      destruct (readable env (folder ++ rel)); cbn [map];
      rewrite <- app_assoc; reflexivity.
Qed.

(** ** Runs of [main] *)

(** [main] once its inputs are valid and the catalog is not empty. *)
Lemma main_unfold env fuel args w rel rels :
  is_dir env (resolve env (Ingest.arg_folder args)) = true ->
  negb (Py.truthy (api_key_of env args)) && negb (Ingest.arg_dry_run args) = false ->
  catalog env args = entries (resolve env (Ingest.arg_folder args)) (rel :: rels) ->
  Ingest.main env fuel args w
  = if Ingest.arg_dry_run args
    then (Ret tt,
          printed (found_line (length (rel :: rels)) (collection_name_of env args)
                     :: map listing_line (rel :: rels)) w)
    else
      match Ingest.get_or_create_knowledge env (session_of env args) (base_url_of args)
              (collection_name_of env args) (listed env args (rel :: rels) w) with
      | (Ret kb_id, w1) =>
          match Ingest.batch_loop env fuel (session_of env args) (base_url_of args) kb_id
                  (resolve env (Ingest.arg_folder args)) (length (rel :: rels)) 1
                  (entries (resolve env (Ingest.arg_folder args)) (rel :: rels)) 0 0 w1 with
          | (Ret counts, w2) =>
              (if (0 <? snd counts)%nat then Raise (SystemExit (ExitCode 1)) else Ret tt,
               printed (summary_lines (fst counts) (snd counts) (collection_name_of env args)
                          kb_id (base_url_of args)) w2)
          | (Raise e, w2) => (Raise e, w2)
          | (Diverge, w2) => (Diverge, w2)
          end
      | (Raise e, w1) => (Raise e, w1)
      | (Diverge, w1) => (Diverge, w1)
      end.
Proof.
  intros Hdir Hkey Hcat. unfold Ingest.main.
  fold (api_key_of env args). rewrite Hdir, Hkey. cbn [negb].
  fold (catalog env args). rewrite Hcat.
  change (entries (resolve env (Ingest.arg_folder args)) (rel :: rels))
    with ((resolve env (Ingest.arg_folder args) ++ rel)
            :: entries (resolve env (Ingest.arg_folder args)) rels) at 1.
  cbv iota.
  change ((resolve env (Ingest.arg_folder args) ++ rel)
            :: entries (resolve env (Ingest.arg_folder args)) rels)
    with (entries (resolve env (Ingest.arg_folder args)) (rel :: rels)).
  fold (collection_name_of env args).
  unfold bind at 1. cbn [print write].
  rewrite (bind_ret _ _ _ _ _ (print_listing_entries _ _ _)).
  assert (Hlen : length (entries (resolve env (Ingest.arg_folder args)) (rel :: rels))
                 = length (rel :: rels)) by (unfold entries; apply length_map).
  rewrite Hlen.
  change (printed (map listing_line (rel :: rels))
            (mkWorld (now w)
               (trace w ++ [Wrote (("Found " +:+ Py.str_nat (length (rel :: rels))
                                      +:+ " file(s) to ingest into '"
                                      +:+ collection_name_of env args +:+ "':")
                                     +:+ newline)])))
    with (printed (map listing_line (rel :: rels))
            (printed [found_line (length (rel :: rels)) (collection_name_of env args)] w)).
  rewrite <- printed_cons.
  destruct (Ingest.arg_dry_run args); [reflexivity|].
  unfold bind at 1. cbn [print write].
  change (mkWorld (now ?x) (trace ?x ++ [Wrote (EmptyString +:+ newline)]))
    with (printed [newline] x).
  change (Ingest.build_session (api_key_of env args)) with (session_of env args). fold (base_url_of args).
  fold (listed env args (rel :: rels) w).
  unfold bind at 1.
  destruct (Ingest.get_or_create_knowledge env (session_of env args) (base_url_of args)
              (collection_name_of env args) (listed env args (rel :: rels) w))
    as [[kb_id|e|] w1]; try reflexivity.
  unfold bind at 1.
  destruct (Ingest.batch_loop env fuel (session_of env args) (base_url_of args) kb_id
              (resolve env (Ingest.arg_folder args)) (length (rel :: rels)) 1
              (entries (resolve env (Ingest.arg_folder args)) (rel :: rels)) 0 0 w1)
    as [[counts|e|] w2]; try reflexivity.
  unfold summary_lines. rewrite !(printed_cons _ (_ :: _)).
  destruct (0 <? snd counts)%nat; reflexivity.
Qed.

Lemma main_rejects env fuel args w :
  is_dir env (resolve env (Ingest.arg_folder args)) = false \/
  (Py.truthy (api_key_of env args) = false /\ Ingest.arg_dry_run args = false) \/
  catalog env args = [] ->
  exists msg,
    Ingest.main env fuel args w = (Raise (SystemExit (ExitMsg msg)), w) /\
    (msg = "Not a directory: " +:+ PathLib.str_abs (resolve env (Ingest.arg_folder args)) \/
     msg = "API key required. Set OPENWEBUI_API_KEY or pass --api-key." \/
     msg = "No supported files found in "
             +:+ PathLib.str_abs (resolve env (Ingest.arg_folder args))).
Proof.
  intros H. unfold Ingest.main. fold (api_key_of env args).
  destruct (is_dir env (resolve env (Ingest.arg_folder args))) eqn:Hdir; cbn [negb].
  2:{ eexists. split; [reflexivity | left; reflexivity]. }
  destruct (negb (Py.truthy (api_key_of env args)) && negb (Ingest.arg_dry_run args))
    eqn:Hkey.
  { eexists. split; [reflexivity | right; left; reflexivity]. }
  destruct H as [H | [[H1 H2] | H]].
  - discriminate H.
  - rewrite H1, H2 in Hkey. discriminate Hkey.
  - fold (catalog env args). rewrite H.
    eexists. split; [reflexivity | right; right; reflexivity].
Qed.

(** X14: a run whose root is not a directory, or that lacks an API key
    without being a dry run, or whose catalog is empty, ends on [sys.exit]
    with a message, so with exit status 1, before anything is printed or
    sent. *)
Theorem main_validation env fuel args w :
  is_dir env (resolve env (Ingest.arg_folder args)) = false \/
  (Py.truthy (api_key_of env args) = false /\ Ingest.arg_dry_run args = false) \/
  catalog env args = [] ->
  exists msg,
    Ingest.main env fuel args w = (Raise (SystemExit (ExitMsg msg)), w) /\
    (msg = "Not a directory: " +:+ PathLib.str_abs (resolve env (Ingest.arg_folder args)) \/
     msg = "API key required. Set OPENWEBUI_API_KEY or pass --api-key." \/
     msg = "No supported files found in "
             +:+ PathLib.str_abs (resolve env (Ingest.arg_folder args))).
Proof. apply main_rejects. Qed.

Lemma iter_exception v e : Py.iter v = inl e -> is_Exception e = true.
Proof. destruct v; simpl; intros H; try discriminate; injection H as <-; reflexivity. Qed.

Lemma safe_find_knowledge name l : safe (Ingest.find_knowledge name l).
Proof.
  induction l as [|kb l IH]; cbn [Ingest.find_knowledge]; [apply safe_ret|].
  safe_steps.
Qed.

Lemma safe_get_or_create_knowledge env s base_url name :
  safe (Ingest.get_or_create_knowledge env s base_url name).
Proof.
  unfold Ingest.get_or_create_knowledge, session_get, session_post_json.
  apply safe_bind; [apply safe_send | intros r].
  apply safe_bind; [apply safe_raise_for_status | intros _].
  apply safe_bind; [apply safe_response_json | intros data].
  apply safe_bind; [apply safe_lift, iter_exception | intros kbs].
  apply safe_bind; [apply safe_find_knowledge | intros found].
  destruct found; [apply safe_ret|]. safe_steps.
Qed.

Lemma exit_status_exception {A} e :
  is_Exception e = true -> exit_status (@Raise A e) = Some 1%Z.
Proof. destruct e; simpl; [reflexivity.. | discriminate]. Qed.

(** X15: once [parse_args] has returned the arguments and the folder
    path is resolved, the rest of [main] ends while the clock advances (and
    the fuel covers the waits), and the exit status of the process is 0 or
    1. *)
Theorem main_exit_status env fuel args w :
  clock_advances env ->
  (POLL_FUEL <= fuel)%nat ->
  exit_status (fst (Ingest.main env fuel args w)) = Some 0%Z \/
  exit_status (fst (Ingest.main env fuel args w)) = Some 1%Z.
Proof.
  intros Hclock Hfuel.
  destruct (is_dir env (resolve env (Ingest.arg_folder args))) eqn:Hdir.
  2:{ destruct (main_rejects env fuel args w (or_introl Hdir)) as (msg & -> & _).
      right. reflexivity. }
  destruct (negb (Py.truthy (api_key_of env args)) && negb (Ingest.arg_dry_run args))
    eqn:Hkey.
  { apply andb_true_iff in Hkey. destruct Hkey as [H1 H2].
    apply negb_true_iff in H1, H2.
    destruct (main_rejects env fuel args w (or_intror (or_introl (conj H1 H2))))
      as (msg & -> & _).
    right. reflexivity. }
  destruct (collect_files_entries env (resolve env (Ingest.arg_folder args))
              (Ingest.effective_extensions (Ingest.arg_ext args))) as [[|rel rels] Hcat].
  { destruct (main_rejects env fuel args w (or_intror (or_intror Hcat)))
      as (msg & -> & _).
    right. reflexivity. }
  rewrite (main_unfold env fuel args w rel rels Hdir Hkey Hcat).
  destruct (Ingest.arg_dry_run args); [left; reflexivity|].
  pose proof (safe_get_or_create_knowledge env (session_of env args) (base_url_of args)
                (collection_name_of env args) (listed env args (rel :: rels) w)) as Hsafe.
  destruct (Ingest.get_or_create_knowledge env (session_of env args) (base_url_of args)
              (collection_name_of env args) (listed env args (rel :: rels) w))
    as [[kb_id|e|] w1]; cbn [fst] in Hsafe.
  - destruct (batch_loop_total env fuel (session_of env args) (base_url_of args) kb_id
                (resolve env (Ingest.arg_folder args)) (length (rel :: rels))
                (rel :: rels) 1%nat 0%nat 0%nat w1 Hclock Hfuel)
      as (su & fa & w2 & Hrun & _).
    rewrite Hrun. cbn [fst snd].
    destruct (0 <? fa)%nat; [right | left]; reflexivity.
  - right. cbn [fst]. apply exit_status_exception, Hsafe.
  - contradiction.
Qed.

Lemma bind_ret_inv {A B} (c : M A) (k : A -> M B) w b w' :
  bind c k w = (Ret b, w') -> exists a w1, c w = (Ret a, w1) /\ k a w1 = (Ret b, w').
Proof.
  unfold bind. destruct (c w) as [[a|e|] w1]; try discriminate.
  intros H. exists a, w1. split; [reflexivity | exact H].
Qed.

(** An entry is counted in [succeeded] only after its attach call. *)
Lemma ingest_entry_true env fuel s base_url kb_id p w w' :
  Ingest.ingest_entry env fuel s base_url kb_id p w = (Ret true, w') ->
  exists file_id,
    attached (requests (trace w'))
    = attached (requests (trace w)) ++ [(Ingest.add_url base_url kb_id, file_id)].
Proof.
  unfold Ingest.ingest_entry, try_except.
  match goal with |- context [match ?body w with _ => _ end] =>
    destruct (body w) as [[ok|e|] w1] eqn:Hbody
  end.
  - intros H. injection H as -> ->.
    apply bind_ret_inv in Hbody. destruct Hbody as (file_id & wa & Hup & Hbody).
    apply bind_ret_inv in Hbody. destruct Hbody as ([] & wb & Hp1 & Hbody).
    injection Hp1 as <-.
    apply bind_ret_inv in Hbody. destruct Hbody as ([] & wc & Hp2 & Hbody).
    injection Hp2 as <-.
    apply bind_ret_inv in Hbody. destruct Hbody as (ok & wd & Hwait & Hbody).
    apply bind_ret_inv in Hbody. destruct Hbody as ([] & we & Hp3 & Hbody).
    injection Hp3 as <-.
    apply bind_ret_inv in Hbody. destruct Hbody as ([] & wf & Hadd & Hbody).
    apply bind_ret_inv in Hbody. destruct Hbody as ([] & wg & Hp4 & Hbody).
    injection Hp4 as <-. injection Hbody as <-.
    exists file_id.
    exact (ingest_entry_attaches env fuel s base_url kb_id p w file_id wa ok wd wf
             Hup Hwait Hadd).
  - destruct (is_Exception e); [|discriminate].
    destruct e; discriminate.
  - discriminate.
Qed.

Lemma batch_loop_failed_grows env fuel s base_url kb_id folder total rels i su fa w su' fa' w' :
  Ingest.batch_loop env fuel s base_url kb_id folder total i (entries folder rels) su fa w
  = (Ret (su', fa'), w') ->
  (fa <= fa')%nat.
Proof.
  revert i su fa w. induction rels as [|rel rels IH]; intros i su fa w H.
  - injection H as _ <- _. lia.
  - change (entries folder (rel :: rels)) with ((folder ++ rel) :: entries folder rels) in H.
    rewrite batch_loop_cons in H.
    destruct (Ingest.ingest_entry env fuel s base_url kb_id (folder ++ rel)
                (printed [entry_header i total rel] w)) as [[[|]|e|] w1];
      try discriminate H.
    + exact (IH _ _ _ _ H).
    + pose proof (IH _ _ _ _ H). lia.
Qed.

(** A batch that counts no failure has attached every entry. *)
Lemma batch_loop_no_failure env fuel s base_url kb_id folder total rels i su fa w su' w' :
  Ingest.batch_loop env fuel s base_url kb_id folder total i (entries folder rels) su fa w
  = (Ret (su', fa), w') ->
  exists file_ids,
    length file_ids = length rels /\
    attached (requests (trace w'))
    = attached (requests (trace w))
      ++ map (fun f => (Ingest.add_url base_url kb_id, f)) file_ids.
Proof.
  revert i su w. induction rels as [|rel rels IH]; intros i su w H.
  - injection H as _ <-. exists []. split; [reflexivity | symmetry; apply app_nil_r].
  - change (entries folder (rel :: rels)) with ((folder ++ rel) :: entries folder rels) in H.
    rewrite batch_loop_cons in H.
    destruct (Ingest.ingest_entry env fuel s base_url kb_id (folder ++ rel)
                (printed [entry_header i total rel] w)) as [[[|]|e|] w1] eqn:Hentry;
      try discriminate H.
    + destruct (ingest_entry_true _ _ _ _ _ _ _ _ Hentry) as (file_id & Hone).
      destruct (IH _ _ _ H) as (file_ids & Hlen & Hrest).
      exists (file_id :: file_ids). split; [simpl; lia|].
      rewrite Hrest, Hone, attached_printed. cbn [map]. rewrite <- app_assoc. reflexivity.
    + apply batch_loop_failed_grows in H. lia.
Qed.

Lemma find_knowledge_requests name l w :
  requests (trace (snd (Ingest.find_knowledge name l w))) = requests (trace w).
Proof.
  revert w. induction l as [|kb l IH]; intros w; [reflexivity|].
  cbn [Ingest.find_knowledge]. unfold bind at 1.
  destruct (Py.get kb "name" JNull) as [e|n]; [reflexivity|]. cbn [lift ret].
  destruct (Py.eq_str n name); [|apply IH].
  unfold bind at 1. destruct (Py.getitem kb "id") as [e|id]; [reflexivity|].
  cbn [lift ret]. unfold bind. cbn [print write ret snd trace].
  rewrite requests_app. apply app_nil_r.
Qed.

Lemma requests_outputs t : Forall is_output t -> requests t = [].
Proof.
  induction 1 as [|ev t Hev _ IH]; [reflexivity|].
  destruct ev; simpl in *; [contradiction | exact IH | exact IH].
Qed.

Lemma only_outputs_requests {A} (c : M A) w :
  only_emits is_output c -> requests (trace (snd (c w))) = requests (trace w).
Proof.
  intros Hc. destruct (Hc w) as (t & Ht & Hout).
  rewrite Ht, requests_app, (requests_outputs _ Hout). apply app_nil_r.
Qed.

(** The requests of [get_or_create_knowledge]: the listing, then at most
    the creation. *)
Lemma get_or_create_knowledge_sequence env s base_url name w :
  exists more,
    requests (trace (snd (Ingest.get_or_create_knowledge env s base_url name w)))
    = requests (trace w) ++ list_request s base_url :: more /\
    (more = [] \/ more = [create_request s base_url name]).
Proof.
  unfold Ingest.get_or_create_knowledge, session_get, session_post_json.
  fold (list_request s base_url). fold (create_request s base_url name).
  unfold bind at 1, send at 1.
  set (w1 := mkWorld _ (trace w ++ [Sent (list_request s base_url)])).
  assert (Hw1 : requests (trace w1) = requests (trace w) ++ [list_request s base_url]).
  { unfold w1. cbn [trace]. rewrite requests_app. reflexivity. }
  assert (Hone : forall w2,
             requests (trace w2) = requests (trace w1) ->
             exists more,
               requests (trace w2) = requests (trace w) ++ list_request s base_url :: more /\
               (more = [] \/ more = [create_request s base_url name])).
  { intros w2 Hw2. exists []. split; [rewrite Hw2; exact Hw1 | left; reflexivity]. }
  destruct (answer _) as [r|]; [|apply Hone; reflexivity].
  unfold bind at 1, raise_for_status.
  destruct (is_error (status_code r)); [apply Hone; reflexivity|]. cbn [ret].
  unfold bind at 1, response_json.
  destruct (json_body r) as [data|]; [|apply Hone; reflexivity]. cbn [ret].
  unfold bind at 1.
  destruct (Py.iter data) as [e|kbs]; [apply Hone; reflexivity|]. cbn [lift ret].
  unfold bind at 1.
  pose proof (find_knowledge_requests name kbs w1) as Hfind.
  destruct (Ingest.find_knowledge name kbs w1) as [[[id|]|e|] w2]; cbn [snd] in Hfind;
    try (apply Hone; exact Hfind).
  unfold bind at 1, send at 1.
  set (w3 := mkWorld _ (trace w2 ++ [Sent (create_request s base_url name)])).
  assert (Hw3 : requests (trace w3)
                = requests (trace w) ++ [list_request s base_url;
                                         create_request s base_url name]).
  { unfold w3. cbn [trace]. rewrite requests_app, Hfind, Hw1, <- app_assoc. reflexivity. }
  exists [create_request s base_url name]. split; [|right; reflexivity].
  destruct (answer _) as [r'|]; [|exact Hw3].
  rewrite only_outputs_requests; [exact Hw3|].
  apply only_emits_bind; [apply only_emits_raise_for_status | intros _].
  apply only_emits_bind; [apply only_emits_response_json | intros data'].
  apply only_emits_bind; [apply only_emits_lift | intros kb_id].
  apply only_emits_bind; [apply only_emits_print; exact I | intros _].
  apply only_emits_ret.
Qed.

Lemma attached_get_or_create_knowledge env s base_url name w :
  attached (requests (trace (snd (Ingest.get_or_create_knowledge env s base_url name w))))
  = attached (requests (trace w)).
Proof.
  destruct (get_or_create_knowledge_sequence env s base_url name w)
    as (more & H & [-> | ->]);
    rewrite H, attached_app; simpl; apply app_nil_r.
Qed.

Lemma exceptions_only_safe {A} (c : M A) : safe c -> exceptions_only c.
Proof. intros H w e w' Hc. specialize (H w). rewrite Hc in H. exact H. Qed.

Lemma exceptions_only_bind {A B} (c : M A) (k : A -> M B) :
  exceptions_only c -> (forall a, exceptions_only (k a)) -> exceptions_only (bind c k).
Proof.
  intros Hc Hk w e w'. unfold bind.
  destruct (c w) as [[a|e1|] w1] eqn:E; try discriminate.
  - apply Hk.
  - intros H. injection H as <- <-. eapply Hc, E.
Qed.

(** The [try] block lets no exception through. *)
Lemma ingest_entry_no_raise env fuel s base_url kb_id p w e w' :
  Ingest.ingest_entry env fuel s base_url kb_id p w <> (Raise e, w').
Proof.
  unfold Ingest.ingest_entry, try_except.
  match goal with |- context [match ?body w with _ => _ end] =>
    assert (Hbody : exceptions_only body)
  end.
  { apply exceptions_only_bind; [apply exceptions_only_safe, safe_upload_file | intros ?].
    apply exceptions_only_bind; [apply exceptions_only_safe, safe_print | intros _].
    apply exceptions_only_bind; [apply exceptions_only_safe, safe_write | intros _].
    apply exceptions_only_bind;
      [intros w0 e0 w0'; apply wait_for_processing_exceptions | intros ok].
    apply exceptions_only_bind; [apply exceptions_only_safe, safe_print | intros _].
    apply exceptions_only_bind;
      [apply exceptions_only_safe, safe_add_to_knowledge | intros _].
    apply exceptions_only_bind; [apply exceptions_only_safe, safe_print | intros _].
    apply exceptions_only_safe, safe_ret. }
  specialize (Hbody w).
  match goal with |- context [match ?body w with _ => _ end] =>
    destruct (body w) as [[ok|e1|] w1]
  end; try discriminate.
  rewrite (Hbody e1 w1 eq_refl). destruct e1; discriminate.
Qed.

Lemma batch_loop_no_raise env fuel s base_url kb_id folder total rels i su fa w e w' :
  Ingest.batch_loop env fuel s base_url kb_id folder total i (entries folder rels) su fa w
  <> (Raise e, w').
Proof.
  revert i su fa w. induction rels as [|rel rels IH]; intros i su fa w; [discriminate|].
  change (entries folder (rel :: rels)) with ((folder ++ rel) :: entries folder rels).
  rewrite batch_loop_cons.
  pose proof (ingest_entry_no_raise env fuel s base_url kb_id (folder ++ rel)
                (printed [entry_header i total rel] w)) as Hentry.
  destruct (Ingest.ingest_entry env fuel s base_url kb_id (folder ++ rel)
              (printed [entry_header i total rel] w)) as [[[|]|e1|] w1].
  - apply IH.
  - apply IH.
  - exfalso. exact (Hentry e1 w1 eq_refl).
  - discriminate.
Qed.

(** X16: a run that is not a dry run and exits with status 0 has sent one
    attach call for every catalog entry, all to the same collection. *)
Theorem main_exit_0_attached_all env fuel args w :
  Ingest.arg_dry_run args = false ->
  exit_status (fst (Ingest.main env fuel args w)) = Some 0%Z ->
  exists kb_id file_ids,
    length file_ids = length (catalog env args) /\
    attached (requests (trace (snd (Ingest.main env fuel args w))))
    = attached (requests (trace w))
      ++ map (fun f => (Ingest.add_url (base_url_of args) kb_id, f)) file_ids.
Proof.
  intros Hdry Hexit.
  destruct (is_dir env (resolve env (Ingest.arg_folder args))) eqn:Hdir.
  2:{ destruct (main_rejects env fuel args w (or_introl Hdir)) as (msg & Hrun & _).
      rewrite Hrun in Hexit. discriminate Hexit. }
  destruct (negb (Py.truthy (api_key_of env args)) && negb (Ingest.arg_dry_run args))
    eqn:Hkey.
  { apply andb_true_iff in Hkey. destruct Hkey as [H1 H2].
    apply negb_true_iff in H1, H2.
    destruct (main_rejects env fuel args w (or_intror (or_introl (conj H1 H2))))
      as (msg & Hrun & _).
    rewrite Hrun in Hexit. discriminate Hexit. }
  destruct (collect_files_entries env (resolve env (Ingest.arg_folder args))
              (Ingest.effective_extensions (Ingest.arg_ext args))) as [[|rel rels] Hcat].
  { destruct (main_rejects env fuel args w (or_intror (or_intror Hcat)))
      as (msg & Hrun & _).
    rewrite Hrun in Hexit. discriminate Hexit. }
  fold (catalog env args) in Hcat.
  rewrite (main_unfold env fuel args w rel rels Hdir Hkey Hcat) in Hexit |- *.
  rewrite Hdry in Hexit |- *.
  pose proof (attached_get_or_create_knowledge env (session_of env args) (base_url_of args)
                (collection_name_of env args) (listed env args (rel :: rels) w)) as Hsetup.
  pose proof (safe_get_or_create_knowledge env (session_of env args) (base_url_of args)
                (collection_name_of env args) (listed env args (rel :: rels) w)) as Hsafe.
  destruct (Ingest.get_or_create_knowledge env (session_of env args) (base_url_of args)
              (collection_name_of env args) (listed env args (rel :: rels) w))
    as [[kb_id|e|] w1]; cbn [fst snd] in Hsetup, Hsafe.
  2:{ cbn [fst] in Hexit. rewrite (exit_status_exception _ Hsafe) in Hexit.
      discriminate Hexit. }
  2:{ contradiction. }
  destruct (Ingest.batch_loop env fuel (session_of env args) (base_url_of args) kb_id
              (resolve env (Ingest.arg_folder args)) (length (rel :: rels)) 1
              (entries (resolve env (Ingest.arg_folder args)) (rel :: rels)) 0 0 w1)
    as [[[su fa]|e|] w2] eqn:Hbatch.
  - cbn [fst snd] in Hexit |- *.
    destruct fa as [|fa]; [|discriminate Hexit].
    destruct (batch_loop_no_failure _ _ _ _ _ _ _ _ _ _ _ _ _ _ Hbatch)
      as (file_ids & Hlen & Hatt).
    exists kb_id, file_ids. split.
    + rewrite Hlen, Hcat. unfold entries. rewrite length_map. reflexivity.
    + rewrite attached_printed, Hatt, Hsetup. unfold listed.
      rewrite !attached_printed. reflexivity.
  - exfalso. exact (batch_loop_no_raise _ _ _ _ _ _ _ _ _ _ _ _ _ _ Hbatch).
  - discriminate Hexit.
Qed.

(** ** The requests of a run *)

Section Emits.

Variable P : event -> Prop.
Hypothesis P_wrote : forall s, P (Wrote s).

Lemma only_emits_find_knowledge name l : only_emits P (Ingest.find_knowledge name l).
Proof.
induction l as [|kb l IH]; cbn [Ingest.find_knowledge]; [apply only_emits_ret|].
apply only_emits_bind; [apply only_emits_lift | intros n].
destruct (Py.eq_str n name); [|exact IH].
apply only_emits_bind; [apply only_emits_lift | intros id].
apply only_emits_bind; [apply only_emits_print, P_wrote | intros _].
apply only_emits_ret.
Qed.

Lemma only_emits_get_or_create_knowledge env s base_url name :
P (Sent (list_request s base_url)) ->
P (Sent (create_request s base_url name)) ->
only_emits P (Ingest.get_or_create_knowledge env s base_url name).
Proof.
intros Hlist Hcreate.
unfold Ingest.get_or_create_knowledge, session_get, session_post_json.
apply only_emits_bind; [apply only_emits_send, Hlist | intros r].
apply only_emits_bind; [apply only_emits_raise_for_status | intros _].
apply only_emits_bind; [apply only_emits_response_json | intros data].
apply only_emits_bind; [apply only_emits_lift | intros kbs].
apply only_emits_bind; [apply only_emits_find_knowledge | intros found].
destruct found; [apply only_emits_ret|].
apply only_emits_bind; [apply only_emits_send, Hcreate | intros r'].
apply only_emits_bind; [apply only_emits_raise_for_status | intros _].
apply only_emits_bind; [apply only_emits_response_json | intros data'].
apply only_emits_bind; [apply only_emits_lift | intros kb_id].
apply only_emits_bind; [apply only_emits_print, P_wrote | intros _].
apply only_emits_ret.
Qed.

Lemma only_emits_ingest_entry env fuel s base_url kb_id p :
P (Slept Ingest.POLL_INTERVAL) ->
(forall content, P (Sent (upload_request env s base_url p content))) ->
(forall file_id, P (Sent (status_request s base_url file_id))) ->
(forall file_id, P (Sent (add_request s base_url kb_id file_id))) ->
only_emits P (Ingest.ingest_entry env fuel s base_url kb_id p).
Proof.
intros Hsleep Hup Hpoll Hadd. unfold Ingest.ingest_entry.
apply only_emits_try_except.
- apply only_emits_bind; [apply only_emits_upload_file, Hup | intros file_id].
  apply only_emits_bind; [apply only_emits_print, P_wrote | intros _].
  apply only_emits_bind; [apply only_emits_write, P_wrote | intros _].
  apply only_emits_bind;
    [apply only_emits_wait_for_processing; [apply Hpoll | exact Hsleep] | intros ok].
  apply only_emits_bind; [apply only_emits_print, P_wrote | intros _].
  apply only_emits_bind; [apply only_emits_add_to_knowledge, Hadd | intros _].
  apply only_emits_bind; [apply only_emits_print, P_wrote | intros _].
  apply only_emits_ret.
- intros e. apply handler_only_prints, P_wrote.
Qed.

Lemma only_emits_batch_loop env fuel s base_url kb_id folder total files :
P (Slept Ingest.POLL_INTERVAL) ->
(forall p content, P (Sent (upload_request env s base_url p content))) ->
(forall file_id, P (Sent (status_request s base_url file_id))) ->
(forall file_id, P (Sent (add_request s base_url kb_id file_id))) ->
forall i su fa,
  only_emits P (Ingest.batch_loop env fuel s base_url kb_id folder total i files su fa).
Proof.
intros Hsleep Hup Hpoll Hadd.
induction files as [|p files IH]; intros i su fa; cbn [Ingest.batch_loop];
  [apply only_emits_ret|].
apply only_emits_bind.
{ destruct (PathLib.relative_to p folder); [apply only_emits_ret | apply only_emits_raise]. }
intros label.
apply only_emits_bind; [apply only_emits_print, P_wrote | intros _].
apply only_emits_bind.
{ apply only_emits_ingest_entry; [exact Hsleep | apply Hup | exact Hpoll | exact Hadd]. }
intros ok. destruct ok; apply IH.
Qed.

Lemma only_emits_print_listing folder files :
only_emits P (Ingest.print_listing folder files).
Proof.
induction files as [|f files IH]; cbn [Ingest.print_listing]; [apply only_emits_ret|].
apply only_emits_bind.
{ destruct (PathLib.relative_to f folder); [apply only_emits_ret | apply only_emits_raise]. }
intros label.
apply only_emits_bind; [apply only_emits_print, P_wrote | intros _]. exact IH.
Qed.

End Emits.

(** X17: whatever the arguments and the backend, a run of [main] only
    adds to the trace; every request it sends is the listing or the creation
    of its collection, an upload, a status poll or an attach call, sent with
    the bearer header of its API key to a URL below its base URL, and every
    sleep lasts [POLL_INTERVAL]. *)
Theorem main_requests env fuel args :
  only_emits (ingest_event env (session_of env args) (base_url_of args)
                (collection_name_of env args))
             (Ingest.main env fuel args).
Proof.
  set (P := ingest_event env (session_of env args) (base_url_of args)
              (collection_name_of env args)).
  assert (Hw : forall s, P (Wrote s)) by (intros s; exact I).
  unfold Ingest.main, Ingest.sys_exit.
  fold (api_key_of env args). change (Ingest.build_session (api_key_of env args)) with (session_of env args). fold (base_url_of args).
  fold (collection_name_of env args).
  destruct (negb (is_dir env (resolve env (Ingest.arg_folder args))));
    [apply only_emits_raise|].
  destruct (negb (Py.truthy (api_key_of env args)) && negb (Ingest.arg_dry_run args));
    [apply only_emits_raise|].
  destruct (Ingest.collect_files env (resolve env (Ingest.arg_folder args))
              (Ingest.effective_extensions (Ingest.arg_ext args))) as [|f files] eqn:Hfiles;
    [apply only_emits_raise|].
  apply only_emits_bind; [apply only_emits_print, Hw | intros _].
  apply only_emits_bind; [apply only_emits_print_listing, Hw | intros _].
  destruct (Ingest.arg_dry_run args); [apply only_emits_ret|].
  apply only_emits_bind; [apply only_emits_print, Hw | intros _].
  apply only_emits_bind.
  { apply only_emits_get_or_create_knowledge; [exact Hw | |].
    - left. reflexivity.
    - right. left. reflexivity. }
  intros kb_id.
  apply only_emits_bind.
  { apply only_emits_batch_loop; [exact Hw | reflexivity | | |].
    - intros p content. right. right. left. exists p, content. reflexivity.
    - intros file_id. right. right. right. left. exists file_id. reflexivity.
    - intros file_id. right. right. right. right. exists kb_id, file_id. reflexivity. }
  intros counts.
  repeat (apply only_emits_bind; [apply only_emits_print, Hw | intros _]).
  destruct (0 <? snd counts)%nat; [apply only_emits_raise | apply only_emits_ret].
Qed.

(** X18: [get_or_create_knowledge] sends the listing request first and
    then at most one request, the creation of the collection; it never
    creates before it has listed. *)
Theorem get_or_create_knowledge_requests env s base_url name w :
  exists more,
    requests (trace (snd (Ingest.get_or_create_knowledge env s base_url name w)))
    = requests (trace w) ++ list_request s base_url :: more /\
    (more = [] \/ more = [create_request s base_url name]).
Proof. apply get_or_create_knowledge_sequence. Qed.

Lemma requests_listed env args rels w :
  requests (trace (listed env args rels w)) = requests (trace w).
Proof. unfold listed. rewrite !requests_printed. reflexivity. Qed.

(** X19: in a run that is not a dry run, an error status of the listing
    call is fatal: [main] ends with the [HTTPError] of that response, so with
    exit status 1, and the listing request is the only request of the run:
    nothing is created, uploaded or attached. *)
Theorem main_listing_error_is_fatal env fuel args w dt r :
  is_dir env (resolve env (Ingest.arg_folder args)) = true ->
  Py.truthy (api_key_of env args) = true ->
  Ingest.arg_dry_run args = false ->
  catalog env args <> [] ->
  serve env (requests (trace w)) (list_request (session_of env args) (base_url_of args))
  = mkReply dt (Some r) ->
  is_error (status_code r) = true ->
  fst (Ingest.main env fuel args w) = Raise (HTTPError (status_code r) (text r)) /\
  requests (trace (snd (Ingest.main env fuel args w)))
  = requests (trace w) ++ [list_request (session_of env args) (base_url_of args)] /\
  exit_status (fst (Ingest.main env fuel args w)) = Some 1%Z.
Proof.
  intros Hdir Hkey Hdry Hcat Hserve Herr.
  destruct (collect_files_entries env (resolve env (Ingest.arg_folder args))
              (Ingest.effective_extensions (Ingest.arg_ext args))) as [[|rel rels] Hrels].
  { contradiction. }
  fold (catalog env args) in Hrels.
  assert (Hk : negb (Py.truthy (api_key_of env args)) && negb (Ingest.arg_dry_run args)
               = false) by (rewrite Hkey; reflexivity).
  rewrite (main_unfold env fuel args w rel rels Hdir Hk Hrels), Hdry.
  assert (Hrun : Ingest.get_or_create_knowledge env (session_of env args) (base_url_of args)
                   (collection_name_of env args) (listed env args (rel :: rels) w)
                 = (Raise (HTTPError (status_code r) (text r)),
                    mkWorld (now (listed env args (rel :: rels) w) + dt)
                      (trace (listed env args (rel :: rels) w)
                       ++ [Sent (list_request (session_of env args) (base_url_of args))]))).
  { unfold Ingest.get_or_create_knowledge, session_get.
    fold (list_request (session_of env args) (base_url_of args)).
    rewrite <- (requests_listed env args (rel :: rels) w) in Hserve.
    rewrite (bind_ret _ _ _ _ _ (send_answered _ _ _ _ _ Hserve)).
    unfold bind, raise_for_status. rewrite Herr. reflexivity. }
  rewrite Hrun. cbn [fst snd trace]. split; [reflexivity|]. split; [|reflexivity].
  rewrite requests_app, requests_listed. reflexivity.
Qed.

(** ** The query tools *)

Lemma id_name_pairs_projects l (pairs : list (json * json)) :
  Forall2 (fun kb ip => has_field "id" (fst ip) kb /\ has_field "name" (snd ip) kb) l pairs ->
  Mcp.id_name_pairs l
  = inr (map (fun ip => JObj [("id", fst ip); ("name", snd ip)]) pairs).
Proof.
  induction 1 as [|kb ip l pairs [Hid Hname] _ IH]; [reflexivity|].
  simpl. rewrite (has_field_getitem _ _ _ Hid), (has_field_getitem _ _ _ Hname), IH.
  reflexivity.
Qed.

(** X20: on either form of a successful listing whose elements hold an
    [id] and a [name], [list_collections] returns one object per element, in
    listing order, that holds these two fields and nothing else; the listing
    request is the one request it sends. *)
Theorem list_collections_projects env w dt r data l (pairs : list (json * json)) :
  serve env (requests (trace w)) (mcp_list_request env) = mkReply dt (Some r) ->
  is_error (status_code r) = false ->
  json_body r = Some data ->
  listing_of data l ->
  Forall2 (fun kb ip => has_field "id" (fst ip) kb /\ has_field "name" (snd ip) kb) l pairs ->
  Mcp.list_collections env w
  = (Ret (map (fun ip => JObj [("id", fst ip); ("name", snd ip)]) pairs),
     mkWorld (now w + dt) (trace w ++ [Sent (mcp_list_request env)])).
Proof.
  intros Hserve Hok Hbody Hl Hpairs.
  unfold Mcp.list_collections, session_get. fold (mcp_list_request env).
  rewrite (bind_ret _ _ _ _ _ (send_answered _ _ _ _ _ Hserve)).
  rewrite (bind_ret _ _ _ _ _ (raise_for_status_ok _ _ Hok)).
  rewrite (bind_ret _ _ _ _ _ (response_json_ok _ _ _ Hbody)).
  rewrite (items_of_listing _ _ Hl), bind_lift_inr.
  cbn [Py.iter]. rewrite bind_lift_inr, (id_name_pairs_projects _ _ Hpairs). reflexivity.
Qed.

(** X21: the query tools only read and ask: [list_collections] adds the
    listing request to the trace and nothing else; [rag_query] adds the
    listing request and then at most the completion request, for an id that
    is not null.  Neither prints, sleeps or sends any other request. *)
Theorem query_tools_requests env question collection_name model w :
  trace (snd (Mcp.list_collections env w)) = trace w ++ [Sent (mcp_list_request env)] /\
  exists more,
    trace (snd (Mcp.rag_query env question collection_name model w))
    = trace w ++ Sent (mcp_list_request env) :: more /\
    (more = [] \/
     exists id, id <> JNull /\ more = [Sent (chat_request env model question id)]).
Proof.
  split.
  - unfold Mcp.list_collections, session_get. fold (mcp_list_request env).
    match goal with |- context [bind (send env ?rq) ?k w] =>
      destruct (send_then_pure env rq k w) as (res & w' & Hrun & Htrace)
    end.
    { intros r0. repeat (apply pure_bind; [auto with pure | intros ?]). auto with pure. }
    rewrite Hrun. exact Htrace.
  - unfold Mcp.rag_query, session_get, session_post_json.
    fold (mcp_list_request env).
    unfold bind at 1, send at 1.
    set (w1 := mkWorld _ (trace w ++ [Sent (mcp_list_request env)])).
    assert (Hw1 : exists more,
               trace w1 = trace w ++ Sent (mcp_list_request env) :: more /\
               (more = [] \/
                exists id, id <> JNull /\
                           more = [Sent (chat_request env model question id)])).
    { exists []. split; [reflexivity | left; reflexivity]. }
    destruct (answer _) as [r|]; [|exact Hw1].
    unfold bind at 1, raise_for_status.
    destruct (is_error (status_code r)); [exact Hw1|]. cbn [ret].
    unfold bind at 1, response_json.
    destruct (json_body r) as [data|]; [|exact Hw1]. cbn [ret].
    unfold bind at 1. destruct (Mcp.items_of data) as [e|items]; [exact Hw1|].
    cbn [lift ret].
    unfold bind at 1. destruct (Py.iter items) as [e|kbs]; [exact Hw1|]. cbn [lift ret].
    unfold bind at 1.
    destruct (Mcp.first_id collection_name kbs) as [e|id]; [exact Hw1|]. cbn [lift ret].
    destruct (Py.is_None id) eqn:Hnone.
    { unfold bind. destruct (Mcp.names_of kbs); exact Hw1. }
    change (mkRequest POST (Mcp.OPENWEBUI_URL env +:+ "/api/chat/completions")
              (session_headers (Mcp._session env))
              (JsonBody (Mcp.chat_payload model question id)) 120)
      with (chat_request env model question id).
    match goal with |- context [bind (send env ?rq) ?k w1] =>
      destruct (send_then_pure env rq k w1) as (res & w2 & Hrun & Htrace)
    end.
    { intros r0. repeat (apply pure_bind; [|intros ?]); try solve [auto with pure].
      - exact (pure_raise_for_status r0).
      - exact (pure_response_json r0). }
    rewrite Hrun. cbn [snd].
    exists [Sent (chat_request env model question id)]. split.
    + rewrite Htrace. unfold w1. cbn [trace]. rewrite <- app_assoc. reflexivity.
    + right. exists id. split; [|reflexivity].
      intros ->. discriminate Hnone.
Qed.

(** X22: a collection whose id is null cannot be queried: when the first
    collection named [collection_name] has a null id, [rag_query] answers that
    the collection was not found, in a message that lists that very name among
    the available ones, and sends no completion request. *)
Theorem rag_query_null_id env question collection_name model w dt r data pre kb post names :
  serve env (requests (trace w)) (mcp_list_request env) = mkReply dt (Some r) ->
  is_error (status_code r) = false ->
  json_body r = Some data ->
  listing_of data (pre ++ kb :: post) ->
  Forall (named_otherwise collection_name) pre ->
  has_field "name" (JStr collection_name) kb ->
  has_field "id" JNull kb ->
  names_are (pre ++ kb :: post) names ->
  In collection_name names /\
  Mcp.rag_query env question collection_name model w
  = (Ret (JStr (not_found_text collection_name names)),
     mkWorld (now w + dt) (trace w ++ [Sent (mcp_list_request env)])).
Proof.
  intros Hserve Hok Hbody Hl Hpre Hname Hid Hnames. split.
  - apply Forall2_app_inv_l in Hnames.
    destruct Hnames as (n1 & n2 & _ & Hrest & ->).
    inversion Hrest as [|? n ? ns Hn _]; subst.
    destruct Hname as (m & -> & Hm). destruct Hn as (m' & Heq & Hm').
    injection Heq as <-. rewrite Hm in Hm'. injection Hm' as <-.
    apply in_or_app. right. left. reflexivity.
  - rewrite (rag_query_resolution _ _ _ _ _ _ _ _ _ Hserve Hok Hbody Hl).
    rewrite (first_id_first _ _ _ _ _ Hpre Hname Hid), bind_lift_inr.
    cbn [Py.is_None].
    rewrite (names_of_names _ _ Hnames), bind_lift_inr.
    unfold Mcp.not_found_message. rewrite repr_names. reflexivity.
Qed.

(** X23: an error status of the completion call is not turned into a
    message: when the collection is found and the backend answers the
    completion request with an error status, [rag_query] raises the
    [HTTPError] of that response. *)
Theorem rag_query_completion_error env question collection_name model w
    dt r data pre kb post id dt' r' :
  serve env (requests (trace w)) (mcp_list_request env) = mkReply dt (Some r) ->
  is_error (status_code r) = false ->
  json_body r = Some data ->
  listing_of data (pre ++ kb :: post) ->
  Forall (named_otherwise collection_name) pre ->
  has_field "name" (JStr collection_name) kb ->
  has_field "id" id kb ->
  id <> JNull ->
  serve env (requests (trace w) ++ [mcp_list_request env])
        (chat_request env model question id) = mkReply dt' (Some r') ->
  is_error (status_code r') = true ->
  fst (Mcp.rag_query env question collection_name model w)
  = Raise (HTTPError (status_code r') (text r')).
Proof.
  intros Hserve Hok Hbody Hl Hpre Hname Hid Hnn Hchat Herr.
  rewrite (rag_query_resolution _ _ _ _ _ _ _ _ _ Hserve Hok Hbody Hl).
  rewrite (first_id_first _ _ _ _ _ Hpre Hname Hid), bind_lift_inr.
  replace (Py.is_None id) with false by (destruct id; simpl; congruence).
  set (w1 := mkWorld (now w + dt) (trace w ++ [Sent (mcp_list_request env)])).
  assert (Hchat' : serve env (requests (trace w1)) (chat_request env model question id)
                   = mkReply dt' (Some r')).
  { unfold w1. cbn [trace]. rewrite requests_app. exact Hchat. }
  rewrite (bind_ret _ _ _ _ _ (send_answered _ _ _ _ _ Hchat')).
  unfold bind, raise_for_status. rewrite Herr. reflexivity.
Qed.

(** ** The further properties on the scenarios *)

Lemma collect_files_walk_order_witness :
  Permutation (rglob (scenario library_backend small_tree) ["data"])
              (rglob (scenario library_backend sorted_tree) ["data"]) /\
  (forall p, is_file (scenario library_backend small_tree) p
             = is_file (scenario library_backend sorted_tree) p) /\
  Ingest.collect_files (scenario library_backend small_tree) ["data"]
    Ingest.DEFAULT_EXTENSIONS
  = Ingest.collect_files (scenario library_backend sorted_tree) ["data"]
      Ingest.DEFAULT_EXTENSIONS.
Proof.
  assert (H1 : Permutation (rglob (scenario library_backend small_tree) ["data"])
                           (rglob (scenario library_backend sorted_tree) ["data"])).
  { apply Permutation_sym.
    exact (Permutation_cons_append [["b.pdf"]; ["skip.exe"]] ["a.txt"]). }
  assert (H2 : forall p, is_file (scenario library_backend small_tree) p
                         = is_file (scenario library_backend sorted_tree) p)
    by (intros p; reflexivity).
  split; [exact H1|]. split; [exact H2|].
  exact (collect_files_walk_order _ _ ["data"] Ingest.DEFAULT_EXTENSIONS H1 H2).
Defined.

Lemma small_tree_NoDup : NoDup (rglob (scenario library_backend small_tree) ["data"]).
Proof. refine (bool_decide_eq_true_1 _ _). vm_compute. reflexivity. Qed.

Lemma collect_files_no_duplicates_witness :
  NoDup (rglob (scenario library_backend small_tree) ["data"]) /\
  NoDup (Ingest.collect_files (scenario library_backend small_tree) ["data"]
           Ingest.DEFAULT_EXTENSIONS).
Proof.
  split; [exact small_tree_NoDup|].
  exact (collect_files_no_duplicates _ ["data"] Ingest.DEFAULT_EXTENSIONS small_tree_NoDup).
Defined.

Lemma small_tree_a_txt :
  In ["data"; "a.txt"]
     (catalog (scenario library_backend small_tree) (dry_run_of "data" None)).
Proof. rewrite catalog_of_small_tree. left. reflexivity. Qed.

Lemma catalog_entries_have_suffix_witness :
  In ["data"; "a.txt"]
     (catalog (scenario library_backend small_tree) (dry_run_of "data" None)) /\
  PathLib.suffix ["data"; "a.txt"] <> EmptyString.
Proof.
  split; [exact small_tree_a_txt|].
  exact (catalog_entries_have_suffix _ _ _ small_tree_a_txt).
Defined.

Lemma log_not_default : "log" ∉ Ingest.DEFAULT_EXTENSIONS.
Proof. refine (bool_decide_eq_false_1 _ _). vm_compute. reflexivity. Qed.

Lemma effective_extensions_of_pieces_witness :
  ["log"; ".yaml"; EmptyString] <> [] /\
  Forall (fun piece => comma_free piece = true) ["log"; ".yaml"; EmptyString] /\
  Py.join "," ["log"; ".yaml"; EmptyString] = "log,.yaml," /\
  ".log" ∈ Ingest.effective_extensions (Some "log,.yaml,") /\
  ".yaml" ∈ Ingest.effective_extensions (Some "log,.yaml,") /\
  "." ∈ Ingest.effective_extensions (Some "log,.yaml,") /\
  "log" ∉ Ingest.effective_extensions (Some "log,.yaml,").
Proof.
  assert (H1 : ["log"; ".yaml"; EmptyString] <> []) by discriminate.
  assert (H2 : Forall (fun piece => comma_free piece = true) ["log"; ".yaml"; EmptyString])
    by (repeat constructor).
  assert (H3 : Py.join "," ["log"; ".yaml"; EmptyString] <> EmptyString) by discriminate.
  split; [exact H1|]. split; [exact H2|]. split; [reflexivity|].
  split; [|split; [|split]].
  - refine (proj2 (effective_extensions_of_pieces _ ".log" H1 H2 H3) _).
    right. exists "log". split; [simpl; auto | reflexivity].
  - refine (proj2 (effective_extensions_of_pieces _ ".yaml" H1 H2 H3) _).
    right. exists ".yaml". split; [simpl; auto | reflexivity].
  - refine (proj2 (effective_extensions_of_pieces _ "." H1 H2 H3) _).
    right. exists EmptyString. split; [simpl; auto | reflexivity].
  - intros Hin.
    destruct (proj1 (effective_extensions_of_pieces _ "log" H1 H2 H3) Hin)
      as [Hdefault|(piece & Hpiece & Hdot)].
    + exact (log_not_default Hdefault).
    + destruct Hpiece as [<-|[<-|[<-|[]]]]; discriminate Hdot.
Defined.

Lemma wait_for_processing_poll_bound_witness :
  clock_advances (scenario pending_backend []) /\
  (length (requests (trace (snd (Ingest.wait_for_processing (scenario pending_backend [])
                                   POLL_FUEL session0 "http://h" (JStr "f1") world0))))
   <= length (requests (trace world0)) + 60)%nat.
Proof.
  split; [apply scenario_clock_advances|].
  exact (wait_for_processing_poll_bound _ _ _ _ _ _ (scenario_clock_advances _ _)).
Defined.

Lemma pending_backend_wait :
  Ingest.wait_for_processing (scenario pending_backend []) POLL_FUEL session0 "http://h"
    (JStr "f1") world0
  = (Ret false,
     snd (Ingest.wait_for_processing (scenario pending_backend []) POLL_FUEL session0
            "http://h" (JStr "f1") world0)).
Proof. vm_compute. reflexivity. Qed.

Lemma wait_for_processing_false_witness :
  Ingest.wait_for_processing (scenario pending_backend []) POLL_FUEL session0 "http://h"
    (JStr "f1") world0
  = (Ret false,
     snd (Ingest.wait_for_processing (scenario pending_backend []) POLL_FUEL session0
            "http://h" (JStr "f1") world0)) /\
  ((now world0 + Ingest.POLL_TIMEOUT
    <= now (snd (Ingest.wait_for_processing (scenario pending_backend []) POLL_FUEL
                   session0 "http://h" (JStr "f1") world0)))%Q \/
   exists w0 r j,
     send (scenario pending_backend []) (status_request session0 "http://h" (JStr "f1")) w0
     = (Ret r, snd (Ingest.wait_for_processing (scenario pending_backend []) POLL_FUEL
                      session0 "http://h" (JStr "f1") world0)) /\
     json_body r = Some j /\ has_field "status" (JStr "failed") j).
Proof.
  split; [exact pending_backend_wait|].
  exact (wait_for_processing_false _ _ _ _ _ _ _ pending_backend_wait).
Defined.

Lemma status_error_upload :
  Ingest.upload_file (scenario status_error_backend small_tree) session0 "http://h"
    ["data"; "a.txt"] world0
  = (Ret (JStr "id-a.txt"),
     snd (Ingest.upload_file (scenario status_error_backend small_tree) session0 "http://h"
            ["data"; "a.txt"] world0)).
Proof. vm_compute. reflexivity. Qed.

Lemma status_error_wait :
  Ingest.wait_for_processing (scenario status_error_backend small_tree) POLL_FUEL session0
    "http://h" (JStr "id-a.txt")
    (printed [processing_chunk]
       (printed [uploaded_line (JStr "id-a.txt")]
          (snd (Ingest.upload_file (scenario status_error_backend small_tree) session0
                  "http://h" ["data"; "a.txt"] world0))))
  = (Raise (HTTPError 500 "status endpoint down"),
     snd (Ingest.wait_for_processing (scenario status_error_backend small_tree) POLL_FUEL
            session0 "http://h" (JStr "id-a.txt")
            (printed [processing_chunk]
               (printed [uploaded_line (JStr "id-a.txt")]
                  (snd (Ingest.upload_file (scenario status_error_backend small_tree)
                          session0 "http://h" ["data"; "a.txt"] world0)))))).
Proof. vm_compute. reflexivity. Qed.

Lemma ingest_entry_wait_raises_witness :
  fst (Ingest.ingest_entry (scenario status_error_backend small_tree) POLL_FUEL session0
         "http://h" (JStr "kb-1") ["data"; "a.txt"] world0) = Ret false /\
  attached (requests (trace (snd (Ingest.ingest_entry
                                    (scenario status_error_backend small_tree) POLL_FUEL
                                    session0 "http://h" (JStr "kb-1") ["data"; "a.txt"]
                                    world0)))) = [].
Proof.
  destruct (ingest_entry_wait_raises (scenario status_error_backend small_tree) POLL_FUEL
              session0 "http://h" (JStr "kb-1") ["data"; "a.txt"] world0 _ _ _ _
              status_error_upload status_error_wait) as [Hrun Hatt].
  rewrite Hrun. split; [reflexivity | exact Hatt].
Defined.

Lemma attach_error_upload :
  Ingest.upload_file (scenario attach_error_backend small_tree) session0 "http://h"
    ["data"; "a.txt"] world0
  = (Ret (JStr "id-a.txt"),
     snd (Ingest.upload_file (scenario attach_error_backend small_tree) session0 "http://h"
            ["data"; "a.txt"] world0)).
Proof. vm_compute. reflexivity. Qed.

Lemma attach_error_wait :
  Ingest.wait_for_processing (scenario attach_error_backend small_tree) POLL_FUEL session0
    "http://h" (JStr "id-a.txt")
    (printed [processing_chunk]
       (printed [uploaded_line (JStr "id-a.txt")]
          (snd (Ingest.upload_file (scenario attach_error_backend small_tree) session0
                  "http://h" ["data"; "a.txt"] world0))))
  = (Ret true,
     snd (Ingest.wait_for_processing (scenario attach_error_backend small_tree) POLL_FUEL
            session0 "http://h" (JStr "id-a.txt")
            (printed [processing_chunk]
               (printed [uploaded_line (JStr "id-a.txt")]
                  (snd (Ingest.upload_file (scenario attach_error_backend small_tree)
                          session0 "http://h" ["data"; "a.txt"] world0)))))).
Proof. vm_compute. reflexivity. Qed.

Lemma attach_error_add :
  Ingest.add_to_knowledge (scenario attach_error_backend small_tree) session0 "http://h"
    (JStr "kb-1") (JStr "id-a.txt")
    (printed [outcome_line true]
       (snd (Ingest.wait_for_processing (scenario attach_error_backend small_tree) POLL_FUEL
               session0 "http://h" (JStr "id-a.txt")
               (printed [processing_chunk]
                  (printed [uploaded_line (JStr "id-a.txt")]
                     (snd (Ingest.upload_file (scenario attach_error_backend small_tree)
                             session0 "http://h" ["data"; "a.txt"] world0)))))))
  = (Raise (HTTPError 409 "already attached"),
     snd (Ingest.add_to_knowledge (scenario attach_error_backend small_tree) session0
            "http://h" (JStr "kb-1") (JStr "id-a.txt")
            (printed [outcome_line true]
               (snd (Ingest.wait_for_processing (scenario attach_error_backend small_tree)
                       POLL_FUEL session0 "http://h" (JStr "id-a.txt")
                       (printed [processing_chunk]
                          (printed [uploaded_line (JStr "id-a.txt")]
                             (snd (Ingest.upload_file
                                     (scenario attach_error_backend small_tree) session0
                                     "http://h" ["data"; "a.txt"] world0))))))))).
Proof. vm_compute. reflexivity. Qed.

Lemma ingest_entry_attach_raises_witness :
  fst (Ingest.ingest_entry (scenario attach_error_backend small_tree) POLL_FUEL session0
         "http://h" (JStr "kb-1") ["data"; "a.txt"] world0) = Ret false /\
  attached (requests (trace (snd (Ingest.ingest_entry
                                    (scenario attach_error_backend small_tree) POLL_FUEL
                                    session0 "http://h" (JStr "kb-1") ["data"; "a.txt"]
                                    world0))))
  = [("http://h/api/v1/knowledge/kb-1/file/add", JStr "id-a.txt")].
Proof.
  destruct (ingest_entry_attach_raises (scenario attach_error_backend small_tree) POLL_FUEL
              session0 "http://h" (JStr "kb-1") ["data"; "a.txt"] world0 _ _ _ _ _ _
              attach_error_upload attach_error_wait attach_error_add) as [Hrun Hatt].
  rewrite Hrun. split; [reflexivity | exact Hatt].
Defined.

Lemma batch_loop_uploads_in_order_witness :
  clock_advances (scenario batch_backend small_tree) /\
  (POLL_FUEL <= 61)%nat /\
  uploaded_names
    (requests (trace (snd (Ingest.batch_loop (scenario batch_backend small_tree) 61
                             session0 "http://h" (JStr "kb-1") ["data"] 3 1
                             (entries ["data"] three_files) 0 0 world0))))
  = ["a.txt"; "b.pdf"; "c.md"].
Proof.
  split; [apply scenario_clock_advances|].
  split; [unfold POLL_FUEL; lia|].
  exact (batch_loop_uploads_in_order (scenario batch_backend small_tree) 61 session0
           "http://h" (JStr "kb-1") ["data"] 3 1 three_files 0 0 world0
           (scenario_clock_advances _ _) (Nat.le_refl _)).
Defined.

Lemma main_validation_witness :
  (is_dir (scenario library_backend small_tree)
          (resolve (scenario library_backend small_tree)
             (Ingest.arg_folder (run_of "nowhere"))) = false \/
   (Py.truthy (api_key_of (scenario library_backend small_tree) (run_of "nowhere")) = false /\
    Ingest.arg_dry_run (run_of "nowhere") = false) \/
   catalog (scenario library_backend small_tree) (run_of "nowhere") = []) /\
  fst (Ingest.main (scenario library_backend small_tree) POLL_FUEL (run_of "nowhere") world0)
  = Raise (SystemExit (ExitMsg "Not a directory: /nowhere")).
Proof.
  split; [left; reflexivity|].
  destruct (main_validation (scenario library_backend small_tree) POLL_FUEL
              (run_of "nowhere") world0 (or_introl eq_refl)) as (msg & Hrun & _).
  reflexivity.
Defined.

Lemma main_exit_status_witness :
  clock_advances (scenario full_backend small_tree) /\
  (POLL_FUEL <= POLL_FUEL)%nat /\
  (exit_status (fst (Ingest.main (scenario full_backend small_tree) POLL_FUEL
                       (run_of "data") world0)) = Some 0%Z \/
   exit_status (fst (Ingest.main (scenario full_backend small_tree) POLL_FUEL
                       (run_of "data") world0)) = Some 1%Z).
Proof.
  split; [apply scenario_clock_advances|]. split; [apply Nat.le_refl|].
  exact (main_exit_status (scenario full_backend small_tree) POLL_FUEL (run_of "data")
           world0 (scenario_clock_advances _ _) (Nat.le_refl _)).
Defined.

Lemma two_files_exit_0 :
  exit_status (fst (Ingest.main (scenario full_backend two_files) POLL_FUEL
                      (run_of "data") world0)) = Some 0%Z.
Proof. vm_compute. reflexivity. Qed.

Lemma main_exit_0_attached_all_witness :
  Ingest.arg_dry_run (run_of "data") = false /\
  exit_status (fst (Ingest.main (scenario full_backend two_files) POLL_FUEL
                      (run_of "data") world0)) = Some 0%Z /\
  exists kb_id file_ids,
    length file_ids = length (catalog (scenario full_backend two_files) (run_of "data")) /\
    attached (requests (trace (snd (Ingest.main (scenario full_backend two_files)
                                      POLL_FUEL (run_of "data") world0))))
    = attached (requests (trace world0))
      ++ map (fun f => (Ingest.add_url (base_url_of (run_of "data")) kb_id, f)) file_ids.
Proof.
  split; [reflexivity|]. split; [exact two_files_exit_0|].
  exact (main_exit_0_attached_all (scenario full_backend two_files) POLL_FUEL
           (run_of "data") world0 eq_refl two_files_exit_0).
Defined.

Example two_files_attached :
  attached (requests (trace (snd (Ingest.main (scenario full_backend two_files)
                                    POLL_FUEL (run_of "data") world0))))
  = [("http://h/api/v1/knowledge/kb-1/file/add", JStr "id-a.txt");
     ("http://h/api/v1/knowledge/kb-1/file/add", JStr "id-c.md")].
Proof. vm_compute. reflexivity. Qed.

Lemma small_tree_catalog_not_empty :
  catalog (scenario down_backend small_tree) (run_of "data") <> [].
Proof. intros H. vm_compute in H. discriminate H. Qed.

Lemma main_listing_error_is_fatal_witness :
  is_dir (scenario down_backend small_tree)
         (resolve (scenario down_backend small_tree) (Ingest.arg_folder (run_of "data")))
  = true /\
  Py.truthy (api_key_of (scenario down_backend small_tree) (run_of "data")) = true /\
  Ingest.arg_dry_run (run_of "data") = false /\
  catalog (scenario down_backend small_tree) (run_of "data") <> [] /\
  is_error (status_code (mkResponse 401 "invalid token" None)) = true /\
  fst (Ingest.main (scenario down_backend small_tree) POLL_FUEL (run_of "data") world0)
  = Raise (HTTPError 401 "invalid token") /\
  length (requests (trace (snd (Ingest.main (scenario down_backend small_tree) POLL_FUEL
                                  (run_of "data") world0)))) = 1%nat.
Proof.
  split; [reflexivity|]. split; [reflexivity|]. split; [reflexivity|].
  split; [exact small_tree_catalog_not_empty|]. split; [reflexivity|].
  destruct (main_listing_error_is_fatal (scenario down_backend small_tree) POLL_FUEL
              (run_of "data") world0 1 (mkResponse 401 "invalid token" None)
              eq_refl eq_refl eq_refl small_tree_catalog_not_empty eq_refl eq_refl)
    as (Hres & Hreq & _).
  split; [exact Hres|]. rewrite Hreq. reflexivity.
Defined.

Lemma kb_with_description_fields id name description :
  has_field "id" (JStr id) (kb_with_description id name description) /\
  has_field "name" (JStr name) (kb_with_description id name description).
Proof. split; (eexists; split; reflexivity). Qed.

Lemma list_collections_projects_witness :
  listing_of (JArr [kb_with_description "kb-1" "docs" "manuals";
                    kb_with_description "kb-2" "notes" "minutes"])
             [kb_with_description "kb-1" "docs" "manuals";
              kb_with_description "kb-2" "notes" "minutes"] /\
  fst (Mcp.list_collections (scenario read_only_backend []) world0)
  = Ret [kb "kb-1" "docs"; kb "kb-2" "notes"].
Proof.
  split; [left; reflexivity|].
  rewrite (list_collections_projects (scenario read_only_backend []) world0 1
             (ok_json (JArr [kb_with_description "kb-1" "docs" "manuals";
                             kb_with_description "kb-2" "notes" "minutes"]))
             (JArr [kb_with_description "kb-1" "docs" "manuals";
                    kb_with_description "kb-2" "notes" "minutes"])
             [kb_with_description "kb-1" "docs" "manuals";
              kb_with_description "kb-2" "notes" "minutes"]
             [(JStr "kb-1", JStr "docs"); (JStr "kb-2", JStr "notes")]
             eq_refl eq_refl eq_refl (or_introl eq_refl)).
  - reflexivity.
  - constructor; [apply kb_with_description_fields|].
    constructor; [apply kb_with_description_fields | constructor].
Defined.

Lemma null_id_listing :
  listing_of (JObj [("items", JArr [kb "kb-2" "notes"; null_id_kb])])
             ([kb "kb-2" "notes"] ++ null_id_kb :: []).
Proof. right. eexists. split; reflexivity. Qed.

Lemma rag_query_null_id_witness :
  has_field "name" (JStr "docs") null_id_kb /\
  has_field "id" JNull null_id_kb /\
  fst (Mcp.rag_query (scenario null_id_backend []) "what is X?" "docs" "gemma3:27b" world0)
  = Ret (JStr "Collection 'docs' not found. Available: ['notes', 'docs']").
Proof.
  assert (H1 : has_field "name" (JStr "docs") null_id_kb)
    by (eexists; split; reflexivity).
  assert (H2 : has_field "id" JNull null_id_kb) by (eexists; split; reflexivity).
  split; [exact H1|]. split; [exact H2|].
  destruct (rag_query_null_id (scenario null_id_backend []) "what is X?" "docs"
              "gemma3:27b" world0 1
              (ok_json (JObj [("items", JArr [kb "kb-2" "notes"; null_id_kb])]))
              (JObj [("items", JArr [kb "kb-2" "notes"; null_id_kb])])
              [kb "kb-2" "notes"] null_id_kb [] ["notes"; "docs"]
              eq_refl eq_refl eq_refl null_id_listing) as [_ Hrun].
  - constructor; [apply kb_named_otherwise; discriminate | constructor].
  - exact H1.
  - exact H2.
  - constructor; [apply kb_has_name|]. constructor; [exact H1 | constructor].
  - rewrite Hrun. reflexivity.
Defined.

Lemma rag_query_completion_error_witness :
  is_error (status_code (mkResponse 503 "model not loaded" None)) = true /\
  fst (Mcp.rag_query (scenario read_only_backend []) "what is X?" "docs" "gemma3:27b"
         world0)
  = Raise (HTTPError 503 "model not loaded").
Proof.
  split; [reflexivity|].
  exact (rag_query_completion_error (scenario read_only_backend []) "what is X?" "docs"
           "gemma3:27b" world0 1
           (ok_json (JArr [kb_with_description "kb-1" "docs" "manuals";
                           kb_with_description "kb-2" "notes" "minutes"]))
           (JArr [kb_with_description "kb-1" "docs" "manuals";
                  kb_with_description "kb-2" "notes" "minutes"])
           [] (kb_with_description "kb-1" "docs" "manuals")
           [kb_with_description "kb-2" "notes" "minutes"] (JStr "kb-1")
           1 (mkResponse 503 "model not loaded" None)
           eq_refl eq_refl eq_refl (or_introl eq_refl)
           ltac:(constructor)
           (proj2 (kb_with_description_fields "kb-1" "docs" "manuals"))
           (proj1 (kb_with_description_fields "kb-1" "docs" "manuals"))
           ltac:(discriminate) eq_refl eq_refl).
Defined.
